(** * airflow_mcp: the chat router of the Airflow front end

    A shallow embedding of the decision logic of the three chat components
    of the repository:

    - [Chatbot2]   : src/Chatbot2.jsx, first component (rerun / list / model);
    - [Chatbot2AI] : src/Chatbot2.jsx, second component (model-driven router);
    - [Analytics]  : src/Analytics.jsx, the [Chatbot] component (pattern
                     cascade);
    - [Detail]     : the state, [callMCPServer] and [extractDags] that the
                     last two have word for word in common.

    Further views of the same files:

    - [Dashboard]  : src/Analytics.jsx, the [AnalyticsDashboard] component
                     (the fetch of the table, the tags, the filters, the
                     pages and the counters);
    - [Pager]      : the table under the chat of the three chat components;
    - [Typewriter] : the placeholder of their input.

    Of the JSX of the views only the buttons that decide the page and the
    numbers shown around the tables are embedded; the smooth caret, the
    scrolling, the styling and the rendering of the messages are not.  A
    turn is described by the state it leaves and by the calls it makes.

    Conventions of the embedding.

    - A JavaScript string is a Rocq [string] that holds its UTF-8 form: one
      [ascii] is one byte, and a character outside ASCII is the two to four
      bytes of its encoding, as the emoji of the bot messages are in the
      source file.  White space is the whole of ECMAScript's WhiteSpace and
      LineTerminator.  A character outside the Basic Multilingual Plane
      counts as one character, where JavaScript counts two code units.
      Case conversion is exact on the ASCII letters and on the two
      characters outside ASCII whose lower case has an ASCII letter; the
      other letters outside ASCII are left as they are.
    - A JavaScript value obtained from JSON is a [value]; numbers are
      integers, printed in decimal, which is exact for the integers below
      2^53 in magnitude.  No property of such a value is a function, so an
      object with a property [toString] of its own has no string form.
    - [fetch] is an event of a small program monad; a turn is run against an
      arbitrary backend that may answer by the history of the turn.
    - A state updater that computes its value is run by React while it
      renders, outside every [try] of the component: what it throws
      unmounts the component, and the state is then the last one rendered.
    - [console.log], [console.warn] and [console.error] have no effect on the
      state and are left out. *)

From Stdlib Require Import String Ascii List Bool Arith ZArith NArith Lia Sorted.
From Stdlib Require Import DecimalString.
Import ListNotations.
Local Open Scope list_scope.
Local Open Scope string_scope.
Set Warnings "-register-all".

(** ** Characters and strings *)

Definition chr (n : nat) : string := String (ascii_of_nat n) EmptyString.

(** The line feed, written [\n] in the source. *)
Definition nl : string := chr 10.
(** The no-break space U+00A0. *)
Definition nbsp : string := String (ascii_of_nat 194) (chr 160).
(** The double quote. *)
Definition dq : string := chr 34.

Definition code (c : ascii) : nat := nat_of_ascii c.

Definition between (lo hi : nat) (c : ascii) : bool :=
  (lo <=? code c)%nat && (code c <=? hi)%nat.

Definition is_char (n : nat) (c : ascii) : bool := (code c =? n)%nat.

(** The white space below 128: TAB, LF, VT, FF, CR, SP. *)
Definition is_space (c : ascii) : bool :=
  between 9 13 c || is_char 32 c.

(** The white space of three bytes: U+1680, U+2000 to U+200A, U+2028,
    U+2029, U+202F, U+205F, U+3000 and U+FEFF. *)
Definition wide_space (a b c : ascii) : bool :=
  (is_char 225 a && is_char 154 b && is_char 128 c)
  || (is_char 226 a && is_char 128 b
      && (between 128 138 c || is_char 168 c || is_char 169 c || is_char 175 c))
  || (is_char 226 a && is_char 129 b && is_char 159 c)
  || (is_char 227 a && is_char 128 b && is_char 128 c)
  || (is_char 239 a && is_char 187 b && is_char 191 c).

(** The number of bytes of the white space character at the head of a
    text, 0 when the text starts with something else.  White space is what
    [\s] matches and [trim] removes: WhiteSpace and LineTerminator, of which
    U+00A0 takes two bytes. *)
Definition space_len (s : string) : nat :=
  match s with
  | EmptyString => 0
  | String a t =>
      if is_space a then 1 else
      match t with
      | EmptyString => 0
      | String b u =>
          if is_char 194 a && is_char 160 b then 2 else
          match u with
          | EmptyString => 0
          | String c _ => if wide_space a b c then 3 else 0
          end
      end
  end.

(** The number of bytes of the character at the head of a text, by its
    first byte. *)
Definition char_len (s : string) : nat :=
  match s with
  | EmptyString => 0
  | String a _ =>
      Nat.min (String.length s)
              (if (code a <? 192)%nat then 1
               else if (code a <? 224)%nat then 2
               else if (code a <? 240)%nat then 3 else 4)
  end.

(** Whether a text starts with a LineTerminator: LF, CR, U+2028, U+2029. *)
Definition line_end (s : string) : bool :=
  match s with
  | String a t =>
      is_char 10 a || is_char 13 a
      || match t with
         | String b (String c _) =>
             is_char 226 a && is_char 128 b && (is_char 168 c || is_char 169 c)
         | _ => false
         end
  | EmptyString => false
  end.

(** [\w]: the word characters that [\b] looks at. *)
Definition is_word (c : ascii) : bool :=
  between 97 122 c || between 65 90 c || between 48 57 c || is_char 95 c.

Definition lower (c : ascii) : ascii :=
  if between 65 90 c then ascii_of_nat (code c + 32) else c.

Definition upper (c : ascii) : ascii :=
  if between 97 122 c then ascii_of_nat (code c - 32) else c.

Fixpoint map_string (f : ascii -> ascii) (s : string) : string :=
  match s with
  | EmptyString => EmptyString
  | String c s' => String (f c) (map_string f s')
  end.

(** [String.prototype.toLowerCase]: U+0130 becomes [i] and U+0307, and the
    Kelvin sign U+212A becomes [k]. *)
Fixpoint toLowerCase (s : string) : string :=
  match s with
  | EmptyString => EmptyString
  | String a t =>
      match t with
      | String b u =>
          if is_char 196 a && is_char 176 b
          then String "i" (String (ascii_of_nat 204)
                             (String (ascii_of_nat 135) (toLowerCase u)))
          else
            match u with
            | String c v =>
                if is_char 226 a && is_char 132 b && is_char 170 c
                then String "k" (toLowerCase v)
                else String (lower a) (toLowerCase t)
            | EmptyString => String (lower a) (toLowerCase t)
            end
      | EmptyString => String (lower a) EmptyString
      end
  end.

(** [String.prototype.toUpperCase], on the ASCII letters; the other
    letters are left as they are. *)
Definition toUpperCase : string -> string := map_string upper.

Definition is_empty (s : string) : bool :=
  match s with EmptyString => true | _ => false end.

(** [String.prototype.trimStart]; [skip] counts the bytes still to pass of
    the white space character being removed. *)
Fixpoint trimStart_from (skip : nat) (s : string) : string :=
  match skip, s with
  | S n, String _ s' => trimStart_from n s'
  | S _, EmptyString => EmptyString
  | 0, String _ s' =>
      match space_len s with
      | S n => trimStart_from n s'
      | 0 => s
      end
  | 0, EmptyString => EmptyString
  end.

Definition trimStart (s : string) : string := trimStart_from 0 s.

(** A text of white space alone. *)
Definition blank (s : string) : bool := is_empty (trimStart s).

(** [String.prototype.trimEnd]: the text up to its last stretch of white
    space, when it ends with one. *)
Fixpoint trimEnd (s : string) : string :=
  match s with
  | String c s' => if blank s then EmptyString else String c (trimEnd s')
  | EmptyString => EmptyString
  end.

(** [String.prototype.trim]. *)
Definition trim (s : string) : string := trimEnd (trimStart s).

(** [String.prototype.startsWith]. *)
Definition startsWith (s p : string) : bool := prefix p s.

(** [s.split("\n")[0]]: the text before the first line feed. *)
Fixpoint first_line (s : string) : string :=
  match s with
  | String c s' => if is_char 10 c then EmptyString else String c (first_line s')
  | EmptyString => EmptyString
  end.

Fixpoint drop (n : nat) (s : string) : string :=
  match n, s with
  | S n', String _ s' => drop n' s'
  | _, _ => s
  end.

(** Whether a white space character starts somewhere in a text. *)
Fixpoint has_space (s : string) : bool :=
  match s with
  | String _ s' => negb (space_len s =? 0)%nat || has_space s'
  | EmptyString => false
  end.

(** [s.split(/\s+/).slice(-1)[0]]: the text after the last white space
    character (empty when the string ends in white space). *)
Fixpoint last_token (s : string) : string :=
  match s with
  | String _ s' => if has_space s' then last_token s' else drop (space_len s) s
  | EmptyString => EmptyString
  end.

(** Decimal text of a number, as in a template literal. *)
Definition string_of_Z (z : Z) : string := NilZero.string_of_int (Z.to_int z).
Definition string_of_nat (n : nat) : string := string_of_Z (Z.of_nat n).

Definition concat_all (l : list string) : string :=
  fold_right append EmptyString l.

(** ** Exceptions and results *)

(** An [Error] object: the source reads [err.message] and [String(err)]. *)
Record exn : Type := Error { name : string; message : string }.

(** [String(err)], that is [Error.prototype.toString]. *)
Definition exn_to_string (e : exn) : string :=
  if is_empty (name e) then message e
  else if is_empty (message e) then name e
  else name e ++ ": " ++ message e.

Inductive result (A : Type) : Type :=
| Ok (a : A)
| Raise (e : exn).
Arguments Ok {A} a.
Arguments Raise {A} e.

Definition rbind {A B} (r : result A) (f : A -> result B) : result B :=
  match r with
  | Ok a => f a
  | Raise e => Raise e
  end.

Notation "'let?' x := r 'in' k" := (rbind r (fun x => k))
  (at level 61, x name, r at next level, right associativity).

(** How a piece of component code ends: with a result, or with the
    component unmounted by the exception that a state updater threw while
    React was rendering.  No [try] of the component sees that exception,
    and no setter has an effect after it: the state that goes with
    [Unmounted] is the last one rendered. *)
Inductive ending (A : Type) : Type :=
| Done (r : result A)
| Unmounted (e : exn).
Arguments Done {A} r.
Arguments Unmounted {A} e.
Coercion Done : result >-> ending.
Arguments pair {A B} & a b.

(** ** Values *)

(** The values that [JSON.parse] and property reads produce.  [VObj] lists
    the own properties of an object in enumeration order, keys distinct. *)
Inductive value : Type :=
| VUndef
| VNull
| VBool (b : bool)
| VNum (n : Z)
| VStr (s : string)
| VArr (l : list value)
| VObj (props : list (string * value)).

(** [ToBoolean]. *)
Definition truthy (v : value) : bool :=
  match v with
  | VUndef | VNull => false
  | VBool b => b
  | VNum n => negb (n =? 0)%Z
  | VStr s => negb (is_empty s)
  | VArr _ | VObj _ => true
  end.

(** [a || b] on values. *)
Definition or_else (a b : value) : value := if truthy a then a else b.

Definition isArray (v : value) : bool :=
  match v with VArr _ => true | _ => false end.

(** [typeof v === "string"]. *)
Definition is_string (v : value) : bool :=
  match v with VStr _ => true | _ => false end.

Definition is_nullish (v : value) : bool :=
  match v with VUndef | VNull => true | _ => false end.

Fixpoint lookup (k : string) (ps : list (string * value)) : option value :=
  match ps with
  | [] => None
  | (k', v) :: ps' => if String.eqb k k' then Some v else lookup k ps'
  end.

Definition is_digit (c : ascii) : bool := between 48 57 c.

(** A canonical array index: decimal digits without a leading zero. *)
Definition index_of_string (s : string) : option nat :=
  match s with
  | EmptyString => None
  | String c s' =>
      if forallb is_digit (list_ascii_of_string s)
         && (negb (code c =? 48)%nat || is_empty s')
      then Some (fold_left (fun n d => 10 * n + (code d - 48))
                           (list_ascii_of_string s) 0)
      else None
  end.

(** The characters of a string, each with the bytes of its encoding: a byte
    from 128 to 191 continues the character before it. *)
Fixpoint pieces (s : string) : list string :=
  match s with
  | EmptyString => []
  | String c s' =>
      match pieces s' with
      | p :: ps =>
          if match s' with
             | String d _ => between 128 191 d
             | EmptyString => false
             end
          then String c p :: ps
          else String c EmptyString :: p :: ps
      | [] => [String c EmptyString]
      end
  end.

Definition chars (s : string) : list value := map VStr (pieces s).

Definition element (l : list value) (k : string) : value :=
  match index_of_string k with
  | Some i => nth i l VUndef
  | None => VUndef
  end.

(** The property read [v.k] on a value that is neither [null] nor
    [undefined].  The names the source reads are not on any prototype,
    except [length]. *)
Definition read (v : value) (k : string) : value :=
  match v with
  | VObj ps => match lookup k ps with Some x => x | None => VUndef end
  | VArr l =>
      if String.eqb k "length" then VNum (Z.of_nat (List.length l))
      else element l k
  | VStr s =>
      if String.eqb k "length" then VNum (Z.of_nat (List.length (chars s)))
      else element (chars s) k
  | _ => VUndef
  end.

Definition describe (v : value) : string :=
  match v with VNull => "null" | _ => "undefined" end.

Definition read_error (v : value) (k : string) : exn :=
  Error "TypeError"
    ("Cannot read properties of " ++ describe v ++ " (reading '" ++ k ++ "')").

(** [v.k]: a [TypeError] on [null] and [undefined]. *)
Definition get (v : value) (k : string) : result value :=
  if is_nullish v then Raise (read_error v k) else Ok (read v k).

(** [v?.k]. *)
Definition get_opt (v : value) (k : string) : value :=
  if is_nullish v then VUndef else read v k.

Definition not_a_function (what : string) : exn :=
  Error "TypeError" (what ++ " is not a function").

(** Whether a value has a string form.  An object from JSON with a
    property [toString] of its own has none: the property is no function,
    [valueOf] gives the object back, and the conversion throws.  A sequence
    converts by [join], which converts its elements other than [null] and
    [undefined]. *)
Fixpoint converts (v : value) : bool :=
  match v with
  | VArr l => forallb (fun x => is_nullish x || converts x) l
  | VObj ps => match lookup "toString" ps with Some _ => false | None => true end
  | _ => true
  end.

(** The string form of a value that has one. *)
Fixpoint string_form (v : value) : string :=
  match v with
  | VUndef => "undefined"
  | VNull => "null"
  | VBool true => "true"
  | VBool false => "false"
  | VNum n => string_of_Z n
  | VStr s => s
  | VArr l =>
      String.concat ","
        (map (fun x => if is_nullish x then EmptyString else string_form x) l)
  | VObj _ => "[object Object]"
  end.

Definition not_primitive : exn :=
  Error "TypeError" "Cannot convert object to primitive value".

(** [String(v)] and the coercion of a template literal. *)
Definition to_string (v : value) : result string :=
  if converts v then Ok (string_form v) else Raise not_primitive.

(** ** JSON.stringify *)

Definition hex_digit (n : nat) : string :=
  if (n <? 10)%nat then chr (48 + n) else chr (87 + n).

Definition quote_char (c : ascii) : string :=
  let n := code c in
  if (n =? 34)%nat then "\" ++ dq
  else if (n =? 92)%nat then "\\"
  else if (n =? 8)%nat then "\b"
  else if (n =? 12)%nat then "\f"
  else if (n =? 10)%nat then "\n"
  else if (n =? 13)%nat then "\r"
  else if (n =? 9)%nat then "\t"
  else if (n <? 32)%nat then "\u00" ++ hex_digit (n / 16) ++ hex_digit (n mod 16)
  else String c EmptyString.

(** [QuoteJSONString]. *)
Definition quote (s : string) : string :=
  dq ++ concat_all (map quote_char (list_ascii_of_string s)) ++ dq.

Definition bracket (op cl gap ind ind' : string) (items : list string) : string :=
  match items with
  | [] => op ++ cl
  | _ =>
      if is_empty gap then op ++ String.concat "," items ++ cl
      else op ++ nl ++ ind' ++ String.concat ("," ++ nl ++ ind') items
              ++ nl ++ ind ++ cl
  end.

(** [SerializeJSONProperty] with indentation unit [gap] at indentation
    [ind]; [None] is the [undefined] that is left out of an object. *)
Fixpoint serialize (gap ind : string) (v : value) : option string :=
  match v with
  | VUndef => None
  | VNull => Some "null"
  | VBool true => Some "true"
  | VBool false => Some "false"
  | VNum n => Some (string_of_Z n)
  | VStr s => Some (quote s)
  | VArr l =>
      let ind' := ind ++ gap in
      Some (bracket "[" "]" gap ind ind'
              (map (fun x => match serialize gap ind' x with
                             | Some t => t
                             | None => "null"
                             end) l))
  | VObj ps =>
      let ind' := ind ++ gap in
      let colon := if is_empty gap then ":" else ": " in
      Some (bracket "{" "}" gap ind ind'
              (flat_map (fun kv => match kv with
                                   | (k, x) =>
                                       match serialize gap ind' x with
                                       | Some t => [quote k ++ colon ++ t]
                                       | None => []
                                       end
                                   end) ps))
  end.

Definition of_option (o : option string) : value :=
  match o with Some s => VStr s | None => VUndef end.

(** [JSON.stringify(v)]. *)
Definition JSON_stringify (v : value) : value := of_option (serialize "" "" v).
(** [JSON.stringify(v)] in a template literal. *)
Definition JSON_text (v : value) : string :=
  match serialize "" "" v with
  | Some t => t
  | None => "undefined"
  end.
(** [JSON.stringify(v, null, 2)]. *)
Definition JSON_stringify2 (v : value) : value := of_option (serialize "  " "" v).

(** ** Object construction *)

Definition is_index (k : string) : bool :=
  match index_of_string k with Some _ => true | None => false end.

Definition index_lt (k k' : string) : bool :=
  match index_of_string k, index_of_string k' with
  | Some i, Some j => (i <? j)%nat
  | Some _, None => true
  | _, _ => false
  end.

(** A new key goes after the keys already there, an index key among the
    index keys, which an object enumerates first and in ascending order. *)
Fixpoint add_key (k : string) (v : value) (ps : list (string * value))
  : list (string * value) :=
  match ps with
  | [] => [(k, v)]
  | (k', v') :: ps' =>
      if is_index k && index_lt k k' then (k, v) :: ps
      else (k', v') :: add_key k v ps'
  end.

Fixpoint replace_key (k : string) (v : value) (ps : list (string * value))
  : list (string * value) :=
  match ps with
  | [] => []
  | (k', v') :: ps' =>
      if String.eqb k k' then (k', v) :: ps' else (k', v') :: replace_key k v ps'
  end.

(** The assignment [o.k = v] on the properties of [o]. *)
Definition set_prop (k : string) (v : value) (ps : list (string * value))
  : list (string * value) :=
  match lookup k ps with
  | Some _ => replace_key k v ps
  | None => add_key k v ps
  end.

Fixpoint indexed (i : nat) (l : list value) : list (string * value) :=
  match l with
  | [] => []
  | x :: l' => (string_of_nat i, x) :: indexed (S i) l'
  end.

(** The own enumerable properties that a spread [...v] copies. *)
Definition own_props (v : value) : list (string * value) :=
  match v with
  | VObj ps => ps
  | VArr l => indexed 0 l
  | VStr s => indexed 0 (chars s)
  | _ => []
  end.

(** [{ ...ps, ...v }]. *)
Definition spread (ps : list (string * value)) (v : value)
  : list (string * value) :=
  fold_left (fun acc kv => set_prop (fst kv) (snd kv) acc) (own_props v) ps.

(** ** Regular expressions

    The backtracking matcher of ECMAScript for the constructs the source
    uses.  Every quantifier of the source applies to a single character or
    class, so the quantified forms take a character set.  The patterns of
    the source have ASCII characters only; the text may have any. *)

Inductive cset : Type :=
| Lit (c : ascii)           (* a pattern character *)
| Dot                       (* [.] *)
| Space                     (* [\s] *)
| Range (lo hi : ascii)     (* [lo-hi] inside a class *)
| Union (a b : cset).       (* two members of a class *)

Inductive regex : Type :=
| Empty
| One (s : cset)
| Star (s : cset)           (* [s*]  *)
| Lazy (s : cset)           (* [s*?] *)
| Plus (s : cset)           (* [s+]  *)
| Opt (s : cset)            (* [s?]  *)
| Boundary                  (* [\b]  *)
| Seq (a b : regex)
| Alt (a b : regex)
| Group (n : nat) (r : regex).   (* the n-th capturing group *)

Record regexp : Type := RegExp { pattern : regex; ignoreCase : bool }.

Definition in_range (lo hi c : ascii) : bool := between (code lo) (code hi) c.

(** A set of single bytes at the head of a text. *)
Definition single (p : ascii -> bool) (t : string) : nat :=
  match t with
  | String c _ => if p c then 1 else 0
  | EmptyString => 0
  end.

(** The number of bytes that a character of the set takes at the head of a
    text, 0 when the text does not start with one; the canonicalization of
    the [i] flag never takes a character outside ASCII to an ASCII one. *)
Fixpoint width (i : bool) (s : cset) (t : string) : nat :=
  match s with
  | Lit x =>
      single (fun c => if i then Ascii.eqb (upper c) (upper x)
                       else Ascii.eqb c x) t
  | Dot => if line_end t then 0 else char_len t
  | Space => space_len t
  | Range lo hi =>
      single (fun c => in_range lo hi c
                       || (i && (in_range lo hi (lower c)
                                 || in_range lo hi (upper c)))) t
  | Union a b =>
      match width i a t with
      | 0 => width i b t
      | n => n
      end
  end.

(** A position of the matcher: the byte before it, the text after it, and
    the captures made so far. *)
Record mstate : Type :=
  MState { before : option ascii; rest : string; caps : list (nat * string) }.

Definition or_try {A} (a : option A) (b : unit -> option A) : option A :=
  match a with Some x => Some x | None => b tt end.

(** The position [n] bytes further. *)
Fixpoint advance (n : nat) (b : option ascii) (s : string)
  : option ascii * string :=
  match n, s with
  | S n', String c s' => advance n' (Some c) s'
  | _, _ => (b, s)
  end.

Section Matcher.
Context {A : Type}.
(** The bytes of a character of the set at the head of a text. *)
Variable w : string -> nat.

(** [skip] counts the bytes still to pass of the character being taken. *)
Fixpoint greedy (skip : nat) (b : option ascii) (s : string)
         (cs : list (nat * string)) (k : mstate -> option A) : option A :=
  match skip, s with
  | S n, String c s' => greedy n (Some c) s' cs k
  | S _, EmptyString => None
  | 0, String c s' =>
      match w s with
      | S n => or_try (greedy n (Some c) s' cs k) (fun _ => k (MState b s cs))
      | 0 => k (MState b s cs)
      end
  | 0, EmptyString => k (MState b s cs)
  end.

Fixpoint lazy (skip : nat) (b : option ascii) (s : string)
         (cs : list (nat * string)) (k : mstate -> option A) : option A :=
  match skip, s with
  | S n, String c s' => lazy n (Some c) s' cs k
  | S _, EmptyString => None
  | 0, String c s' =>
      or_try (k (MState b s cs))
             (fun _ => match w s with
                       | S n => lazy n (Some c) s' cs k
                       | 0 => None
                       end)
  | 0, EmptyString => k (MState b s cs)
  end.

Definition one (st : mstate) (k : mstate -> option A) : option A :=
  match w (rest st) with
  | 0 => None
  | n =>
      let p := advance n (before st) (rest st) in
      k (MState (fst p) (snd p) (caps st))
  end.
End Matcher.

Definition word_at (o : option ascii) : bool :=
  match o with Some c => is_word c | None => false end.

Definition next_char (s : string) : option ascii :=
  match s with String c _ => Some c | EmptyString => None end.

(** The text consumed between two positions. *)
Definition consumed (s s' : string) : string :=
  substring 0 (String.length s - String.length s') s.

Fixpoint rmatch {A} (i : bool) (r : regex) (st : mstate)
         (k : mstate -> option A) : option A :=
  match r with
  | Empty => k st
  | One s => one (width i s) st k
  | Star s => greedy (width i s) 0 (before st) (rest st) (caps st) k
  | Lazy s => lazy (width i s) 0 (before st) (rest st) (caps st) k
  | Plus s =>
      one (width i s) st
          (fun st' => greedy (width i s) 0 (before st') (rest st') (caps st') k)
  | Opt s => or_try (one (width i s) st k) (fun _ => k st)
  | Boundary =>
      if xorb (word_at (before st)) (word_at (next_char (rest st)))
      then k st else None
  | Seq a b => rmatch i a st (fun st' => rmatch i b st' k)
  | Alt a b => or_try (rmatch i a st k) (fun _ => rmatch i b st k)
  | Group n a =>
      rmatch i a st
          (fun st' =>
             k (MState (before st') (rest st')
                       ((n, consumed (rest st) (rest st')) :: caps st')))
  end.

(** The leftmost match from a position on; the positions are those between
    two characters. *)
Fixpoint scan (re : regexp) (skip : nat) (b : option ascii) (s : string)
  : option (list (nat * string)) :=
  match skip, s with
  | S n, String c s' => scan re n (Some c) s'
  | S _, EmptyString => None
  | 0, _ =>
      or_try (rmatch (ignoreCase re) (pattern re) (MState b s [])
                  (fun st => Some (caps st)))
             (fun _ => match s with
                       | String c s' => scan re (char_len s - 1) (Some c) s'
                       | EmptyString => None
                       end)
  end.

(** [re.exec(s)] and [s.match(re)] for a regular expression without the
    [g] flag: the captures of the leftmost match. *)
Definition exec (re : regexp) (s : string) : option (list (nat * string)) :=
  scan re 0 None s.

(** [re.test(s)]. *)
Definition test (re : regexp) (s : string) : bool :=
  match exec re s with Some _ => true | None => false end.

Fixpoint capture (n : nat) (cs : list (nat * string)) : option string :=
  match cs with
  | [] => None
  | (m, t) :: cs' => if (n =? m)%nat then Some t else capture n cs'
  end.

(** Whether [s.match(re)] is an array rather than [null]. *)
Definition matched {A} (m : option A) : bool :=
  match m with Some _ => true | None => false end.

(** The text of the first group of a match, [m[1]] in a template; in every
    pattern of the source that is read this way the first group takes part
    in every match. *)
Definition group1 (m : list (nat * string)) : string :=
  match capture 1 m with
  | Some t => t
  | None => "undefined"
  end.

(** [s.match(re)] with [m[1]] read: [None] when the match is [null]. *)
Definition match1 (re : regexp) (s : string) : option string :=
  option_map group1 (exec re s).

(** Pattern syntax. *)
Definition seq (l : list regex) : regex := fold_right Seq Empty l.
Definition lit (w : string) : regex :=
  seq (map (fun c => One (Lit c)) (list_ascii_of_string w)).
Fixpoint alt (r : regex) (l : list regex) : regex :=
  match l with
  | [] => r
  | r' :: l' => Alt r (alt r' l')
  end.

(** The class [[a-zA-Z0-9_\-:.]] of the identifiers. *)
Definition ident : cset :=
  Union (Range "a" "z") (Union (Range "A" "Z") (Union (Range "0" "9")
    (Union (Lit "_") (Union (Lit "-") (Union (Lit ":") (Lit ".")))))).

(** The class of the two quote characters. *)
Definition quotes : cset := Union (Lit "'") (Lit (ascii_of_nat 34)).

(** The tail shared by the patterns of the cascade:
    [\s+['"]?([a-zA-Z0-9_\-:.]+)['"]?]. *)
Definition quoted_ident : regex :=
  seq [Plus Space; Opt quotes; Group 1 (Plus ident); Opt quotes].

(** What is left of [s] after the prefix [w], letter case apart. *)
Fixpoint prefix_ci (w s : string) : option string :=
  match w, s with
  | EmptyString, _ => Some s
  | String a w', String c s' =>
      if Ascii.eqb (upper a) (upper c) then prefix_ci w' s' else None
  | _, EmptyString => None
  end.

(** The text before and after the first occurrence of [w]. *)
Fixpoint find_ci (w s : string) : option (string * string) :=
  match prefix_ci w s with
  | Some s' => Some (EmptyString, s')
  | None =>
      match s with
      | String c s' =>
          match find_ci w s' with
          | Some (u, v) => Some (String c u, v)
          | None => None
          end
      | EmptyString => None
      end
  end.

(** [s.split(/w/i)[1]] for a literal [w]: the text between the first and
    the second occurrence of [w], or up to the end; [None] is [undefined]. *)
Definition split_second (w s : string) : option string :=
  match find_ci w s with
  | Some (_, v) =>
      match find_ci w v with
      | Some (u, _) => Some u
      | None => Some v
      end
  | None => None
  end.

(** ** The comparison [v > 0] *)

Definition digits_in (ok : ascii -> bool) (l : list ascii) : bool :=
  negb (Nat.eqb (List.length l) 0) && forallb ok l.

Definition is_hex (c : ascii) : bool :=
  is_digit c || between 97 102 c || between 65 70 c.

Definition nonzero (l : list ascii) : bool :=
  existsb (fun c => negb (code c =? 48)%nat) l.

Fixpoint take_while (ok : ascii -> bool) (l : list ascii) : list ascii * list ascii :=
  match l with
  | c :: l' =>
      if ok c then let (a, b) := take_while ok l' in (c :: a, b) else ([], l)
  | [] => ([], [])
  end.

(** [ExponentPart]: nothing, or [e] or [E], a sign, and digits. *)
Definition exponent_ok (l : list ascii) : bool :=
  match l with
  | [] => true
  | c :: l' =>
      (is_char 101 c || is_char 69 c)
      && match l' with
         | d :: l'' =>
             if is_char 43 d || is_char 45 d then digits_in is_digit l''
             else digits_in is_digit l'
         | [] => false
         end
  end.

(** An unsigned [StrDecimalLiteral] other than [Infinity]: is it well
    formed, and has its mantissa a digit other than zero.  A literal too
    small for a double is not told apart from its exact value. *)
Definition decimal (l : list ascii) : option bool :=
  let (int, r) := take_while is_digit l in
  let (frac, r') :=
    match r with
    | c :: r0 => if is_char 46 c then take_while is_digit r0 else ([], r)
    | [] => ([], r)
    end in
  let dotted := match r with c :: _ => is_char 46 c | [] => false end in
  if Nat.eqb (List.length int + List.length frac) 0 then None
  else if negb dotted && Nat.eqb (List.length int) 0 then None
  else if exponent_ok r' then Some (nonzero int || nonzero frac)
  else None.

Definition radix_literal (l : list ascii) : option bool :=
  match l with
  | z :: x :: ds =>
      if is_char 48 z then
        if is_char 120 x || is_char 88 x then
          Some (digits_in is_hex ds && nonzero ds)
        else if is_char 111 x || is_char 79 x then
          Some (digits_in (between 48 55) ds && nonzero ds)
        else if is_char 98 x || is_char 66 x then
          Some (digits_in (between 48 49) ds && nonzero ds)
        else None
      else None
  | _ => None
  end.

Definition unsigned_positive (l : list ascii) : bool :=
  if String.eqb (string_of_list_ascii l) "Infinity" then true
  else match decimal l with Some b => b | None => false end.

(** [StringToNumber(s) > 0]. *)
Definition string_positive (s : string) : bool :=
  let l := list_ascii_of_string (trim s) in
  match radix_literal l with
  | Some b => b
  | None =>
      match l with
      | c :: l' =>
          if is_char 45 c then false
          else if is_char 43 c then unsigned_positive l'
          else unsigned_positive l
      | [] => false
      end
  end.

(** [v > 0], through [ToPrimitive] and [ToNumber]: an object or a sequence
    is compared by its string form, and throws when it has none. *)
Definition gt_zero (v : value) : result bool :=
  match v with
  | VUndef | VNull => Ok false
  | VBool b => Ok b
  | VNum n => Ok (0 <? n)%Z
  | VStr s => Ok (string_positive s)
  | VArr _ | VObj _ =>
      let? s := to_string v in
      Ok (string_positive s)
  end.

(** ** Requests, responses and programs *)

Definition MCP_URL : string := "http://localhost:8800/run".
Definition TOOL_RERUN_URL : string := "http://localhost:8800/tool/rerun_dag".
Definition GROQ_API : string := "https://api.groq.com/openai/v1/chat/completions".

(** The three kinds of [fetch] of the source, all of them POST with a JSON
    body: [{query}] to [MCP_URL], [{dag_id}] to [TOOL_RERUN_URL], and a chat
    completion to [GROQ_API] with a bearer key, a model, a system message
    and a user message. *)
Inductive request : Type :=
| PostRun (query : string)
| PostRerun (dag_id : string)
| PostGroq (key model system user : string).

Definition url (r : request) : string :=
  match r with
  | PostRun _ => MCP_URL
  | PostRerun _ => TOOL_RERUN_URL
  | PostGroq _ _ _ _ => GROQ_API
  end.

(** What [res.json()] settles to. *)
Inductive body : Type :=
| Json (v : value)
| NotJson (e : exn).

(** What [fetch] settles to: a rejection, or a response with its status. *)
Inductive response : Type :=
| Rejected (e : exn)
| Response (status : nat) (b : body).

(** [res.ok]. *)
Definition status_ok (status : nat) : bool :=
  (200 <=? status)%nat && (status <=? 299)%nat.

Inductive prog (A : Type) : Type :=
| Ret (a : A)
| Fetch (r : request) (k : response -> prog A)
| FetchBoth (r1 r2 : request) (k : response -> response -> prog A).
Arguments Ret {A} a.
Arguments Fetch {A} r k.
Arguments FetchBoth {A} r1 r2 k.

Fixpoint pbind {A B} (p : prog A) (f : A -> prog B) : prog B :=
  match p with
  | Ret a => f a
  | Fetch r k => Fetch r (fun x => pbind (k x) f)
  | FetchBoth r1 r2 k => FetchBoth r1 r2 (fun x y => pbind (k x y) f)
  end.

(** [Promise.all([p, q])] of two calls: each runs up to its first [fetch]
    before either response is looked at. *)
Definition all2 {A B} (p : prog A) (q : prog B) : prog (A * B) :=
  match p, q with
  | Fetch r1 k1, Fetch r2 k2 =>
      FetchBoth r1 r2
        (fun x y => pbind (k1 x) (fun a => pbind (k2 y) (fun b => Ret (a, b))))
  | _, _ => pbind p (fun a => pbind q (fun b => Ret (a, b)))
  end.

(** What the outside world saw of a turn. *)
Inductive event : Type :=
| Call (r : request)
| CallBoth (r1 r2 : request).

(** A backend answers a request knowing what has been asked before. *)
Definition backend : Type := list event -> request -> response.

Fixpoint run {A} (b : backend) (h : list event) (p : prog A) : A * list event :=
  match p with
  | Ret a => (a, h)
  | Fetch r k => run b (h ++ [Call r])%list (k (b h r))
  | FetchBoth r1 r2 k =>
      run b (h ++ [CallBoth r1 r2])%list
          (k (b h r1) (b (h ++ [Call r1])%list r2))
  end.

(** Component code: state [S], exceptions, and calls. *)
Definition M (S A : Type) : Type := S -> prog (ending A * S).

Section Monad.
Context {S : Type}.

Definition ret {A} (a : A) : M S A := fun s => Ret (Done (Ok a), s).
Definition raise {A} (e : exn) : M S A := fun s => Ret (Done (Raise e), s).

Definition bind {A B} (m : M S A) (f : A -> M S B) : M S B :=
  fun s => pbind (m s) (fun rs =>
    match rs with
    | (Done (Ok a), s') => f a s'
    | (Done (Raise e), s') => Ret (Done (Raise e), s')
    | (Unmounted e, s') => Ret (Unmounted e, s')
    end).

(** [await p] for a call that settles to a value. *)
Definition await {A} (p : prog A) : M S A :=
  fun s => pbind p (fun a => Ret (Done (Ok a), s)).

Definition lift {A} (r : result A) : M S A := fun s => Ret (Done r, s).

(** A state setter. *)
Definition update (f : S -> S) : M S unit := fun s => Ret (Done (Ok tt), f s).

(** A state setter whose updater computes the value to set.  React runs
    the updater while it renders, with no [try] of the component around
    it: what the computation throws unmounts the component.  In the source
    such a setter is followed by setters only, up to the end of the
    turn. *)
Definition updater {A} (value : result A) (set : A -> M S unit) : M S unit :=
  match value with
  | Ok a => set a
  | Raise e => fun s => Ret (Unmounted e, s)
  end.

(** [try { m } catch (err) { h err }]. *)
Definition catch {A} (m : M S A) (h : exn -> M S A) : M S A :=
  fun s => pbind (m s) (fun rs =>
    match rs with
    | (Done (Ok a), s') => Ret (Done (Ok a), s')
    | (Done (Raise e), s') => h e s'
    | (Unmounted e, s') => Ret (Unmounted e, s')
    end).

(** [try { m } finally { f }]. *)
Definition finally {A} (m : M S A) (f : M S unit) : M S A :=
  fun s => pbind (m s) (fun rs =>
    match rs with
    | (Done r, s') =>
        pbind (f s') (fun us =>
          match us with
          | (Done (Ok _), s'') => Ret (Done r, s'')
          | (Done (Raise e), s'') => Ret (Done (Raise e), s'')
          | (Unmounted e, s'') => Ret (Unmounted e, s'')
          end)
    | (Unmounted e, s') => Ret (Unmounted e, s')
    end).
End Monad.

(** A computation that issues no call. *)
Definition silent {S A} (m : M S A) : Prop :=
  forall b h s, snd (run b h (m s)) = h.

Notation "x <- m ;; k" := (bind m (fun x => k))
  (at level 61, m at next level, right associativity).
Notation "m ;; k" := (bind m (fun _ => k))
  (at level 61, right associativity).

(** [l.map(f)] for a callback that may throw. *)
Fixpoint mapM {A B} (f : A -> result B) (l : list A) : result (list B) :=
  match l with
  | [] => Ok []
  | x :: l' =>
      let? y := f x in
      let? ys := mapM f l' in
      Ok (y :: ys)
  end.

(** A chat message. *)
Record chat_message : Type := Message { sender : string; text : value }.

Definition bot (t : string) : chat_message := Message "bot" (VStr t).

(** What [callMCPServer] returns. *)
Record reply : Type :=
  Reply { ok : bool; status : nat; body_of : value; error : value }.

(** [fetch] inside a [try]: a rejection is thrown. *)
Definition fetchM {S} (r : request) : M S (nat * body) :=
  fun s => Fetch r (fun x =>
    match x with
    | Rejected e => Ret (Done (Raise e), s)
    | Response st b => Ret (Done (Ok (st, b)), s)
    end).

(** [err.message || String(err)] and [err.message || err] in a template. *)
Definition message_or_string (err : exn) : string :=
  if is_empty (message err) then exn_to_string err else message err.

(** ** Commands and rules

    The operation that a branch of [sendMessage] starts, in the vocabulary
    of the specification, and the rules of its section 4.1. *)

Inductive command : Type :=
| List
| Search (term : string)
| Details (id : string)
| LatestRun (id : string)
| Pause (id : string)
| Unpause (id : string)
| Trigger (id : string)
| Freeform (text : string).

Inductive rule_name : Type :=
| rule_rerun        (* 1 *)
| rule_list         (* 2 *)
| rule_search       (* 3 *)
| rule_details      (* 4 *)
| rule_pause        (* 5 *)
| rule_unpause      (* 6 *)
| rule_trigger      (* 7 *)
| rule_latest_run.  (* 8 *)

(** A rule of a cascade: the condition of its [if], and the command its
    branch starts; [None] when the branch starts none. *)
Record rule : Type := Rule {
  rule_id : rule_name;
  fires : string -> bool;
  outcome : string -> option command
}.

(** The first rule of a list that fires, and the default otherwise. *)
Definition first_match (rules : list rule) (query : string) : option command :=
  match find (fun r => fires r query) rules with
  | Some r => outcome r query
  | None => Some (Freeform query)
  end.

(** * src/Chatbot2.jsx, first component *)

Module Chatbot2.

Record state : Type := State {
  messages : list chat_message;
  input : string;
  loading : bool;
  dagList : value;
  currentPage : nat
}.

Definition addMessage (m : chat_message) : M state unit :=
  update (fun s => State (messages s ++ [m])%list (input s) (loading s)
                         (dagList s) (currentPage s)).
Definition setInput (i : string) : M state unit :=
  update (fun s => State (messages s) i (loading s) (dagList s) (currentPage s)).
Definition setLoading (b : bool) : M state unit :=
  update (fun s => State (messages s) (input s) b (dagList s) (currentPage s)).
Definition setDagList (d : value) : M state unit :=
  update (fun s => State (messages s) (input s) (loading s) d (currentPage s)).
Definition setCurrentPage (n : nat) : M state unit :=
  update (fun s => State (messages s) (input s) (loading s) (dagList s) n).

(** [callMCPServer], lines 58-71: a body that is not JSON becomes [{}]. *)
Definition settle (res : response) : reply :=
  match res with
  | Response st b =>
      let data := match b with Json v => v | NotJson _ => VObj [] end in
      Reply (status_ok st) st data VUndef
  | Rejected err => Reply false 0 VNull (VStr (message_or_string err))
  end.

Definition callMCPServer (query : string) : prog reply :=
  Fetch (PostRun query) (fun res => Ret (settle res)).

(** [data.choices?.[0]?.message?.content || "Error: No response from model."] *)
Definition completion (data : value) : result value :=
  let? choices := get data "choices" in
  Ok (or_else (get_opt (get_opt (get_opt choices "0") "message") "content")
              (VStr "Error: No response from model.")).

(** [callGroqModel], lines 74-100. *)
Definition callGroqModel (apiKey userMessage : string) (airflowData : value)
  : prog value :=
  if is_empty apiKey
  then Ret (VStr "Missing Groq API key. Add VITE_GROQ_API_KEY to .env")
  else
    Fetch (PostGroq apiKey "llama-3.1-8b-instant"
             "You are a helpful Apache Airflow assistant."
             ("User: " ++ userMessage ++ nl ++ nl ++ "Airflow Data: "
                ++ JSON_text airflowData))
      (fun res =>
         let groq_error err := VStr ("Groq Error: " ++ message err) in
         match res with
         | Response _ (Json data) =>
             match completion data with
             | Ok v => Ret v
             | Raise err => Ret (groq_error err)
             end
         | Response _ (NotJson err) => Ret (groq_error err)
         | Rejected err => Ret (groq_error err)
         end).

(** [extractDags], lines 103-120. *)
Definition extractDags (mcpBody : value) : result value :=
  if negb (truthy mcpBody) then Ok (VArr []) else
  let? output := get mcpBody "output" in
  let? c1 := (if truthy output
              then let? dags := get output "dags" in Ok (isArray dags)
              else Ok false) in
  if c1 then get output "dags" else
  let? dags := get mcpBody "dags" in
  if isArray dags then Ok dags else
  let? data := get mcpBody "data" in
  let? found :=
    (if truthy data then
       let? ddags := get data "dags" in
       if isArray ddags then Ok (Some ddags)
       else if isArray data then Ok (Some data)
       else Ok None
     else Ok None) in
  match found with
  | Some v => Ok v
  | None =>
      let? results := get mcpBody "results" in
      if isArray results then Ok results
      else if isArray mcpBody then Ok mcpBody
      else Ok (VArr [])
  end.

(** The callback of [normalizeDagList], lines 124-128. *)
Definition normalizeEntry (d : value) : result value :=
  if negb (truthy d) then Ok (VStr "") else
  if is_string d then Ok d else
  let? a := get d "dag_id" in
  if truthy a then Ok a else
  let? b := get d "dagId" in
  if truthy b then Ok b else
  let? c := get d "id" in
  if truthy c then Ok c else
  Ok (JSON_stringify d).

(** [normalizeDagList], lines 123-129: [map] and then [filter(Boolean)]. *)
Definition normalizeDagList (rawDags : value) : result (list value) :=
  match rawDags with
  | VArr l =>
      let? mapped := mapM normalizeEntry l in
      Ok (filter truthy mapped)
  | _ => Raise (not_a_function "rawDags.map")
  end.

(** [/\brerun\s+([a-zA-Z0-9_\-:.]+)/] *)
Definition re_rerun : regexp :=
  RegExp (seq [Boundary; lit "rerun"; Plus Space; Group 1 (Plus ident)]) false.

(** [/\blist\b.*\bdag/i] *)
Definition re_list : regexp :=
  RegExp (seq [Boundary; lit "list"; Boundary; Star Dot; Boundary; lit "dag"])
         true.

(** [/show all dags/i] *)
Definition re_show : regexp := RegExp (lit "show all dags") true.

(** [body.data?.dag_run_id || body.data?.run_id || body.data?.dagRunId ||
    body.data?.dag_run?.dag_run_id], line 157. *)
Definition rerun_id (body : value) : result value :=
  let? data := get body "data" in
  Ok (or_else (get_opt data "dag_run_id")
     (or_else (get_opt data "run_id")
     (or_else (get_opt data "dagRunId")
              (get_opt (get_opt data "dag_run") "dag_run_id")))).

(** The rerun branch, lines 144-186. *)
Definition rerun (dagId : string) : M state unit :=
  finally
    (catch
       ( res <- fetchM (PostRerun dagId) ;;
         let body := match snd res with Json v => v | NotJson _ => VObj [] end in
         if status_ok (fst res) && truthy (get_opt body "success") then
           runId <- lift (rerun_id body) ;;
           updater
             (let? shown := to_string (or_else runId (VStr "manual")) in
              Ok (bot ("DAG `" ++ dagId ++ "` has been triggered successfully."
                         ++ nl ++ "Run ID: `" ++ shown ++ "`")))
             addMessage
         else if status_ok (fst res) then
           addMessage (bot ("Failed to trigger DAG `" ++ dagId
                              ++ "`. Server responded with unexpected payload."))
         else
           addMessage (bot ("Error: Failed to trigger DAG `" ++ dagId
                              ++ "`. HTTP " ++ string_of_nat (fst res))) )
       (fun err =>
          addMessage (bot ("Error: Could not reach MCP server. Is it running on port 8800? ("
                             ++ message_or_string err ++ ")"))))
    (setLoading false).

Definition no_dags : string := "No DAGs found or server not responding.".

(** The list branch, lines 189-211. *)
Definition list_dags : M state unit :=
  result <- await (callMCPServer "list all dags") ;;
  if negb (ok result) then
    addMessage (bot no_dags) ;; setLoading false
  else
    let raw := body_of result in
    dags <- lift (extractDags raw) ;;
    positive <- lift (gt_zero (read dags "length")) ;;
    ( if positive then
        normalized <- lift (normalizeDagList dags) ;;
        setDagList (VArr normalized) ;;
        setCurrentPage 1 ;;
        addMessage (bot ("Found " ++ string_of_nat (List.length normalized)
                           ++ " DAGs. Showing in table below."))
      else
        addMessage (bot no_dags) ) ;;
    setLoading false.

(** The default branch, lines 214-224. *)
Definition forward (apiKey query : string) : M state unit :=
  finally
    (catch
       ( mcpRes <- await (callMCPServer query) ;;
         let airflowData := body_of mcpRes in
         reply <- await (callGroqModel apiKey query airflowData) ;;
         addMessage (Message "bot" (or_else reply (VStr "No response from model."))) )
       (fun err =>
          addMessage (bot ("Error processing request: " ++ message_or_string err))))
    (setLoading false).

(** [sendMessage], lines 132-225. *)
Definition sendMessage (apiKey : string) : M state unit :=
  fun st =>
    ( if is_empty (trim (input st)) then ret tt else
      let userMsg := Message "user" (VStr (input st)) in
      addMessage userMsg ;;
      setInput "" ;;
      setLoading true ;;
      let query := trim (input st) in
      match match1 re_rerun (toLowerCase query) with
      | Some dagId => rerun dagId
      | None =>
          if test re_list query || test re_show query then list_dags
          else forward apiKey query
      end ) st.

(** The conditions of [sendMessage], lines 143-213, with the command
    that each branch starts. *)
Definition matcher (query : string) : option command :=
  match match1 re_rerun (toLowerCase query) with
  | Some dagId => Some (Trigger dagId)
  | None =>
      if test re_list query || test re_show query then Some List
      else Some (Freeform query)
  end.

(** The branches of [sendMessage]; its matcher yields no other command. *)
Definition execute (apiKey : string) (c : option command) : M state unit :=
  match c with
  | Some (Trigger dagId) => rerun dagId
  | Some List => list_dags
  | Some (Freeform query) => forward apiKey query
  | _ => ret tt
  end.

(** The same conditions as a table, in the order of the source. *)
Definition rerun_rule : rule :=
  Rule rule_rerun
       (fun q => matched (match1 re_rerun (toLowerCase q)))
       (fun q => option_map Trigger (match1 re_rerun (toLowerCase q))).

Definition list_rule : rule :=
  Rule rule_list
       (fun q => test re_list q || test re_show q)
       (fun _ => Some List).

Definition rules : list rule := [rerun_rule; list_rule].

End Chatbot2.

(** The state of the two components that show a detail record. *)
Module Detail.
Record state : Type := State {
  messages : list chat_message;
  input : string;
  loading : bool;
  dagList : value;
  dagDetails : value;
  currentPage : nat
}.

Definition addMessage (m : chat_message) : M state unit :=
  update (fun s => State (messages s ++ [m])%list (input s) (loading s)
                         (dagList s) (dagDetails s) (currentPage s)).
Definition setInput (i : string) : M state unit :=
  update (fun s => State (messages s) i (loading s) (dagList s)
                         (dagDetails s) (currentPage s)).
Definition setLoading (b : bool) : M state unit :=
  update (fun s => State (messages s) (input s) b (dagList s)
                         (dagDetails s) (currentPage s)).
Definition setDagList (d : value) : M state unit :=
  update (fun s => State (messages s) (input s) (loading s) d
                         (dagDetails s) (currentPage s)).
Definition setDagDetails (d : value) : M state unit :=
  update (fun s => State (messages s) (input s) (loading s) (dagList s)
                         d (currentPage s)).
Definition setCurrentPage (n : nat) : M state unit :=
  update (fun s => State (messages s) (input s) (loading s) (dagList s)
                         (dagDetails s) n).

(** [callMCPServer] of both components (Chatbot2.jsx 526-539,
    Analytics.jsx 426-439): [res.json()] is awaited inside the [try]. *)
Definition settle (res : response) : reply :=
  match res with
  | Response st (Json data) => Reply (status_ok st) st data VUndef
  | Response _ (NotJson err) => Reply false 0 VNull (VStr (message err))
  | Rejected err => Reply false 0 VNull (VStr (message err))
  end.

Definition callMCPServer (query : string) : prog reply :=
  Fetch (PostRun query) (fun res => Ret (settle res)).

(** [extractDags] of both components (Chatbot2.jsx 542-549,
    Analytics.jsx 442-449). *)
Definition extractDags (mcpBody : value) : result value :=
  if negb (truthy mcpBody) then Ok (VArr []) else
  let? output := get mcpBody "output" in
  if truthy (get_opt output "dags") then
    let? output := get mcpBody "output" in get output "dags"
  else
  let? dags := get mcpBody "dags" in
  if isArray dags then Ok dags else
  let? results := get mcpBody "results" in
  if isArray results then Ok results else
  if isArray mcpBody then Ok mcpBody else
  Ok (VArr []).

(** The part that the two versions of [parseMCPResponse] share
    (Analytics.jsx 454-474, Chatbot2.jsx 555-575); [None] when it falls
    through. *)
Definition parseCommon (body : value) : result (option value) :=
  let? success := get body "success" in
  let? c1 := (if truthy success then get body "message" else Ok success) in
  if truthy c1 then let? m := get body "message" in Ok (Some m) else
  let? err := get body "error" in
  if truthy err then
    let? shown := to_string err in
    Ok (Some (VStr ("❌ Error: " ++ shown)))
  else
  let? output := get body "output" in
  if truthy output then
    if is_string output then Ok (Some output) else
    let? m := get output "message" in
    if truthy m then Ok (Some m) else
    let? state := get output "state" in
    let? c2 := (if truthy state then Ok state else get output "status") in
    if truthy c2 then
      let? shown := to_string c2 in
      Ok (Some (VStr ("Status: " ++ shown)))
    else Ok None
  else Ok None.
End Detail.

(** * src/Chatbot2.jsx, second component *)

Module Chatbot2AI.
Import Detail.

(** The command forms that the system prompt lists, lines 613-619: a verb
    phrase and the name of its argument. *)
Definition supported_commands : list (string * option string) :=
  [ ("list all dags", None);
    ("search dags", Some "term");
    ("get dag details", Some "dag_id");
    ("get latest run", Some "dag_id");
    ("pause dag", Some "dag_id");
    ("unpause dag", Some "dag_id");
    ("trigger dag", Some "dag_id") ].

Definition form (c : string * option string) : string :=
  match snd c with
  | Some arg => fst c ++ " <" ++ arg ++ ">"
  | None => fst c
  end.

(** The system message of [sendToAI], lines 608-633. *)
Definition system_prompt : string :=
  String.concat nl
    (List.app
     [ "";
       "You are an Airflow Control Agent. Your job is to convert a user's natural language request into a single concise MCP command.";
       "ONLY return the command string (no surrounding quotes, no markdown, no explanation).";
       "";
       "Supported MCP commands (exact forms expected):" ]
     (List.app
        (map (fun c => "- " ++ form c) supported_commands)
        [ "";
          "If the user asks multiple actions, return the primary desired action only.";
          "If you cannot determine a dag_id or term, return a helpful command that uses 'list all dags' or 'search dags <term>' where term is the best guess.";
          "";
          "Examples:";
          "User: " ++ dq ++ "pause analytics" ++ dq;
          "AI: pause dag analytics";
          "";
          "User: " ++ dq ++ "show me the latest run for my_dag" ++ dq;
          "AI: get latest run my_dag";
          "";
          "User: " ++ dq ++ "list dags" ++ dq;
          "AI: list all dags";
          "" ])).

(** [parseMCPResponse], lines 552-587. *)
Definition parseMCPResponse (body : value) : result value :=
  if negb (truthy body) then Ok (VStr "No response body.") else
  let? common := parseCommon body in
  match common with
  | Some v => Ok v
  | None =>
      let? m := get body "message" in
      if truthy m then Ok m else
      let? data := get body "data" in
      if truthy data then Ok (JSON_stringify2 data) else
      Ok (JSON_stringify2 body)
  end.

(** The content of a completion, lines 644-647. *)
Definition content_of (data : value) : value :=
  let choice := get_opt (get_opt data "choices") "0" in
  or_else (get_opt (get_opt choice "message") "content")
          (or_else (get_opt choice "text")
                   (if is_string data then data else VNull)).

(** What [sendToAI] makes of the settled request, lines 642-660; [None]
    is [null].  A content that is not a string has no [split], and the
    [TypeError] is caught. *)
Definition interpret (res : response) : option string :=
  match res with
  | Response _ (Json data) =>
      let content := content_of data in
      if negb (truthy content) then None else
      match content with
      | VStr c =>
          let firstLine := trim (first_line c) in
          Some firstLine
      | _ => None
      end
  | Response _ (NotJson _) => None
  | Rejected _ => None
  end.

Definition ai_request (GROQ_API_KEY text : string) : request :=
  PostGroq GROQ_API_KEY "mixtral-8x7b" system_prompt text.

(** [sendToAI], lines 590-661. *)
Definition sendToAI (GROQ_API_KEY text : string) : prog (option string) :=
  if is_empty GROQ_API_KEY then Ret None else
  Fetch (ai_request GROQ_API_KEY text) (fun res => Ret (interpret res)).

(** [!aiCommand]. *)
Definition no_command (aiCommand : option string) : bool :=
  match aiCommand with
  | Some c => is_empty c
  | None => true
  end.

Definition command_text (aiCommand : option string) : string :=
  match aiCommand with
  | Some c => c
  | None => "null"
  end.

(** [setDagList] and [setCurrentPage] when the reply lists workflows. *)
Definition showDags (dags : value) : M state unit :=
  setDagList dags ;; setCurrentPage 1.

(** The branch without a key, lines 676-697. *)
Definition degraded (userQuery : string) : M state unit :=
  addMessage (bot "⚠️ Groq API key not configured. Falling back to local heuristics (no AI).") ;;
  fallbackRes <- await (callMCPServer userQuery) ;;
  ( if ok fallbackRes then
      responseText <- lift (parseMCPResponse (body_of fallbackRes)) ;;
      addMessage (Message "bot" responseText) ;;
      dags <- lift (extractDags (body_of fallbackRes)) ;;
      positive <- lift (gt_zero (read dags "length")) ;;
      if positive then showDags dags else ret tt
    else
      addMessage (bot ("❌ MCP Server error (" ++ string_of_nat (status fallbackRes) ++ ")")) ) ;;
  setLoading false.

(** Steps 2 to 4, lines 710-746. *)
Definition dispatch (aiCommand : string) : M state unit :=
  addMessage (bot ("🔁 Interpreted as: `" ++ aiCommand ++ "`")) ;;
  result <- await (callMCPServer aiCommand) ;;
  if negb (ok result) then
    addMessage (bot ("❌ MCP Server error (" ++ string_of_nat (status result)
                       ++ "). Make sure the MCP server is running on "
                       ++ MCP_URL ++ ".")) ;;
    setLoading false
  else
    responseText <- lift (parseMCPResponse (body_of result)) ;;
    addMessage (Message "bot"
                  (or_else responseText
                           (VStr "Request completed but no response data."))) ;;
    dags <- lift (extractDags (body_of result)) ;;
    positive <- lift (gt_zero (read dags "length")) ;;
    if positive then showDags dags
    else if startsWith aiCommand "get dag details"
            || startsWith aiCommand "get latest run" then
      let dagId := last_token aiCommand in
      let details := spread [("dag_id", VStr dagId)] (body_of result) in
      setDagDetails (VObj details)
    else ret tt.

Definition not_interpreted : string :=
  "❌ AI could not interpret the request. Try rephrasing.".

(** [sendMessage], lines 664-753. *)
Definition sendMessage (GROQ_API_KEY : string) : M state unit :=
  fun st =>
    ( if is_empty (trim (input st)) then ret tt else
      let userMsg := Message "user" (VStr (input st)) in
      addMessage userMsg ;;
      let userQuery := trim (input st) in
      setInput "" ;;
      setLoading true ;;
      setDagDetails VNull ;;
      finally
        (catch
           ( if is_empty GROQ_API_KEY then degraded userQuery else
             addMessage (bot "🤖 Interpreting your request...") ;;
             aiCommand <- await (sendToAI GROQ_API_KEY userQuery) ;;
             if no_command aiCommand then
               addMessage (bot not_interpreted) ;; setLoading false
             else dispatch (command_text aiCommand) )
           (fun err => addMessage (bot ("❌ Error: " ++ message err))))
        (setLoading false) ) st.

End Chatbot2AI.

(** * src/Analytics.jsx, the chat component *)

Module Analytics.
Import Detail.

(** [parseMCPResponse], lines 452-478. *)
Definition parseMCPResponse (body : value) : result value :=
  let? common := parseCommon body in
  match common with
  | Some v => Ok v
  | None => Ok (JSON_stringify2 body)
  end.

(** [/\b(list|show|get)\b.*\b(all|dags?)\b/i] *)
Definition re_list : regexp :=
  RegExp (seq [Boundary; Group 1 (alt (lit "list") [lit "show"; lit "get"]);
               Boundary; Star Dot; Boundary;
               Group 2 (alt (lit "all") [Seq (lit "dag") (Opt (Lit "s"))]);
               Boundary]) true.

(** [/search.*(?:for|dags?)\s+['""]?([a-zA-Z0-9_\-:.]+)['""]?/i] *)
Definition re_search : regexp :=
  RegExp (seq [lit "search"; Star Dot;
               alt (lit "for") [Seq (lit "dag") (Opt (Lit "s"))];
               quoted_ident]) true.

(** [/\bsearch\b/i] *)
Definition re_search_word : regexp :=
  RegExp (seq [Boundary; lit "search"; Boundary]) true.

(** [/(?:details?|info|status).*?(?:for|of|on)\s+['""]?(...)['""]?/i] *)
Definition re_details : regexp :=
  RegExp (seq [alt (Seq (lit "detail") (Opt (Lit "s"))) [lit "info"; lit "status"];
               Lazy Dot; alt (lit "for") [lit "of"; lit "on"];
               quoted_ident]) true.

(** [/pause\s+['""]?(...)['""]?/i] *)
Definition re_pause : regexp := RegExp (seq [lit "pause"; quoted_ident]) true.

(** [/(?:unpause|resume|activate)\s+['""]?(...)['""]?/i] *)
Definition re_unpause : regexp :=
  RegExp (seq [alt (lit "unpause") [lit "resume"; lit "activate"]; quoted_ident])
         true.

(** [/(?:trigger|run|start)\s+['""]?(...)['""]?/i] *)
Definition re_trigger : regexp :=
  RegExp (seq [alt (lit "trigger") [lit "run"; lit "start"]; quoted_ident]) true.

(** [/(?:latest|last|recent)\s+run.*?(?:for|of)\s+['""]?(...)['""]?/i] *)
Definition re_run : regexp :=
  RegExp (seq [alt (lit "latest") [lit "last"; lit "recent"]; Plus Space;
               lit "run"; Lazy Dot; alt (lit "for") [lit "of"]; quoted_ident])
         true.

(** [dags.filter(d => d.is_paused).length] and its negation. *)
Definition count (paused : bool) (dags : value) : result nat :=
  match dags with
  | VArr l =>
      let? flags := mapM (fun d => let? p := get d "is_paused" in
                                   Ok (truthy p)) l in
      Ok (List.length (filter (Bool.eqb paused) flags))
  | _ => Raise (not_a_function "dags.filter")
  end.

Definition no_dags : string := "No DAGs found.".
Definition no_connection : string := "❌ Could not connect to Airflow server.".

(** LIST ALL DAGS, lines 494-518. *)
Definition list_dags : M state unit :=
  result <- await (callMCPServer "list all dags") ;;
  ( if ok result && truthy (body_of result) then
      dags <- lift (extractDags (body_of result)) ;;
      positive <- lift (gt_zero (read dags "length")) ;;
      if positive then
        setDagList dags ;;
        setCurrentPage 1 ;;
        activeCount <- lift (count false dags) ;;
        pausedCount <- lift (count true dags) ;;
        updater
          (let? found := to_string (read dags "length") in
           Ok (bot ("📊 Found **" ++ found ++ " DAGs**" ++ nl ++ nl
                      ++ "✅ Active: " ++ string_of_nat activeCount ++ nl
                      ++ "⏸️ Paused: " ++ string_of_nat pausedCount
                      ++ nl ++ nl ++ "Showing in table below.")))
          addMessage
      else addMessage (bot no_dags)
    else addMessage (bot no_connection) ) ;;
  setLoading false.

(** [searchMatch?.[1] || query.split(/search/i)[1]?.trim()], line 524;
    [None] is [undefined]. *)
Definition search_term (searchMatch : option string) (query : string)
  : option string :=
  match searchMatch with
  | Some t => if is_empty t then option_map trim (split_second "search" query)
              else Some t
  | None => option_map trim (split_second "search" query)
  end.

Definition has_term (searchTerm : option string) : bool :=
  match searchTerm with
  | Some t => negb (is_empty t)
  | None => false
  end.

Definition term_text (searchTerm : option string) : string :=
  match searchTerm with
  | Some t => t
  | None => "undefined"
  end.

(** The search for a term, lines 526-540. *)
Definition search_for (term : string) : M state unit :=
  result <- await (callMCPServer ("search dags " ++ term)) ;;
  if ok result then
    dags <- lift (extractDags (body_of result)) ;;
    positive <- lift (gt_zero (read dags "length")) ;;
    if positive then
      setDagList dags ;;
      setCurrentPage 1 ;;
      updater
        (let? found := to_string (read dags "length") in
         Ok (bot ("🔍 Found " ++ found ++ " DAG(s) matching "
                    ++ dq ++ term ++ dq)))
        addMessage
    else
      addMessage (bot ("No DAGs found matching " ++ dq ++ term ++ dq))
  else ret tt.

(** SEARCH DAGS, lines 523-544. *)
Definition search (searchMatch : option string) (query : string) : M state unit :=
  let searchTerm := search_term searchMatch query in
  ( if has_term searchTerm then search_for (term_text searchTerm)
    else ret tt ) ;;
  setLoading false.

Definition details_shown (dagId : string) : string :=
  "📋 Details for `" ++ dagId ++ "` shown below.".
Definition not_found (dagId : string) : string :=
  "❌ DAG `" ++ dagId ++ "` not found.".

(** GET DAG DETAILS, lines 548-579. *)
Definition dag_details (dagId : string) : M state unit :=
  both <- await (all2 (callMCPServer ("get dag details " ++ dagId))
                      (callMCPServer ("get latest run " ++ dagId))) ;;
  let detailsRes := fst both in
  let runRes := snd both in
  ( if ok detailsRes then
      let details := spread [("dag_id", VStr dagId)] (body_of detailsRes) in
      let details := if ok runRes
                     then set_prop "latest_run" (body_of runRes) details
                     else details in
      setDagDetails (VObj details) ;;
      addMessage (bot (details_shown dagId))
    else addMessage (bot (not_found dagId)) ) ;;
  setLoading false.

(** PAUSE DAG and UNPAUSE DAG, lines 583-619, which differ in the command
    and in the words of the messages. *)
Definition toggle (command sent failed dagId : string) : M state unit :=
  result <- await (callMCPServer (command ++ dagId)) ;;
  ( if ok result then
      responseText <- lift (parseMCPResponse (body_of result)) ;;
      updater
        (let? shown := to_string responseText in
         Ok (bot (sent ++ " request sent for `" ++ dagId ++ "`" ++ nl ++ nl
                    ++ "Server response:" ++ nl ++ shown)))
        addMessage
    else
      addMessage (bot ("❌ Failed to " ++ failed ++ " `" ++ dagId
                         ++ "`. Server returned: "
                         ++ string_of_nat (status result))) ) ;;
  setLoading false.

Definition pause : string -> M state unit := toggle "pause dag " "⏸️ Pause" "pause".
Definition unpause : string -> M state unit :=
  toggle "unpause dag " "▶️ Unpause" "unpause".

(** [result.body?.dag_run_id || result.body?.output?.dag_run_id ||
    result.body?.data?.dag_run_id], line 630. *)
Definition run_id (body : value) : value :=
  or_else (get_opt body "dag_run_id")
    (or_else (get_opt (get_opt body "output") "dag_run_id")
             (get_opt (get_opt body "data") "dag_run_id")).

(** TRIGGER DAG, lines 623-648. *)
Definition trigger (dagId : string) : M state unit :=
  result <- await (callMCPServer ("trigger dag " ++ dagId)) ;;
  ( if ok result then
      responseText <- lift (parseMCPResponse (body_of result)) ;;
      let runId := run_id (body_of result) in
      if truthy runId then
        updater
          (let? id := to_string runId in
           let? shown := to_string responseText in
           Ok (bot ("🚀 Triggered `" ++ dagId ++ "`" ++ nl ++ nl
                      ++ "Run ID: `" ++ id ++ "`" ++ nl ++ nl
                      ++ "Server response:" ++ nl ++ shown)))
          addMessage
      else
        updater
          (let? shown := to_string responseText in
           Ok (bot ("🚀 Trigger request sent for `" ++ dagId ++ "`" ++ nl ++ nl
                      ++ "Server response:" ++ nl ++ shown)))
          addMessage
    else
      addMessage (bot ("❌ Failed to trigger `" ++ dagId ++ "`. Server returned: "
                         ++ string_of_nat (status result))) ) ;;
  setLoading false.

(** [run.state?.toUpperCase()]. *)
Definition upper_state (state : value) : result value :=
  match state with
  | VUndef | VNull => Ok VUndef
  | VStr s => Ok (VStr (toUpperCase s))
  | _ => Raise (not_a_function "run.state?.toUpperCase")
  end.

(** LATEST RUN STATUS, lines 652-680; the text of line 666 is computed by
    the updater of lines 662-669. *)
Definition latest_run (dagId : string) : M state unit :=
  result <- await (callMCPServer ("get latest run " ++ dagId)) ;;
  ( if ok result && truthy (body_of result) then
      responseText <- lift (parseMCPResponse (body_of result)) ;;
      output <- lift (get (body_of result) "output") ;;
      let run := or_else output (body_of result) in
      state <- lift (get run "state") ;;
      id <- lift (get run "dag_run_id") ;;
      if truthy state || truthy id then
        updater
          (let? upper := upper_state state in
           let? shown := to_string (or_else upper (VStr "UNKNOWN")) in
           let? start := get run "start_date" in
           let? started := to_string (or_else start (VStr "N/A")) in
           let? runId := to_string (or_else id (VStr "N/A")) in
           Ok (bot ("🔄 Latest run for `" ++ dagId ++ "`:" ++ nl ++ nl
                      ++ "State: **" ++ shown ++ "**" ++ nl
                      ++ "Started: " ++ started ++ nl
                      ++ "Run ID: `" ++ runId ++ "`")))
          addMessage
      else
        updater
          (let? shown := to_string responseText in
           Ok (bot ("🔄 Latest run info for `" ++ dagId ++ "`:" ++ nl ++ nl
                      ++ shown)))
          addMessage
    else addMessage (bot ("No runs found for `" ++ dagId ++ "`")) ) ;;
  setLoading false.

(** DEFAULT, lines 683-697. *)
Definition forward (query : string) : M state unit :=
  result <- await (callMCPServer query) ;;
  if ok result then
    responseText <- lift (parseMCPResponse (body_of result)) ;;
    addMessage (Message "bot"
                  (or_else responseText
                           (VStr "Request completed but no response data.")))
  else
    addMessage (bot ("❌ Server error (" ++ string_of_nat (status result)
                       ++ "). Make sure the MCP server is running on port 8800."
                       ++ nl ++ nl ++ "Query: " ++ dq ++ query ++ dq)).

(** The cascade of the [try] block, lines 492-697. *)
Definition cascade (query : string) : M state unit :=
  if test re_list query then list_dags else
  let searchMatch := match1 re_search query in
  if matched searchMatch || test re_search_word query
  then search searchMatch query else
  match match1 re_details query with
  | Some dagId => dag_details dagId
  | None =>
  match match1 re_pause query with
  | Some dagId => pause dagId
  | None =>
  match match1 re_unpause query with
  | Some dagId => unpause dagId
  | None =>
  match match1 re_trigger query with
  | Some dagId => trigger dagId
  | None =>
  match match1 re_run query with
  | Some dagId => latest_run dagId
  | None => forward query
  end end end end end.

(** [sendMessage], lines 481-705. *)
Definition sendMessage : M state unit :=
  fun st =>
    ( if is_empty (trim (input st)) then ret tt else
      let userMsg := Message "user" (VStr (input st)) in
      addMessage userMsg ;;
      let query := trim (input st) in
      setInput "" ;;
      setLoading true ;;
      setDagDetails VNull ;;
      finally
        (catch (cascade query)
               (fun err => addMessage (bot ("❌ Error: " ++ message err))))
        (setLoading false) ) st.

(** The conditions of [cascade] with the command that each branch
    starts; [None] for the search branch that finds no term. *)
Definition matcher (query : string) : option command :=
  if test re_list query then Some List else
  let searchMatch := match1 re_search query in
  if matched searchMatch || test re_search_word query
  then
    let searchTerm := search_term searchMatch query in
    if has_term searchTerm then Some (Search (term_text searchTerm)) else None
  else
  match match1 re_details query with
  | Some dagId => Some (Details dagId)
  | None =>
  match match1 re_pause query with
  | Some dagId => Some (Pause dagId)
  | None =>
  match match1 re_unpause query with
  | Some dagId => Some (Unpause dagId)
  | None =>
  match match1 re_trigger query with
  | Some dagId => Some (Trigger dagId)
  | None =>
  match match1 re_run query with
  | Some dagId => Some (LatestRun dagId)
  | None => Some (Freeform query)
  end end end end end.

(** The branches of [cascade]. *)
Definition execute (c : option command) : M state unit :=
  match c with
  | Some List => list_dags
  | Some (Search term) => search_for term ;; setLoading false
  | None => ret tt ;; setLoading false
  | Some (Details dagId) => dag_details dagId
  | Some (Pause dagId) => pause dagId
  | Some (Unpause dagId) => unpause dagId
  | Some (Trigger dagId) => trigger dagId
  | Some (LatestRun dagId) => latest_run dagId
  | Some (Freeform query) => forward query
  end.

(** The same conditions as a table, in the order of the source. *)
Definition list_rule : rule :=
  Rule rule_list (test re_list) (fun _ => Some List).

Definition search_rule : rule :=
  Rule rule_search
       (fun q => matched (match1 re_search q) || test re_search_word q)
       (fun q => let searchTerm := search_term (match1 re_search q) q in
                 if has_term searchTerm
                 then Some (Search (term_text searchTerm)) else None).

Definition details_rule : rule :=
  Rule rule_details
       (fun q => matched (match1 re_details q))
       (fun q => option_map Details (match1 re_details q)).

Definition pause_rule : rule :=
  Rule rule_pause
       (fun q => matched (match1 re_pause q))
       (fun q => option_map Pause (match1 re_pause q)).

Definition unpause_rule : rule :=
  Rule rule_unpause
       (fun q => matched (match1 re_unpause q))
       (fun q => option_map Unpause (match1 re_unpause q)).

Definition trigger_rule : rule :=
  Rule rule_trigger
       (fun q => matched (match1 re_trigger q))
       (fun q => option_map Trigger (match1 re_trigger q)).

Definition latest_run_rule : rule :=
  Rule rule_latest_run
       (fun q => matched (match1 re_run q))
       (fun q => option_map LatestRun (match1 re_run q)).

Definition rules : list rule :=
  [ list_rule; search_rule; details_rule; pause_rule; unpause_rule;
    trigger_rule; latest_run_rule ].

End Analytics.


(** * The words of the specification *)

(** [p.k1.k2...] read with safe navigation. *)
Definition path (p : value) (ks : list string) : value := fold_left get_opt ks p.

(** The six places of section 4.4, in its order. *)
Definition candidates (p : value) : list value :=
  [ path p ["output"; "dags"];
    path p ["dags"];
    path p ["data"; "dags"];
    path p ["data"];
    path p ["results"];
    p ].

Definition first_or_empty (ok : value -> bool) (l : list value) : value :=
  match find ok l with
  | Some v => v
  | None => VArr []
  end.



(** The first of the six places that holds a sequence, empty or not. *)
Definition first_sequence (p : value) : value :=
  first_or_empty isArray (candidates p).


(** The identifier of a raw entry that is not falsy: the entry itself when
    it is a string, else the first of [dag_id], [dagId] and [id] that is
    not falsy, else the JSON text of the entry. *)
Definition summary (d : value) : value :=
  if is_string d then d else
  or_else (read d "dag_id")
    (or_else (read d "dagId")
       (or_else (read d "id") (JSON_stringify d))).

(** ** Concrete payloads and backends *)

(** A space, U+00A0, a tabulation, U+2028 and U+FEFF. *)
Definition blank_text : string :=
  " " ++ nbsp ++ chr 9
      ++ String (ascii_of_nat 226) (String (ascii_of_nat 128) (chr 168))
      ++ String (ascii_of_nat 239) (String (ascii_of_nat 187) (chr 191)).


(** [{"output": {"dags": {"etl": {"is_paused": false}}}}]: workflows keyed
    by their identifier instead of listed. *)
Definition payload_keyed : value :=
  VObj [("output",
         VObj [("dags", VObj [("etl", VObj [("is_paused", VBool false)])])])].

(** [{"output": {"dags": {"length": {"toString": 1}}}}]: a list whose
    length is an object without a string form. *)
Definition payload_odd_length : value :=
  VObj [("output",
         VObj [("dags", VObj [("length", VObj [("toString", VNum 1)])])])].

(** [[null, "etl"]] *)
Definition entries_with_null : value := VArr [VNull; VStr "etl"].

(** A server that answers 200 with a page that is not JSON. *)
Definition not_json : exn :=
  Error "SyntaxError" "Unexpected token '<', <!DOCTYPE ... is not valid JSON".
Definition html_backend : backend := fun _ _ => Response 200 (NotJson not_json).

(** A server that answers every request with 200 and the same JSON body. *)
Definition always (v : value) : backend := fun _ _ => Response 200 (Json v).

(** An unreachable server. *)
Definition unreachable : backend :=
  fun _ _ => Rejected (Error "TypeError" "Failed to fetch").

(** The reply of a model whose completion is the text [t]. *)
Definition completion_of (t : string) : value :=
  VObj [("choices", VArr [VObj [("message", VObj [("content", VStr t)])]])].




(** The two components that match patterns, and the cascade of each. *)
Inductive component : Type := chatbot2 | analytics.

Definition rules_of (c : component) : list rule :=
  match c with
  | chatbot2 => Chatbot2.rules
  | analytics => Analytics.rules
  end.

Definition matcher_of (c : component) : string -> option command :=
  match c with
  | chatbot2 => Chatbot2.matcher
  | analytics => Analytics.matcher
  end.

(** The place of a rule in section 4.1. *)
Definition rank (n : rule_name) : nat :=
  match n with
  | rule_rerun => 1
  | rule_list => 2
  | rule_search => 3
  | rule_details => 4
  | rule_pause => 5
  | rule_unpause => 6
  | rule_trigger => 7
  | rule_latest_run => 8
  end.

Definition earlier (r r' : rule) : Prop := rank (rule_id r) < rank (rule_id r').

(** An utterance that holds a list request and a rerun request. *)
Definition list_and_rerun : string := "list all dags and rerun etl".

(** A server where the details of a workflow are found and the lookup of
    its latest run fails on the network. *)
Definition details_only : backend :=
  fun _ r =>
    match r with
    | PostRun q =>
        if prefix "get dag details" q
        then Response 200 (Json (VObj [("is_paused", VBool false)]))
        else Rejected (Error "TypeError" "Failed to fetch")
    | _ => Rejected (Error "TypeError" "Failed to fetch")
    end.

(** A server where the details of a workflow carry an identifier and a
    latest run of their own, and the lookup of the latest run fails on the
    network. *)
Definition details_of_another : backend :=
  fun _ r =>
    match r with
    | PostRun q =>
        if prefix "get dag details" q
        then Response 200
               (Json (VObj [("dag_id", VStr "other_dag");
                            ("latest_run", VObj [("state", VStr "failed")])]))
        else Rejected (Error "TypeError" "Failed to fetch")
    | _ => Rejected (Error "TypeError" "Failed to fetch")
    end.

(** * Further views of the components *)

(** A relation between the state before and the state after that a
    computation keeps, whatever the backend answers. *)
Definition preserves {S A} (R : S -> S -> Prop) (m : M S A) : Prop :=
  forall b h s, R s (snd (fst (run b h (m s)))).

(** What [parseMCPResponse] shows of the state of an output. *)
Definition shown_state (body : value) : value :=
  or_else (read (read body "output") "state")
          (read (read body "output") "status").

(** The error of a body, or the state or status of its output, has no
    string form. *)
Definition has_no_text (body : value) : Prop :=
  converts (read body "error") = false
  \/ converts (shown_state body) = false.

(** A computation that never unmounts the component. *)
Definition mounted {S A} (m : M S A) : Prop :=
  forall b h s e, fst (fst (run b h (m s))) <> Unmounted e.

(** A computation that changes no state and never unmounts the component. *)
Definition steady {S A} (m : M S A) : Prop :=
  forall b h s,
    snd (fst (run b h (m s))) = s
    /\ forall e, fst (fst (run b h (m s))) <> Unmounted e.

(** A computation that unmounts the component, if it does, before it has
    changed the state. *)
Definition unmounts_at_start {S A} (m : M S A) : Prop :=
  forall b h s e,
    fst (fst (run b h (m s))) = Unmounted e -> snd (fst (run b h (m s))) = s.

(** The commands of Analytics.jsx whose reply is computed by an updater. *)
Definition replies_by_updater (c : option command) : Prop :=
  match c with
  | Some (Pause _) | Some (Unpause _) | Some (Trigger _) | Some (LatestRun _) =>
      True
  | _ => False
  end.

(** What a turn of Analytics.jsx asks of the backend, by its command. *)
Definition events_of (c : option command) : list event :=
  match c with
  | Some List => [Call (PostRun "list all dags")]
  | Some (Search term) => [Call (PostRun ("search dags " ++ term))]
  | Some (Details id) =>
      [CallBoth (PostRun ("get dag details " ++ id))
                (PostRun ("get latest run " ++ id))]
  | Some (LatestRun id) => [Call (PostRun ("get latest run " ++ id))]
  | Some (Pause id) => [Call (PostRun ("pause dag " ++ id))]
  | Some (Unpause id) => [Call (PostRun ("unpause dag " ++ id))]
  | Some (Trigger id) => [Call (PostRun ("trigger dag " ++ id))]
  | Some (Freeform text) => [Call (PostRun text)]
  | None => []
  end.

(** The messages of the state after continue those of the state before. *)
Definition extends (old new : list chat_message) : Prop :=
  exists more, new = (old ++ more)%list.

(** Either the list of workflows and the page are as they were, or the page
    is the first. *)
Definition page_follows_list (dl dl' : value) (cp cp' : nat) : Prop :=
  (dl' = dl /\ cp' = cp) \/ cp' = 1.

(** What a turn of the components with a detail record keeps of the state:
    the messages are continued, the input is not touched, and a new list
    of workflows comes with the first page. *)
Definition frame (s s' : Detail.state) : Prop :=
  extends (Detail.messages s) (Detail.messages s')
  /\ Detail.input s' = Detail.input s
  /\ page_follows_list (Detail.dagList s) (Detail.dagList s')
                       (Detail.currentPage s) (Detail.currentPage s').

(** The same for the first component of Chatbot2.jsx. *)
Definition frame2 (s s' : Chatbot2.state) : Prop :=
  extends (Chatbot2.messages s) (Chatbot2.messages s')
  /\ Chatbot2.input s' = Chatbot2.input s
  /\ page_follows_list (Chatbot2.dagList s) (Chatbot2.dagList s')
                       (Chatbot2.currentPage s) (Chatbot2.currentPage s').

(** The request that [callGroqModel] makes for a question and the data of
    the backend, lines 79-93 of Chatbot2.jsx. *)
Definition groq_request (apiKey userMessage : string) (airflowData : value)
  : request :=
  PostGroq apiKey "llama-3.1-8b-instant"
           "You are a helpful Apache Airflow assistant."
           ("User: " ++ userMessage ++ nl ++ nl ++ "Airflow Data: "
              ++ JSON_text airflowData).

Definition missing_key : string :=
  "Missing Groq API key. Add VITE_GROQ_API_KEY to .env".

(** The notice of the branch without a key, line 679 of Chatbot2.jsx. *)
Definition no_key_notice : string :=
  "⚠️ Groq API key not configured. Falling back to local heuristics (no AI).".

(** ** The identifiers that the patterns capture *)

Fixpoint all_chars (p : ascii -> bool) (s : string) : bool :=
  match s with
  | String c s' => p c && all_chars p s'
  | EmptyString => true
  end.

(** A byte that is no capital letter of ASCII. *)
Definition not_capital (c : ascii) : bool := negb (between 65 90 c).

(** A character of the class [[a-zA-Z0-9_\-:.]]. *)
Definition is_ident (c : ascii) : bool :=
  (width false ident (String c EmptyString) =? 1)%nat.

Definition occurs (t q : string) : Prop := exists u v, q = u ++ t ++ v.

(** [t] is a non-empty run of identifier characters that occurs in [q]. *)
Definition identifier_of (q t : string) : Prop :=
  t <> "" /\ all_chars is_ident t = true /\ occurs t q.

(** Every group of the pattern is [([a-zA-Z0-9_\-:.]+)]. *)
Fixpoint captures_ident (r : regex) : Prop :=
  match r with
  | Group _ r' => r' = Plus ident
  | Seq a b => captures_ident a /\ captures_ident b
  | Alt a b => captures_ident a /\ captures_ident b
  | _ => True
  end.

(** Every match of the pattern goes through a group numbered 1. *)
Fixpoint sets1 (r : regex) : Prop :=
  match r with
  | Group n _ => n = 1
  | Seq a b => sets1 a \/ sets1 b
  | Alt a b => sets1 a /\ sets1 b
  | _ => False
  end.

(** A position inside the text [q] whose captures are identifiers of [q]. *)
Definition inside (q : string) (st : mstate) : Prop :=
  (exists u, q = u ++ rest st)
  /\ Forall (fun c => identifier_of q (snd c)) (caps st).

Definition has1 (cs : list (nat * string)) : Prop := capture 1 cs <> None.

(** The identifier that a command carries. *)
Definition dag_id_of (c : command) : option string :=
  match c with
  | Details id | LatestRun id | Pause id | Unpause id | Trigger id => Some id
  | List | Search _ | Freeform _ => None
  end.

(** ** The list of Analytics.jsx *)

(** [d.is_paused] as a condition. *)
Definition is_paused (d : value) : bool := truthy (read d "is_paused").

(** The message of lines 506-509 for the entries [es]. *)
Definition found_message (es : list value) : string :=
  "📊 Found **" ++ string_of_nat (List.length es) ++ " DAGs**" ++ nl ++ nl
    ++ "✅ Active: "
    ++ string_of_nat (List.length (filter (fun d => negb (is_paused d)) es))
    ++ nl ++ "⏸️ Paused: "
    ++ string_of_nat (List.length (filter is_paused es))
    ++ nl ++ nl ++ "Showing in table below.".

(** The message of the [catch] of [sendMessage], line 700. *)
Definition error_message (err : exn) : string := "❌ Error: " ++ message err.

(** What a list turn of Analytics.jsx says about the entries [es]: the
    counts, or the [TypeError] of the first entry that has no properties. *)
Definition list_reply (es : list value) : string :=
  match find is_nullish es with
  | Some d => error_message (read_error d "is_paused")
  | None => found_message es
  end.

(** ** The list of the first component of Chatbot2.jsx *)

(** The message of line 205 for a table of [n] names. *)
Definition found_names (n : nat) : string :=
  "Found " ++ string_of_nat n ++ " DAGs. Showing in table below.".

(** * The tables and their pages *)

(** The index of [Array.prototype.slice]: a negative one counts from the
    end, and both kinds are clamped to the sequence. *)
Definition clamp_index (len i : Z) : Z :=
  if (i <? 0)%Z then Z.max (len + i) 0 else Z.min i len.

(** [l.slice(start, fin)]. *)
Definition slice {A} (l : list A) (start fin : Z) : list A :=
  let len := Z.of_nat (List.length l) in
  let k := clamp_index len start in
  let final := clamp_index len fin in
  firstn (Z.to_nat (final - k)) (skipn (Z.to_nat k) l).

(** [Math.ceil(n / k)] for an integer [n] and a positive integer [k]. *)
Definition Math_ceil_div (n k : Z) : Z := (- ((- n) / k))%Z.

(** The table under the chat, in the three chat components: Chatbot2.jsx
    lines 22-25 and 339-384 with [PAGE_SIZE = 20], Chatbot2.jsx lines
    477-481 and 892-965 and Analytics.jsx lines 377-381 and 843-918 with
    [PAGE_SIZE = 15]. *)
Module Pager.
Section Pager.
Variable PAGE_SIZE : Z.
Variable dagList : list value.

Definition paginatedDags (currentPage : Z) : list value :=
  slice dagList ((currentPage - 1) * PAGE_SIZE) (currentPage * PAGE_SIZE).

(** [Math.ceil(dagList.length / PAGE_SIZE)] *)
Definition pages : Z := Math_ceil_div (Z.of_nat (List.length dagList)) PAGE_SIZE.

(** The table is rendered when [dagList.length > 0]. *)
Definition shown : bool := (0 <? Z.of_nat (List.length dagList))%Z.

(** The button Previous: disabled on page 1, else [p => p - 1]. *)
Definition previous (currentPage : Z) : Z :=
  if (currentPage =? 1)%Z then currentPage else (currentPage - 1)%Z.

(** The button Next: disabled when [currentPage >= pages], else
    [p => p + 1]. *)
Definition next (currentPage : Z) : Z :=
  if (currentPage >=? pages)%Z then currentPage else (currentPage + 1)%Z.

(** The number in the first column of the row [idx] of the page. *)
Definition row_number (currentPage : Z) (idx : nat) : Z :=
  ((currentPage - 1) * PAGE_SIZE + Z.of_nat idx + 1)%Z.

(** The two ends of the label between the buttons. *)
Definition first_shown (currentPage : Z) : Z :=
  ((currentPage - 1) * PAGE_SIZE + 1)%Z.
Definition last_shown (currentPage : Z) : Z :=
  Z.min (currentPage * PAGE_SIZE) (Z.of_nat (List.length dagList)).

End Pager.
End Pager.

(** The pages from 1 to [n]. *)
Definition page_numbers (n : Z) : list Z :=
  map (fun j => Z.of_nat (S j)) (List.seq 0 (Z.to_nat n)).

(** The page of a chat component is one of the pages of its table,
    whenever the table is rendered. *)
Definition page_in_range (PAGE_SIZE : Z) (dagList : value) (currentPage : nat)
  : Prop :=
  forall l, dagList = VArr l -> Pager.shown l = true ->
            (1 <= Z.of_nat currentPage <= Pager.pages PAGE_SIZE l)%Z.

(** ** The events of a chat component

    What the user can do to a chat component: type in the input
    ([onChange], [setInput(e.target.value)]), send the input, and press one
    of the two buttons under the table.  A turn runs to its end before the
    next event.  The page is a [nat] in the states; the buttons are
    computed on the integers, which differs from the natural numbers only on a
    page 0.  After a turn that has unmounted the component nothing is
    rendered any more; the events then act on the last state rendered. *)
Inductive action : Type :=
| Typing (text : string)
| Enter (b : backend)
| Previous
| Next.

(** A button under the table: there is none unless the table is rendered. *)
Definition pager_button (press : list value -> Z -> Z) (dagList : value)
           (currentPage : nat) : nat :=
  match dagList with
  | VArr l =>
      if Pager.shown l then Z.to_nat (press l (Z.of_nat currentPage))
      else currentPage
  | _ => currentPage
  end.

(** The two components with [PAGE_SIZE = 15]. *)
Definition Detail_act (sendMessage : M Detail.state unit) (a : action)
           (s : Detail.state) : Detail.state :=
  match a with
  | Typing t =>
      Detail.State (Detail.messages s) t (Detail.loading s) (Detail.dagList s)
                   (Detail.dagDetails s) (Detail.currentPage s)
  | Enter b => snd (fst (run b [] (sendMessage s)))
  | Previous =>
      Detail.State (Detail.messages s) (Detail.input s) (Detail.loading s)
                   (Detail.dagList s) (Detail.dagDetails s)
                   (pager_button (fun _ => Pager.previous) (Detail.dagList s)
                                 (Detail.currentPage s))
  | Next =>
      Detail.State (Detail.messages s) (Detail.input s) (Detail.loading s)
                   (Detail.dagList s) (Detail.dagDetails s)
                   (pager_button (Pager.next 15) (Detail.dagList s)
                                 (Detail.currentPage s))
  end.

(** The first component of Chatbot2.jsx, with [PAGE_SIZE = 20]. *)
Definition Chatbot2_act (apiKey : string) (a : action) (s : Chatbot2.state)
  : Chatbot2.state :=
  match a with
  | Typing t =>
      Chatbot2.State (Chatbot2.messages s) t (Chatbot2.loading s)
                     (Chatbot2.dagList s) (Chatbot2.currentPage s)
  | Enter b => snd (fst (run b [] (Chatbot2.sendMessage apiKey s)))
  | Previous =>
      Chatbot2.State (Chatbot2.messages s) (Chatbot2.input s) (Chatbot2.loading s)
                     (Chatbot2.dagList s)
                     (pager_button (fun _ => Pager.previous) (Chatbot2.dagList s)
                                   (Chatbot2.currentPage s))
  | Next =>
      Chatbot2.State (Chatbot2.messages s) (Chatbot2.input s) (Chatbot2.loading s)
                     (Chatbot2.dagList s)
                     (pager_button (Pager.next 20) (Chatbot2.dagList s)
                                   (Chatbot2.currentPage s))
  end.

(** * src/Analytics.jsx, the dashboard

    The component [AnalyticsDashboard], lines 14-357: the fetch of the
    table, the filters, the pages and the three counters. *)

(** [s.includes(t)] on strings. *)
Fixpoint includes (s t : string) : bool :=
  prefix t s
  || match s with
     | String _ s' => includes s' t
     | EmptyString => false
     end.

(** [l.filter(f)] for a callback that may throw. *)
Fixpoint filterM {A} (f : A -> result bool) (l : list A) : result (list A) :=
  match l with
  | [] => Ok []
  | x :: l' =>
      let? keep := f x in
      let? rest := filterM f l' in
      Ok (if keep then x :: rest else rest)
  end.

(** [guard && test], where only [test] may throw. *)
Definition and_then (guard : bool) (test : result bool) : result bool :=
  if guard then test else Ok false.

(** [!test]. *)
Definition rnot (test : result bool) : result bool :=
  let? b := test in Ok (negb b).

(** A run of [if (line) return false;] closed by [return true]. *)
Fixpoint passes (lines : list (result bool)) : result bool :=
  match lines with
  | [] => Ok true
  | line :: rest =>
      let? b := line in
      if b then Ok false else passes rest
  end.

(** [SameValueZero] on values that come from JSON: two objects or two
    sequences met at different places of a body are different objects. *)
Definition same_value_zero (a b : value) : bool :=
  match a, b with
  | VUndef, VUndef => true
  | VNull, VNull => true
  | VBool x, VBool y => Bool.eqb x y
  | VNum x, VNum y => Z.eqb x y
  | VStr x, VStr y => String.eqb x y
  | _, _ => false
  end.

(** The order of [Array.prototype.sort] without a comparator: [undefined]
    last, the other values by their string forms. *)
Definition sort_leb (a b : value) : bool :=
  match a, b with
  | _, VUndef => true
  | VUndef, _ => false
  | _, _ => String.leb (string_form a) (string_form b)
  end.

Fixpoint insert (x : value) (l : list value) : list value :=
  match l with
  | [] => [x]
  | y :: l' => if sort_leb x y then x :: l else y :: insert x l'
  end.

(** The stable sort by [sort_leb]. *)
Definition sort (l : list value) : list value := fold_right insert [] l.

Definition is_defined (v : value) : bool :=
  match v with VUndef => false | _ => true end.

(** [l.sort()]: as soon as two values other than [undefined] are there,
    each of them is compared, by its string form, and one without a string
    form makes the call throw. *)
Definition Array_sort (l : list value) : result (list value) :=
  let defined := filter is_defined l in
  if (2 <=? List.length defined)%nat && negb (forallb converts defined)
  then Raise not_primitive
  else Ok (sort l).

(** [l.forEach(f)] for a callback that adds to a store and may throw. *)
Fixpoint foldM {A S} (f : S -> A -> result S) (l : list A) (s : S) : result S :=
  match l with
  | [] => Ok s
  | x :: l' => let? s' := f s x in foldM f l' s'
  end.

Module Dashboard.

Record state : Type := State {
  dagData : value;
  loading : bool;
  currentPage : Z;
  searchTerm : string;
  statusFilter : string;
  activeFilter : string;
  tagFilter : string
}.

(** [useState(100)], line 20; [setItemsPerPage] is never called. *)
Definition itemsPerPage : Z := 100.

(** The state of lines 15-26. *)
Definition initial : state := State (VArr []) true 1 "" "all" "all" "".

Definition setDagData (d : value) : M state unit :=
  update (fun s => State d (loading s) (currentPage s) (searchTerm s)
                         (statusFilter s) (activeFilter s) (tagFilter s)).
Definition setLoading (b : bool) : M state unit :=
  update (fun s => State (dagData s) b (currentPage s) (searchTerm s)
                         (statusFilter s) (activeFilter s) (tagFilter s)).

(** The [onChange] of the four filters, lines 176, 185, 197 and 209. *)
Definition setSearchTerm (t : string) (s : state) : state :=
  State (dagData s) (loading s) (currentPage s) t (statusFilter s)
        (activeFilter s) (tagFilter s).
Definition setStatusFilter (f : string) (s : state) : state :=
  State (dagData s) (loading s) (currentPage s) (searchTerm s) f
        (activeFilter s) (tagFilter s).
Definition setActiveFilter (f : string) (s : state) : state :=
  State (dagData s) (loading s) (currentPage s) (searchTerm s)
        (statusFilter s) f (tagFilter s).
Definition setTagFilter (f : string) (s : state) : state :=
  State (dagData s) (loading s) (currentPage s) (searchTerm s)
        (statusFilter s) (activeFilter s) f.

(** [fetchDagData], lines 35-52; [res.ok] is not looked at. *)
Definition fetchDagData : M state unit :=
  setLoading true ;;
  finally
    (catch
       ( res <- fetchM (PostRun "list dags") ;;
         data <- lift (match snd res with
                       | Json v => Ok v
                       | NotJson err => Raise err
                       end) ;;
         output <- lift (get data "output") ;;
         let dags := or_else (get_opt output "dags") (VArr []) in
         setDagData dags )
       (fun _ => ret tt))
    (setLoading false).

(** [set.add(t)] on a set kept in insertion order. *)
Definition set_add (set : list value) (t : value) : list value :=
  if existsb (same_value_zero t) set then set else (set ++ [t])%list.

(** [d.tags?.forEach((t) => set.add(t))], line 59. *)
Definition add_tags (set : list value) (d : value) : result (list value) :=
  let? tags := get d "tags" in
  if is_nullish tags then Ok set else
  match tags with
  | VArr l => Ok (fold_left set_add l set)
  | _ => Raise (not_a_function "d.tags?.forEach")
  end.

(** [allTags], lines 57-61. *)
Definition allTags (dagData : value) : result (list value) :=
  match dagData with
  | VArr l =>
      let? set := foldM add_tags l [] in
      Array_sort set
  | VUndef | VNull => Raise (read_error dagData "forEach")
  | _ => Raise (not_a_function "dagData.forEach")
  end.

(** [dag.k] as a condition. *)
Definition field (dag : value) (k : string) : result bool :=
  let? v := get dag k in Ok (truthy v).

(** [dag.dag_id.toLowerCase().includes(searchTerm.toLowerCase())] *)
Definition id_includes (dag : value) (searchTerm : string) : result bool :=
  let? id := get dag "dag_id" in
  match id with
  | VStr s => Ok (includes (toLowerCase s) (toLowerCase searchTerm))
  | VUndef | VNull => Raise (read_error id "toLowerCase")
  | _ => Raise (not_a_function "dag.dag_id.toLowerCase")
  end.

(** [tags.includes(tagFilter)] on a sequence, by [SameValueZero]. *)
Definition has_member (l : list value) (t : string) : bool :=
  existsb (fun x => match x with VStr s => String.eqb s t | _ => false end) l.

(** [!dag.tags || !dag.tags.includes(tagFilter)] *)
Definition tag_missing (dag : value) (tagFilter : string) : result bool :=
  let? tags := get dag "tags" in
  if negb (truthy tags) then Ok true else
  match tags with
  | VArr l => Ok (negb (has_member l tagFilter))
  | VStr s => Ok (negb (includes s tagFilter))
  | _ => Raise (not_a_function "dag.tags.includes")
  end.

(** The callback of [filteredData], lines 64-72. *)
Definition keeps (st : state) (dag : value) : result bool :=
  passes
    [ and_then (negb (is_empty (searchTerm st)))
               (rnot (id_includes dag (searchTerm st)));
      and_then (String.eqb (statusFilter st) "running") (field dag "is_paused");
      and_then (String.eqb (statusFilter st) "paused")
               (rnot (field dag "is_paused"));
      and_then (String.eqb (activeFilter st) "active")
               (rnot (field dag "is_active"));
      and_then (String.eqb (activeFilter st) "inactive") (field dag "is_active");
      and_then (negb (is_empty (tagFilter st)))
               (tag_missing dag (tagFilter st)) ].

(** [dagData.filter(f)]. *)
Definition filter_data (f : value -> result bool) (d : value)
  : result (list value) :=
  match d with
  | VArr l => filterM f l
  | VUndef | VNull => Raise (read_error d "filter")
  | _ => Raise (not_a_function "dagData.filter")
  end.

(** [filteredData], lines 63-73. *)
Definition filteredData (st : state) : result (list value) :=
  filter_data (keeps st) (dagData st).

(** [totalPages], line 75. *)
Definition totalPages (filtered : list value) : Z :=
  Math_ceil_div (Z.of_nat (List.length filtered)) itemsPerPage.

(** [paginatedData], lines 76-79. *)
Definition paginatedData (filtered : list value) (currentPage : Z) : list value :=
  slice filtered ((currentPage - 1) * itemsPerPage) (currentPage * itemsPerPage).

(** The button Prev, lines 315-321. *)
Definition prev (currentPage : Z) : Z :=
  if (currentPage =? 1)%Z then currentPage else Z.max 1 (currentPage - 1).

(** The button Next, lines 342-348. *)
Definition next (filtered : list value) (currentPage : Z) : Z :=
  if (currentPage =? totalPages filtered)%Z then currentPage
  else Z.min (totalPages filtered) (currentPage + 1).

(** The numbered buttons, lines 324-336: each sets its page. *)
Definition page_buttons (filtered : list value) : list Z :=
  page_numbers (Z.min (totalPages filtered) 10).

(** The counters Active and Paused, lines 117-128. *)
Definition active_card (d : value) : result nat :=
  let? l := filter_data
              (fun dag => let? a := field dag "is_active" in
                          if a then rnot (field dag "is_paused") else Ok false) d in
  Ok (List.length l).
Definition paused_card (d : value) : result nat :=
  let? l := filter_data (fun dag => field dag "is_paused") d in
  Ok (List.length l).

End Dashboard.

(** What the callback of [filteredData] decides when it does not throw. *)
Definition shows (st : Dashboard.state) (dag : value) : bool :=
  (is_empty (Dashboard.searchTerm st)
   || match read dag "dag_id" with
      | VStr s => includes (toLowerCase s) (toLowerCase (Dashboard.searchTerm st))
      | _ => false
      end)
  && (negb (String.eqb (Dashboard.statusFilter st) "running")
      || negb (is_paused dag))
  && (negb (String.eqb (Dashboard.statusFilter st) "paused") || is_paused dag)
  && (negb (String.eqb (Dashboard.activeFilter st) "active")
      || truthy (read dag "is_active"))
  && (negb (String.eqb (Dashboard.activeFilter st) "inactive")
      || negb (truthy (read dag "is_active")))
  && (is_empty (Dashboard.tagFilter st)
      || match read dag "tags" with
         | VArr l => Dashboard.has_member l (Dashboard.tagFilter st)
         | VStr s => includes s (Dashboard.tagFilter st)
         | _ => false
         end).


(** What [fetchDagData] leaves in the table, given what was there and what
    the request settled to. *)
Definition fetched_table (old : value) (res : response) : value :=
  match res with
  | Response _ (Json data) =>
      if is_nullish data then old
      else or_else (get_opt (read data "output") "dags") (VArr [])
  | Response _ (NotJson _) => old
  | Rejected _ => old
  end.

(** * The placeholder of the input

    The typewriter effect of the three chat components: Chatbot2.jsx lines
    15-19 and 32-55, Chatbot2.jsx lines 483-494 and 500-523, Analytics.jsx
    lines 383-394 and 400-423.  One tick is one run of the effect together
    with the timer it sets, if any; it yields the next state and the time
    it took, in milliseconds. *)
Module Typewriter.

Record state : Type := State {
  placeholder : string;
  placeholderIndex : nat;
  isDeleting : bool
}.

Definition initial : state := State "" 0 false.

Section Typewriter.
Variable placeholderTexts : list string.
(** The time the whole text stays: 2500 in the first component of
    Chatbot2.jsx, 2000 in the other two. *)
Variable pause : nat.

Definition tick (st : state) : result (state * nat) :=
  let currentText := nth_error placeholderTexts (placeholderIndex st) in
  let speed := if isDeleting st then 30 else 80 in
  if negb (isDeleting st)
     && match currentText with
        | Some t => String.eqb (placeholder st) t
        | None => false
        end
  then Ok (State (placeholder st) (placeholderIndex st) true, pause)
  else if isDeleting st && is_empty (placeholder st)
  then Ok (State (placeholder st)
                 ((placeholderIndex st + 1) mod List.length placeholderTexts)
                 false, 0)
  else
    match currentText with
    | Some t =>
        let n := String.length (placeholder st) in
        Ok (State (substring 0 (if isDeleting st then n - 1 else n + 1) t)
                  (placeholderIndex st) (isDeleting st), speed)
    | None => Raise (read_error VUndef "substring")
    end.

(** [n] ticks in a row, and the time they take. *)
Fixpoint ticks (n : nat) (st : state) : result (state * nat) :=
  match n with
  | 0 => Ok (st, 0)
  | S n' =>
      let? r := tick st in
      let? r' := ticks n' (fst r) in
      Ok (fst r', snd r + snd r')
  end.

End Typewriter.
End Typewriter.

(** [placeholderTexts], line 19 of Chatbot2.jsx. *)
Definition Chatbot2_placeholderTexts : list string :=
  ["Ask me anything about Airflow..."].

(** [placeholderTexts], lines 487-494 of Chatbot2.jsx and 387-394 of
    Analytics.jsx. *)
Definition Detail_placeholderTexts : list string :=
  [ "List all DAGs...";
    "Search for a DAG...";
    "Get details for my_dag...";
    "Pause production_dag...";
    "Trigger data_pipeline...";
    "Show latest run status..." ].

(** The ticks and the time from one empty placeholder to the next. *)
Definition cycle_ticks (t : string) : nat := 2 * String.length t + 2.
Definition cycle_time (pause : nat) (t : string) : nat :=
  110 * String.length t + pause.

(** The ticks and the time of one round of all the texts. *)
Definition period_ticks (texts : list string) : nat :=
  list_sum (map cycle_ticks texts).
Definition period_time (pause : nat) (texts : list string) : nat :=
  list_sum (map (cycle_time pause) texts).

(** The tags of the entries of a table. *)
Definition tag_of (l : list value) (t : value) : Prop :=
  exists d tags, In d l /\ read d "tags" = VArr tags /\ In t tags.

(** No two values of the list are the same for a set. *)
Definition distinct (l : list value) : Prop :=
  ForallOrdPairs (fun a b => same_value_zero a b = false) l.

(** The entry has the tag [t] among its tags. *)
Definition tagged (t : string) (d : value) : bool :=
  match read d "tags" with
  | VArr l => Dashboard.has_member l t
  | _ => false
  end.

(** * Properties *)

(** ** Values *)

Lemma truthy_not_nullish v : truthy v = true -> is_nullish v = false.
Proof. destruct v; simpl; congruence. Qed.

Lemma get_truthy v k : truthy v = true -> get v k = Ok (read v k).
Proof. intros T. unfold get. now rewrite (truthy_not_nullish v T). Qed.

Lemma get_opt_truthy v k : truthy v = true -> get_opt v k = read v k.
Proof. intros T. unfold get_opt. now rewrite (truthy_not_nullish v T). Qed.

Lemma element_nil k : element [] k = VUndef.
Proof. unfold element. destruct (index_of_string k) as [[|i]|]; reflexivity. Qed.

(** Nothing read from a falsy value is an array. *)
Lemma falsy_get_opt v k : truthy v = false -> isArray (get_opt v k) = false.
Proof.
  destruct v as [| |b|n|s|l|ps]; intros F; try reflexivity; try discriminate F.
  destruct s as [|c s]; [|discriminate F].
  unfold get_opt, read. simpl is_nullish. cbv iota.
  destruct (String.eqb k "length"); [reflexivity|].
  now rewrite element_nil.
Qed.

Lemma isArray_inv v : isArray v = true -> exists l, v = VArr l.
Proof. destruct v; simpl; try discriminate. eauto. Qed.

Lemma string_of_Z_nonempty z : is_empty (string_of_Z z) = false.
Proof.
  unfold string_of_Z. destruct (Z.to_int z) as [d|d]; [|reflexivity].
  destruct d; reflexivity.
Qed.

Lemma bracket_nonempty o c op' cl gap ind ind' items :
  is_empty (bracket (String o op') (String c cl) gap ind ind' items) = false.
Proof.
  unfold bracket. destruct items; [reflexivity|].
  destruct (is_empty gap); reflexivity.
Qed.

(** The JSON text of a value other than [undefined] is a string that is
    not empty. *)
Lemma serialize_nonempty gap ind v :
  v <> VUndef -> exists t, serialize gap ind v = Some t /\ is_empty t = false.
Proof.
  destruct v as [| |[]|n|s|l|ps]; intros N; try congruence; simpl;
    try (eexists; split; [reflexivity|reflexivity]).
  - eexists; split; [reflexivity|apply string_of_Z_nonempty].
  - eexists; split; [reflexivity|apply bracket_nonempty].
  - eexists; split; [reflexivity|apply bracket_nonempty].
Qed.

Lemma JSON_stringify_truthy v : truthy v = true -> truthy (JSON_stringify v) = true.
Proof.
  intros T. unfold JSON_stringify.
  destruct (serialize_nonempty "" "" v) as (t & -> & E).
  - intros ->. discriminate.
  - simpl. now rewrite E.
Qed.

Lemma or_else_truthy a b : truthy b = true -> truthy (or_else a b) = true.
Proof. intros T. unfold or_else. destruct (truthy a) eqn:E; assumption. Qed.

Lemma falsy_get_opt_falsy v k : truthy v = false -> truthy (get_opt v k) = false.
Proof.
  destruct v as [| |b|n|s|l|ps]; intros F; try reflexivity; try discriminate F.
  destruct s as [|c s]; [|discriminate F].
  unfold get_opt, read. simpl is_nullish. cbv iota.
  destruct (String.eqb k "length"); [reflexivity|].
  now rewrite element_nil.
Qed.

Lemma falsy_not_array v : truthy v = false -> isArray v = false.
Proof. destruct v; simpl; congruence. Qed.

(** ** The response normalizer of Chatbot2.jsx *)

Lemma extractDags_first_sequence p :
  Chatbot2.extractDags p = Ok (first_sequence p).
Proof.
  unfold Chatbot2.extractDags, first_sequence, first_or_empty, candidates, path.
  cbn [fold_left find].
  destruct (truthy p) eqn:T; cbn [negb].
  - rewrite !(get_truthy p), !(get_opt_truthy p) by exact T. cbn [rbind].
    destruct (truthy (read p "output")) eqn:To.
    + rewrite (get_truthy _ _ To), (get_opt_truthy _ _ To). cbn [rbind].
      destruct (isArray (read (read p "output") "dags")) eqn:A1; [reflexivity|].
      destruct (isArray (read p "dags")) eqn:A2; [reflexivity|].
      destruct (truthy (read p "data")) eqn:Td.
      * rewrite (get_truthy _ _ Td), (get_opt_truthy _ _ Td). cbn [rbind].
        destruct (isArray (read (read p "data") "dags")); [reflexivity|].
        destruct (isArray (read p "data")); [reflexivity|]. cbn [rbind].
        destruct (isArray (read p "results")); [reflexivity|].
        destruct (isArray p); reflexivity.
      * rewrite (falsy_get_opt _ "dags" Td), (falsy_not_array _ Td). cbn [rbind].
        destruct (isArray (read p "results")); [reflexivity|].
        destruct (isArray p); reflexivity.
    + rewrite (falsy_get_opt _ "dags" To). cbn [rbind].
      destruct (isArray (read p "dags")) eqn:A2; [reflexivity|].
      destruct (truthy (read p "data")) eqn:Td.
      * rewrite (get_truthy _ _ Td), (get_opt_truthy _ _ Td). cbn [rbind].
        destruct (isArray (read (read p "data") "dags")); [reflexivity|].
        destruct (isArray (read p "data")); [reflexivity|]. cbn [rbind].
        destruct (isArray (read p "results")); [reflexivity|].
        destruct (isArray p); reflexivity.
      * rewrite (falsy_get_opt _ "dags" Td), (falsy_not_array _ Td). cbn [rbind].
        destruct (isArray (read p "results")); [reflexivity|].
        destruct (isArray p); reflexivity.
  - rewrite (falsy_get_opt _ "dags" (falsy_get_opt_falsy p "output" T)).
    rewrite (falsy_get_opt _ "dags" T).
    rewrite (falsy_get_opt _ "dags" (falsy_get_opt_falsy p "data" T)).
    rewrite (falsy_get_opt _ "data" T), (falsy_get_opt _ "results" T).
    now rewrite (falsy_not_array _ T).
Qed.

Lemma first_sequence_is_array p : exists l, first_sequence p = VArr l.
Proof.
  unfold first_sequence, first_or_empty.
  destruct (find isArray (candidates p)) as [v|] eqn:F; [|now exists []].
  apply find_some in F. destruct F as [_ A]. now apply isArray_inv.
Qed.

Lemma extractDags_of_array l : Chatbot2.extractDags (VArr l) = Ok (VArr l).
Proof. reflexivity. Qed.

(** In Chatbot2.jsx the normalizer never throws, always returns a sequence,
    and returns its own output unchanged. *)
Lemma Chatbot2_extractDags_total_idempotent p :
  exists l, Chatbot2.extractDags p = Ok (VArr l)
            /\ Chatbot2.extractDags (VArr l) = Ok (VArr l).
Proof.
  destruct (first_sequence_is_array p) as [l E]. exists l.
  rewrite extractDags_first_sequence, E. split; [reflexivity|].
  apply extractDags_of_array.
Qed.





(** C9 at its failing input: on a payload whose [output.dags] is an object,
    [extractDags] of Analytics.jsx (and of the second component of
    Chatbot2.jsx) returns that object, which is not a sequence, and applied
    to its own output it returns something else. *)
Theorem extractDags_returns_any_truthy_output_dags :
  Detail.extractDags payload_keyed
    = Ok (VObj [("etl", VObj [("is_paused", VBool false)])])
  /\ Detail.extractDags (VObj [("etl", VObj [("is_paused", VBool false)])])
     = Ok (VArr []).
Proof. split; reflexivity. Qed.

(** ** The normalization of entries in Chatbot2.jsx *)

Lemma normalizeEntry_truthy d :
  truthy d = true -> Chatbot2.normalizeEntry d = Ok (summary d).
Proof.
  intros T. unfold Chatbot2.normalizeEntry, summary, or_else.
  rewrite T. cbn [negb]. destruct (is_string d); [reflexivity|].
  rewrite !(get_truthy d) by exact T. cbn [rbind].
  destruct (truthy (read d "dag_id")); [reflexivity|]. cbn [rbind].
  destruct (truthy (read d "dagId")); [reflexivity|]. cbn [rbind].
  destruct (truthy (read d "id")); reflexivity.
Qed.

Lemma normalizeEntry_falsy d :
  truthy d = false -> Chatbot2.normalizeEntry d = Ok (VStr "").
Proof. intros F. unfold Chatbot2.normalizeEntry. now rewrite F. Qed.

Lemma summary_truthy d : truthy d = true -> truthy (summary d) = true.
Proof.
  intros T. unfold summary. destruct (is_string d); [exact T|].
  repeat apply or_else_truthy. now apply JSON_stringify_truthy.
Qed.

Lemma normalizeDagList_summaries l :
  Chatbot2.normalizeDagList (VArr l) = Ok (map summary (filter truthy l)).
Proof.
  unfold Chatbot2.normalizeDagList.
  assert (E : forall l, exists m,
             mapM Chatbot2.normalizeEntry l = Ok m
             /\ filter truthy m = map summary (filter truthy l)).
  { clear l. induction l as [|d l (m & Em & Fm)].
    - exists []. split; reflexivity.
    - destruct (truthy d) eqn:T.
      + exists (summary d :: m). cbn [mapM filter].
        rewrite (normalizeEntry_truthy d T), Em, T. cbn [rbind filter map].
        rewrite (summary_truthy d T), Fm. split; reflexivity.
      + exists (VStr "" :: m). cbn [mapM filter].
        rewrite (normalizeEntry_falsy d T), Em, T. cbn [rbind filter].
        split; [reflexivity|exact Fm]. }
  destruct (E l) as (m & Em & Fm). rewrite Em. cbn [rbind]. now rewrite Fm.
Qed.

(** C7, as stated, fails: of the two raw entries [null] and ["etl"] only
    one summary is left. *)
Lemma normalizeDagList_drops_null :
  Chatbot2.normalizeDagList entries_with_null = Ok [VStr "etl"]
  /\ List.length [VStr "etl"] <> List.length [VNull; VStr "etl"].
Proof. split; [reflexivity|discriminate]. Qed.

(** C7, amended: the raw entries that are falsy ([null], [false], [0], the
    empty string) are dropped; every other entry gives exactly one summary,
    in order: a string entry itself, and otherwise the first of [dag_id],
    [dagId] and [id] that is not falsy, or else the JSON text of the
    entry. *)
Theorem normalizeDagList_one_summary_per_truthy_entry :
  forall l : list value,
    exists out,
      Chatbot2.normalizeDagList (VArr l) = Ok out
      /\ out = map summary (filter truthy l)
      /\ List.length out = List.length (filter truthy l).
Proof.
  intros l. exists (map summary (filter truthy l)).
  split; [apply normalizeDagList_summaries|].
  split; [reflexivity|apply length_map].
Qed.

(** ** The backend gateway *)

(** In Chatbot2.jsx, first component, a body that is not JSON becomes the
    empty object and the status of the response is kept. *)
Lemma Chatbot2_settle_not_json st e :
  Chatbot2.settle (Response st (NotJson e)) = Reply (status_ok st) st (VObj []) VUndef.
Proof. reflexivity. Qed.

(** C8 at its failing input: in Analytics.jsx a 200 response whose body is
    not JSON makes [callMCPServer] return [{ok: false, status: 0, body:
    null}], and the turn "list all dags" reports that the server could not
    be reached. *)
Theorem callMCPServer_parse_failure_is_connection_failure :
  run html_backend [] (Detail.callMCPServer "list all dags")
    = (Reply false 0 VNull (VStr (message not_json)),
       [Call (PostRun "list all dags")])
  /\ run html_backend []
         (Analytics.sendMessage
            (Detail.State [] "list all dags" false (VArr []) VNull 1))
     = ((Ok tt,
         Detail.State [Message "user" (VStr "list all dags");
                       bot Analytics.no_connection]
                      "" false (VArr []) VNull 1),
        [Call (PostRun "list all dags")]).
Proof. split; reflexivity. Qed.

(** ** Blank input *)

Lemma is_empty_eq s : s = "" -> is_empty s = true.
Proof. now intros ->. Qed.

(** C10: when the trimmed input is empty, that is when the input is made
    of white space alone, of whatever kind, a turn of each of the three
    components leaves the state as it is and issues no call. *)
Theorem blank_input_is_noop :
  forall (i : string),
    trim i = "" ->
    forall (b : backend) (h : list event) (key : string)
           (ms : list chat_message) (l : bool) (dl dd : value) (cp : nat),
      run b h (Chatbot2.sendMessage key (Chatbot2.State ms i l dl cp))
        = ((Ok tt, Chatbot2.State ms i l dl cp), h)
      /\ run b h (Chatbot2AI.sendMessage key (Detail.State ms i l dl dd cp))
         = ((Ok tt, Detail.State ms i l dl dd cp), h)
      /\ run b h (Analytics.sendMessage (Detail.State ms i l dl dd cp))
         = ((Ok tt, Detail.State ms i l dl dd cp), h).
Proof.
  intros i E b h key ms l dl dd cp.
  unfold Chatbot2.sendMessage, Chatbot2AI.sendMessage, Analytics.sendMessage.
  cbn [Chatbot2.input Detail.input].
  rewrite (is_empty_eq _ E). repeat split.
Qed.

(** An input of a space, a no-break space, a tabulation, a line separator
    U+2028 and a byte order mark U+FEFF is blank. *)
Lemma blank_input_is_noop_witness :
  trim blank_text = ""
  /\ run unreachable []
         (Analytics.sendMessage (Detail.State [] blank_text false (VArr []) VNull 1))
     = ((Ok tt, Detail.State [] blank_text false (VArr []) VNull 1), []).
Proof.
  split; [reflexivity|].
  apply (blank_input_is_noop blank_text eq_refl unreachable [] "" [] false
           (VArr []) VNull 1).
Defined.

(** ** Running programs *)

Lemma run_pbind {A B} (b : backend) (p : prog A) (f : A -> prog B) :
  forall h, run b h (pbind p f)
            = run b (snd (run b h p)) (f (fst (run b h p))).
Proof.
  induction p as [a|r k IH|r1 r2 k IH]; intros h; cbn [pbind run].
  - reflexivity.
  - apply IH.
  - apply IH.
Qed.

Lemma silent_ret {S A} (a : A) : silent (@ret S A a).
Proof. intros b h s. reflexivity. Qed.

Lemma silent_lift {S A} (r : result A) : silent (@lift S A r).
Proof. intros b h s. reflexivity. Qed.

Lemma silent_update {S} (f : S -> S) : silent (update f).
Proof. intros b h s. reflexivity. Qed.

Lemma silent_bind {S A B} (m : M S A) (f : A -> M S B) :
  silent m -> (forall a, silent (f a)) -> silent (bind m f).
Proof.
  intros Hm Hf b h s. unfold bind. rewrite run_pbind, Hm.
  destruct (fst (run b h (m s))) as [[[a|e]|e] s'];
    [apply Hf|reflexivity|reflexivity].
Qed.

Lemma silent_updater {S A} (value : result A) (set : A -> M S unit) :
  (forall a, silent (set a)) -> silent (updater value set).
Proof.
  intros H. destruct value as [a|e]; [apply H|]. intros b h s. reflexivity.
Qed.

Lemma silent_if {S A} (c : bool) (m1 m2 : M S A) :
  silent m1 -> silent m2 -> silent (if c then m1 else m2).
Proof. destruct c; auto. Qed.

Create HintDb silent.
#[local] Hint Resolve silent_ret silent_lift silent_update silent_if : silent.
#[local] Hint Extern 2 (silent (updater _ _)) =>
  apply silent_updater; intros ? : silent.
#[local] Hint Extern 2 (silent (bind _ _)) =>
  apply silent_bind; [|intros ?] : silent.
#[local] Hint Extern 1 (silent (Detail.addMessage _)) => apply silent_update : silent.
#[local] Hint Extern 1 (silent (Detail.setLoading _)) => apply silent_update : silent.
#[local] Hint Extern 1 (silent (Detail.setDagList _)) => apply silent_update : silent.
#[local] Hint Extern 1 (silent (Detail.setDagDetails _)) => apply silent_update : silent.
#[local] Hint Extern 1 (silent (Detail.setCurrentPage _)) => apply silent_update : silent.

(** ** The model-driven router of Chatbot2.jsx *)


Lemma run_bind {S A B} (b : backend) (m : M S A) (f : A -> M S B) h s :
  run b h (bind m f s)
  = match fst (run b h (m s)) with
    | (Done (Ok a), s') => run b (snd (run b h (m s))) (f a s')
    | (Done (Raise e), s') => ((Done (Raise e), s'), snd (run b h (m s)))
    | (Unmounted e, s') => ((Unmounted e, s'), snd (run b h (m s)))
    end.
Proof.
  unfold bind. rewrite run_pbind.
  destruct (fst (run b h (m s))) as [[[a|e]|e] s']; reflexivity.
Qed.

Lemma silent_catch {S A} (m : M S A) (hd : exn -> M S A) :
  silent m -> (forall e, silent (hd e)) -> silent (catch m hd).
Proof.
  intros Hm Hh b h s. unfold catch. rewrite run_pbind, Hm.
  destruct (fst (run b h (m s))) as [[[a|e]|e] s'];
    [reflexivity|apply Hh|reflexivity].
Qed.

(** The calls of [try { m } catch { hd } finally { f }] are those of [m]
    when the handlers issue none. *)
Lemma trace_try {S A} (b : backend) (m : M S A) (hd : exn -> M S A)
      (f : M S unit) h s :
  (forall e, silent (hd e)) -> silent f ->
  snd (run b h (finally (catch m hd) f s)) = snd (run b h (m s)).
Proof.
  intros Hh Hf. unfold finally. rewrite run_pbind.
  assert (E : snd (run b h (catch m hd s)) = snd (run b h (m s))).
  { unfold catch. rewrite run_pbind.
    destruct (fst (run b h (m s))) as [[[a|e]|e] s'];
      [reflexivity|apply Hh|reflexivity]. }
  rewrite E.
  destruct (fst (run b h (catch m hd s))) as [[r|e] s']; [|reflexivity].
  rewrite run_pbind, Hf.
  destruct (fst (run b (snd (run b h (m s))) (f s'))) as [[[u|e]|e] s''];
    reflexivity.
Qed.

Lemma is_empty_false s : s <> "" -> is_empty s = false.
Proof. destruct s; [congruence|reflexivity]. Qed.


Lemma Chatbot2AI_turn_unfold key i ms l dl dd cp :
  trim i <> "" ->
  Chatbot2AI.sendMessage key (Detail.State ms i l dl dd cp)
  = finally (catch (if is_empty key then Chatbot2AI.degraded (trim i) else
                    Detail.addMessage (bot "🤖 Interpreting your request...") ;;
                    aiCommand <- await (Chatbot2AI.sendToAI key (trim i)) ;;
                    if Chatbot2AI.no_command aiCommand then
                      Detail.addMessage (bot Chatbot2AI.not_interpreted) ;;
                      Detail.setLoading false
                    else Chatbot2AI.dispatch (Chatbot2AI.command_text aiCommand))
                   (fun err => Detail.addMessage
                                 (bot ("❌ Error: " ++ message err))))
            (Detail.setLoading false)
            (Detail.State (ms ++ [Message "user" (VStr i)])%list "" true dl VNull cp).
Proof.
  intros N. unfold Chatbot2AI.sendMessage. cbn [Detail.input].
  now rewrite (is_empty_false _ N).
Qed.



(** ** The cascade of Analytics.jsx *)

Lemma cascade_execute q : Analytics.cascade q = Analytics.execute (Analytics.matcher q).
Proof.
  unfold Analytics.cascade, Analytics.matcher.
  destruct (test Analytics.re_list q); [reflexivity|].
  destruct (matched (match1 Analytics.re_search q)
            || test Analytics.re_search_word q).
  - unfold Analytics.search. destruct (Analytics.has_term _); reflexivity.
  - destruct (match1 Analytics.re_details q); [reflexivity|].
    destruct (match1 Analytics.re_pause q); [reflexivity|].
    destruct (match1 Analytics.re_unpause q); [reflexivity|].
    destruct (match1 Analytics.re_trigger q); [reflexivity|].
    destruct (match1 Analytics.re_run q); reflexivity.
Qed.

Lemma lookup_add_key_other k k' v ps :
  k <> k' -> lookup k (add_key k' v ps) = lookup k ps.
Proof.
  intros N. induction ps as [|[k0 v0] ps IH]; cbn [add_key lookup].
  - apply String.eqb_neq in N. now rewrite N.
  - destruct (is_index k' && index_lt k' k0); cbn [lookup].
    + apply String.eqb_neq in N. now rewrite N.
    + now rewrite IH.
Qed.

Lemma lookup_replace_key_other k k' v ps :
  k <> k' -> lookup k (replace_key k' v ps) = lookup k ps.
Proof.
  intros N. induction ps as [|[k0 v0] ps IH]; cbn [replace_key lookup].
  - reflexivity.
  - destruct (String.eqb k' k0) eqn:E; cbn [lookup].
    + apply String.eqb_eq in E. subst k0.
      apply String.eqb_neq in N. now rewrite N.
    + now rewrite IH.
Qed.

Lemma lookup_set_prop_other k k' v ps :
  k <> k' -> lookup k (set_prop k' v ps) = lookup k ps.
Proof.
  intros N. unfold set_prop. destruct (lookup k' ps).
  - now apply lookup_replace_key_other.
  - now apply lookup_add_key_other.
Qed.

(** A spread adds no key that its source does not have. *)
Lemma lookup_spread k ps v :
  lookup k (own_props v) = None -> lookup k (spread ps v) = lookup k ps.
Proof.
  unfold spread. generalize (own_props v) as props. intros props.
  revert ps. induction props as [|[k0 v0] props IH]; intros ps L.
  - reflexivity.
  - cbn [fold_left fst snd]. cbn [lookup] in L.
    destruct (String.eqb k k0) eqn:E; [discriminate|].
    rewrite (IH _ L). apply lookup_set_prop_other.
    now apply String.eqb_neq.
Qed.

(** C4, as stated, fails: a detail body that carries a [dag_id] and a
    [latest_run] of its own, with the run call failing on the network,
    gives a detail record for the other identifier and with a latest run. *)
Lemma detail_record_follows_the_detail_body :
  let r1 := PostRun "get dag details nightly_etl" in
  let r2 := PostRun "get latest run nightly_etl" in
  let st' := snd (fst (run details_of_another []
                         (Analytics.sendMessage
                            (Detail.State [] "get details for nightly_etl" false
                                          (VArr []) VNull 1)))) in
  Analytics.matcher (trim "get details for nightly_etl")
    = Some (Details "nightly_etl")
  /\ ok (Detail.settle (details_of_another [] r1)) = true
  /\ ok (Detail.settle (details_of_another [Call r1] r2)) = false
  /\ read (Detail.dagDetails st') "dag_id" = VStr "other_dag"
  /\ read (Detail.dagDetails st') "latest_run"
     = VObj [("state", VStr "failed")].
Proof. repeat split. Qed.

(** C4, amended: a [Details] turn of Analytics.jsx issues the detail
    request and the latest-run request together, before either answer is
    looked at, and ends without an exception.  When the detail call
    succeeds and the run call fails, the detail record is the identifier
    and the fields of the detail body, with nothing of the run call: it
    is a record for the identifier unless the detail body has a [dag_id]
    of its own, and it has no [latest_run] unless the detail body has one
    of its own; the message announces the details.  When the detail call
    fails, the detail record stays [null] and the message reports that the
    workflow was not found. *)
Theorem details_asymmetric_join :
  forall (b : backend) (i : string) (ms : list chat_message) (l : bool)
         (dl dd : value) (cp : nat) (id : string),
    Analytics.matcher (trim i) = Some (Details id) ->
    let st := Detail.State ms i l dl dd cp in
    let r1 := PostRun ("get dag details " ++ id) in
    let r2 := PostRun ("get latest run " ++ id) in
    let detailsRes := Detail.settle (b [] r1) in
    let runRes := Detail.settle (b [Call r1] r2) in
    exists st',
      run b [] (Analytics.sendMessage st) = ((Ok tt, st'), [CallBoth r1 r2])
      /\ Detail.loading st' = false
      /\ (ok detailsRes = true -> ok runRes = false ->
          Detail.dagDetails st'
            = VObj (spread [("dag_id", VStr id)] (body_of detailsRes))
          /\ Detail.messages st'
             = (ms ++ [Message "user" (VStr i);
                       bot (Analytics.details_shown id)])%list
          /\ (lookup "dag_id" (own_props (body_of detailsRes)) = None ->
              read (Detail.dagDetails st') "dag_id" = VStr id)
          /\ (lookup "latest_run" (own_props (body_of detailsRes)) = None ->
              read (Detail.dagDetails st') "latest_run" = VUndef))
      /\ (ok detailsRes = false ->
          Detail.dagDetails st' = VNull
          /\ Detail.messages st'
             = (ms ++ [Message "user" (VStr i);
                       bot (Analytics.not_found id)])%list).
Proof.
  intros b i ms l dl dd cp id H st r1 r2 detailsRes runRes.
  unfold Analytics.sendMessage. subst st. cbn [Detail.input].
  assert (E : is_empty (trim i) = false).
  { destruct (trim i); [discriminate H|reflexivity]. }
  rewrite E, cascade_execute, H. cbn [Analytics.execute].
  unfold Analytics.dag_details, Detail.callMCPServer, all2.
  cbn [bind Detail.addMessage Detail.setInput Detail.setLoading
       Detail.setDagDetails update pbind await run app finally catch fst snd].
  fold r1 r2. fold detailsRes. fold runRes.
  destruct (ok detailsRes) eqn:Od; [destruct (ok runRes) eqn:Or|];
    cbn [bind Detail.addMessage Detail.setInput Detail.setLoading
         Detail.setDagDetails update pbind await run app finally catch fst snd
         Detail.messages Detail.input Detail.loading Detail.dagList
         Detail.dagDetails Detail.currentPage];
    eexists; (split; [reflexivity|]);
    cbn [Detail.loading Detail.dagDetails Detail.messages];
    (split; [reflexivity|]).
  - split; [intros _ D; discriminate D|intros D; discriminate D].
  - split; [|intros D; discriminate D]. intros _ _.
    split; [reflexivity|]. split; [now rewrite <- app_assoc|].
    split; intros L; cbn [read]; rewrite (lookup_spread _ _ _ L); reflexivity.
  - split; [intros D; discriminate D|]. intros _.
    split; [reflexivity|now rewrite <- app_assoc].
Qed.

Lemma details_asymmetric_join_witness :
  Analytics.matcher (trim "get details for nightly_etl")
    = Some (Details "nightly_etl")
  /\ exists st',
       run details_only []
           (Analytics.sendMessage
              (Detail.State [] "get details for nightly_etl" false (VArr []) VNull 1))
       = ((Ok tt, st'),
          [CallBoth (PostRun "get dag details nightly_etl")
                    (PostRun "get latest run nightly_etl")])
       /\ Detail.dagDetails st'
          = VObj [("dag_id", VStr "nightly_etl"); ("is_paused", VBool false)]
       /\ read (Detail.dagDetails st') "dag_id" = VStr "nightly_etl"
       /\ read (Detail.dagDetails st') "latest_run" = VUndef.
Proof.
  split; [reflexivity|].
  destruct (details_asymmetric_join details_only "get details for nightly_etl"
              [] false (VArr []) VNull 1 "nightly_etl" eq_refl)
    as (st' & R & _ & A & _).
  exists st'. split; [exact R|].
  destruct (A eq_refl eq_refl) as (D & _ & I & L).
  split; [exact D|]. split; [exact (I eq_refl)|exact (L eq_refl)].
Defined.



(** C6 at its failing input, and at every input of its kind: when the
    search branch of Analytics.jsx finds no term, the turn ends with the
    message of the user alone: no call, no reply, no fallback. *)
Theorem search_without_term_ends_silently :
  forall (b : backend) (i : string) (ms : list chat_message) (l : bool)
         (dl dd : value) (cp : nat),
    Analytics.matcher (trim i) = None ->
    run b [] (Analytics.sendMessage (Detail.State ms i l dl dd cp))
    = ((Ok tt,
        Detail.State (ms ++ [Message "user" (VStr i)])%list "" false dl VNull cp),
       []).
Proof.
  intros b i ms l dl dd cp H.
  unfold Analytics.sendMessage. cbn [Detail.input].
  assert (E : is_empty (trim i) = false).
  { destruct (trim i); [discriminate H|reflexivity]. }
  rewrite E, cascade_execute, H. reflexivity.
Qed.

Lemma search_without_term_ends_silently_witness :
  Analytics.matcher (trim "search") = None
  /\ run unreachable []
         (Analytics.sendMessage (Detail.State [] "search" false (VArr []) VNull 1))
     = ((Ok tt,
         Detail.State [Message "user" (VStr "search")] "" false (VArr []) VNull 1),
        []).
Proof.
  split; [reflexivity|].
  apply (search_without_term_ends_silently unreachable "search" [] false
           (VArr []) VNull 1 eq_refl).
Defined.

(** C5, as stated, fails.  In Chatbot2.jsx an empty list and an unreachable
    server give the same message.  In Analytics.jsx a 200 answer whose body
    is [null] normalizes to no entity and gets the message of a failed
    connection. *)
Lemma empty_list_message_not_always_distinct :
  Chatbot2.extractDags (VObj [("dags", VArr [])]) = Ok (VArr [])
  /\ Chatbot2.messages
       (snd (fst (run (always (VObj [("dags", VArr [])])) []
                      (Chatbot2.sendMessage ""
                         (Chatbot2.State [] "list all dags" false (VArr []) 1)))))
     = Chatbot2.messages
         (snd (fst (run unreachable []
                        (Chatbot2.sendMessage ""
                           (Chatbot2.State [] "list all dags" false (VArr []) 1)))))
  /\ Detail.extractDags VNull = Ok (VArr [])
  /\ Detail.messages
       (snd (fst (run (always VNull) []
                      (Analytics.sendMessage
                         (Detail.State [] "list all dags" false (VArr []) VNull 1)))))
     = [Message "user" (VStr "list all dags"); bot Analytics.no_connection].
Proof. repeat split. Qed.

(** A list whose [length] has no string form: the comparison
    [dags.length > 0] of line 499 throws, and the turn shows the
    [TypeError] instead of either message. *)
Lemma list_turn_shows_the_error_of_the_comparison :
  run (always payload_odd_length) []
      (Analytics.sendMessage
         (Detail.State [] "list all dags" false (VArr []) VNull 1))
  = ((Ok tt,
      Detail.State [Message "user" (VStr "list all dags");
                    bot (error_message not_primitive)]
                   "" false (VArr []) VNull 1),
     [Call (PostRun "list all dags")]).
Proof. reflexivity. Qed.

(** C5, amended: in Analytics.jsx, a List turn whose backend call succeeds
    with a body that is not falsy and that normalizes to no entity (the
    comparison [dags.length > 0] is false and does not throw) ends without
    an exception, with the list of entities as it was and the message "No
    DAGs found."; a List turn whose backend call fails, or succeeds with a
    body that is falsy ([null], [false], [0], the empty string), ends with
    the message "Could not connect to Airflow server."; the two messages
    differ. *)
Theorem empty_list_is_not_a_failure :
  forall (b : backend) (i : string) (ms : list chat_message) (l : bool)
         (dl dd : value) (cp : nat) (dags : value),
    Analytics.matcher (trim i) = Some List ->
    let st := Detail.State ms i l dl dd cp in
    let req := PostRun "list all dags" in
    let result := Detail.settle (b [] req) in
    ok result = true ->
    truthy (body_of result) = true ->
    Detail.extractDags (body_of result) = Ok dags ->
    gt_zero (read dags "length") = Ok false ->
    run b [] (Analytics.sendMessage st)
    = ((Ok tt,
        Detail.State (ms ++ [Message "user" (VStr i); bot Analytics.no_dags])%list
                     "" false dl VNull cp),
       [Call req])
    /\ (forall b' : backend,
          ok (Detail.settle (b' [] req)) = false
          \/ truthy (body_of (Detail.settle (b' [] req))) = false ->
          run b' [] (Analytics.sendMessage st)
          = ((Ok tt,
              Detail.State (ms ++ [Message "user" (VStr i);
                                   bot Analytics.no_connection])%list
                           "" false dl VNull cp),
             [Call req]))
    /\ Analytics.no_dags <> Analytics.no_connection.
Proof.
  intros b i ms l dl dd cp dags H st req result O T X G.
  assert (E : is_empty (trim i) = false).
  { destruct (trim i); [discriminate H|reflexivity]. }
  split; [|split; [|discriminate]].
  - unfold Analytics.sendMessage. subst st. cbn [Detail.input].
    rewrite E, cascade_execute, H. cbn [Analytics.execute].
    unfold Analytics.list_dags, Detail.callMCPServer.
    cbn [bind Detail.addMessage Detail.setInput Detail.setLoading
         Detail.setDagDetails update pbind await run app finally catch fst snd].
    fold req. fold result. rewrite O, T, X. cbn [andb lift pbind bind].
    rewrite G. cbn. now rewrite <- app_assoc.
  - intros b' O'.
    unfold Analytics.sendMessage. subst st. cbn [Detail.input].
    rewrite E, cascade_execute, H. cbn [Analytics.execute].
    unfold Analytics.list_dags, Detail.callMCPServer.
    cbn [bind Detail.addMessage Detail.setInput Detail.setLoading
         Detail.setDagDetails update pbind await run app finally catch fst snd].
    fold req.
    assert (C : ok (Detail.settle (b' [] req))
                && truthy (body_of (Detail.settle (b' [] req))) = false).
    { destruct O' as [-> | ->]; [reflexivity|apply andb_false_r]. }
    rewrite C. cbn. now rewrite <- app_assoc.
Qed.

Lemma empty_list_is_not_a_failure_witness :
  Analytics.matcher (trim "list all dags") = Some List
  /\ run (always (VObj [("dags", VArr [])])) []
         (Analytics.sendMessage
            (Detail.State [] "list all dags" false (VArr []) VNull 1))
     = ((Ok tt,
         Detail.State [Message "user" (VStr "list all dags"); bot "No DAGs found."]
                      "" false (VArr []) VNull 1),
        [Call (PostRun "list all dags")])
  /\ truthy (body_of (Detail.settle (always (VNum 0) [] (PostRun "list all dags"))))
     = false
  /\ run (always (VNum 0)) []
         (Analytics.sendMessage
            (Detail.State [] "list all dags" false (VArr []) VNull 1))
     = ((Ok tt,
         Detail.State [Message "user" (VStr "list all dags");
                       bot "❌ Could not connect to Airflow server."]
                      "" false (VArr []) VNull 1),
        [Call (PostRun "list all dags")]).
Proof.
  split; [reflexivity|].
  destruct (empty_list_is_not_a_failure (always (VObj [("dags", VArr [])]))
              "list all dags" [] false (VArr []) VNull 1 (VArr [])
              eq_refl eq_refl eq_refl eq_refl eq_refl) as (A & B & _).
  split; [exact A|]. split; [reflexivity|].
  exact (B (always (VNum 0)) (or_intror eq_refl)).
Defined.

(** ** The order of the rules *)

Lemma Analytics_matcher_first_match q :
  Analytics.matcher q = first_match Analytics.rules q.
Proof.
  unfold Analytics.matcher, first_match, Analytics.rules, Analytics.list_rule,
    Analytics.search_rule, Analytics.details_rule, Analytics.pause_rule,
    Analytics.unpause_rule, Analytics.trigger_rule, Analytics.latest_run_rule.
  cbn [find fires outcome].
  destruct (test Analytics.re_list q); [reflexivity|].
  destruct (matched (match1 Analytics.re_search q)
            || test Analytics.re_search_word q); [reflexivity|].
  destruct (match1 Analytics.re_details q) eqn:E1; cbn; rewrite ?E1; [reflexivity|].
  destruct (match1 Analytics.re_pause q) eqn:E2; cbn; rewrite ?E2; [reflexivity|].
  destruct (match1 Analytics.re_unpause q) eqn:E3; cbn; rewrite ?E3; [reflexivity|].
  destruct (match1 Analytics.re_trigger q) eqn:E4; cbn; rewrite ?E4; [reflexivity|].
  destruct (match1 Analytics.re_run q) eqn:E5; cbn; rewrite ?E5; reflexivity.
Qed.

Lemma Chatbot2_matcher_first_match q :
  Chatbot2.matcher q = first_match Chatbot2.rules q.
Proof.
  unfold Chatbot2.matcher, first_match, Chatbot2.rules, Chatbot2.rerun_rule,
    Chatbot2.list_rule.
  cbn [find fires outcome].
  destruct (match1 Chatbot2.re_rerun (toLowerCase q)) eqn:E1; cbn; rewrite ?E1;
    [reflexivity|].
  destruct (test Chatbot2.re_list q || test Chatbot2.re_show q); reflexivity.
Qed.

Lemma matcher_of_first_match c q : matcher_of c q = first_match (rules_of c) q.
Proof.
  destruct c; [apply Chatbot2_matcher_first_match|apply Analytics_matcher_first_match].
Qed.

(** Each component lists its rules in the order of section 4.1. *)
Lemma rules_in_order c : StronglySorted earlier (rules_of c).
Proof.
  destruct c; unfold rules_of, Chatbot2.rules, Analytics.rules;
    repeat (constructor; [|repeat constructor; unfold earlier; cbn; lia]);
    constructor.
Qed.

Lemma find_earliest (l : list rule) (q : string) (r : rule) :
  StronglySorted earlier l ->
  In r l ->
  fires r q = true ->
  (forall r', In r' l -> earlier r' r -> fires r' q = false) ->
  find (fun x => fires x q) l = Some r.
Proof.
  induction l as [|a l IH]; intros S I F E; [contradiction|].
  apply StronglySorted_inv in S. destruct S as [S A].
  cbn [find]. destruct I as [->|I].
  - now rewrite F.
  - rewrite (E a (or_introl eq_refl)).
    + apply IH; auto. intros r' I'. apply E. now right.
    + rewrite Forall_forall in A. now apply A.
Qed.

(** C3, as stated, fails: the utterance "list all dags and rerun etl"
    satisfies the rerun pattern, rule 1, and the list pattern, rule 2;
    Chatbot2.jsx classifies it by rule 1, and Analytics.jsx, which has no
    rerun rule, classifies it by rule 2 and lists the workflows. *)
Lemma analytics_has_no_rerun_rule :
  match1 Chatbot2.re_rerun (toLowerCase list_and_rerun) = Some "etl"
  /\ test Analytics.re_list list_and_rerun = true
  /\ Chatbot2.matcher list_and_rerun = Some (Trigger "etl")
  /\ Analytics.matcher list_and_rerun = Some List
  /\ snd (run unreachable []
              (Analytics.sendMessage
                 (Detail.State [] list_and_rerun false (VArr []) VNull 1)))
     = [Call (PostRun "list all dags")].
Proof. repeat split. Qed.

(** C3, amended: in each of the two components that match patterns, an
    utterance is given the command of the earliest rule, in the order of
    section 4.1, among the rules that the component implements and that the
    utterance satisfies, and so never that of a later one.  Chatbot2.jsx
    implements rules 1 and 2, Analytics.jsx rules 2 to 8. *)
Theorem earliest_implemented_rule_wins :
  forall (c : component) (q : string) (r : rule),
    In r (rules_of c) ->
    fires r q = true ->
    (forall r', In r' (rules_of c) -> earlier r' r -> fires r' q = false) ->
    matcher_of c q = outcome r q.
Proof.
  intros c q r I F E. rewrite matcher_of_first_match. unfold first_match.
  now rewrite (find_earliest _ q r (rules_in_order c) I F E).
Qed.

(** In Chatbot2.jsx the rerun rule has no rule before it: the utterance
    that holds a list request and a rerun request is a rerun. *)
Lemma earliest_implemented_rule_wins_witness :
  In Chatbot2.rerun_rule (rules_of chatbot2)
  /\ fires Chatbot2.rerun_rule list_and_rerun = true
  /\ fires Chatbot2.list_rule list_and_rerun = true
  /\ matcher_of chatbot2 list_and_rerun = Some (Trigger "etl").
Proof.
  split; [now left|]. split; [reflexivity|]. split; [reflexivity|].
  refine (earliest_implemented_rule_wins chatbot2 list_and_rerun
            Chatbot2.rerun_rule (or_introl eq_refl) eq_refl _).
  intros r' [<-|[<-|[]]] L; unfold earlier in L; cbn in L; lia.
Defined.

(** ** The branches behind the matchers *)

Lemma Chatbot2_sendMessage_execute key ms i l dl cp :
  is_empty (trim i) = false ->
  Chatbot2.sendMessage key (Chatbot2.State ms i l dl cp)
  = ( Chatbot2.addMessage (Message "user" (VStr i)) ;;
      Chatbot2.setInput "" ;;
      Chatbot2.setLoading true ;;
      Chatbot2.execute key (Chatbot2.matcher (trim i)) )
      (Chatbot2.State ms i l dl cp).
Proof.
  intros E. unfold Chatbot2.sendMessage, Chatbot2.matcher. cbn [Chatbot2.input].
  rewrite E.
  destruct (match1 Chatbot2.re_rerun (toLowerCase (trim i))); [reflexivity|].
  destruct (test Chatbot2.re_list (trim i) || test Chatbot2.re_show (trim i));
    reflexivity.
Qed.

(** In Chatbot2.jsx an utterance with "rerun <id>" makes one request, to
    the rerun endpoint, whatever else it says. *)
Lemma rerun_goes_to_rerun_endpoint (b : backend) key ms i l dl cp id :
  match1 Chatbot2.re_rerun (toLowerCase (trim i)) = Some id ->
  Chatbot2.matcher (trim i) = Some (Trigger id)
  /\ snd (run b [] (Chatbot2.sendMessage key (Chatbot2.State ms i l dl cp)))
     = [Call (PostRerun id)].
Proof.
  intros H.
  assert (Hm : Chatbot2.matcher (trim i) = Some (Trigger id)).
  { unfold Chatbot2.matcher. now rewrite H. }
  split; [exact Hm|].
  assert (E : is_empty (trim i) = false).
  { destruct (trim i); [discriminate H|reflexivity]. }
  rewrite (Chatbot2_sendMessage_execute key ms i l dl cp E), Hm.
  cbn [Chatbot2.execute].
  unfold bind at 1 2 3.
  cbn [Chatbot2.addMessage Chatbot2.setInput Chatbot2.setLoading update pbind].
  unfold Chatbot2.rerun.
  rewrite trace_try; [| intros e; apply silent_update | apply silent_update].
  unfold bind, fetchM. cbn [pbind run app].
  destruct (b [] (PostRerun id)) as [e|st body]; [reflexivity|].
  cbn [pbind fst snd].
  destruct (status_ok st && truthy (get_opt _ "success")).
  - unfold lift. cbn [pbind].
    destruct (Chatbot2.rerun_id _) as [a|e]; [|reflexivity].
    cbn [pbind]. destruct (to_string _); reflexivity.
  - destruct (status_ok st); reflexivity.
Qed.

(** ** What the other versions still guarantee *)

(** The normalizer of Analytics.jsx never throws either. *)
Lemma Detail_extractDags_total p : exists v, Detail.extractDags p = Ok v.
Proof.
  unfold Detail.extractDags.
  destruct (truthy p) eqn:T; cbn [negb]; [|eauto].
  rewrite !(get_truthy p) by exact T. cbn [rbind].
  destruct (truthy (get_opt (read p "output") "dags")) eqn:D.
  - assert (N : is_nullish (read p "output") = false).
    { destruct (read p "output"); try reflexivity; discriminate D. }
    unfold get. rewrite N. eauto.
  - destruct (isArray (read p "dags")); [eauto|]. cbn [rbind].
    destruct (isArray (read p "results")); [eauto|].
    destruct (isArray p); eauto.
Qed.

(** On a completion with a text, the interpreter keeps the first line,
    trimmed. *)
Lemma interpret_completion st c :
  c <> "" ->
  Chatbot2AI.interpret (Response st (Json (completion_of c)))
  = Some (trim (first_line c)).
Proof. destruct c; [congruence|reflexivity]. Qed.

(** In Chatbot2.jsx a List turn that finds no entity and a List turn whose
    call fails end the same way. *)
Lemma Chatbot2_list_same_message (b : backend) key i ms l dl cp dags :
  Chatbot2.matcher (trim i) = Some List ->
  let req := PostRun "list all dags" in
  let result := Chatbot2.settle (b [] req) in
  ok result = false
  \/ (Chatbot2.extractDags (body_of result) = Ok dags
      /\ gt_zero (read dags "length") = Ok false) ->
  run b [] (Chatbot2.sendMessage key (Chatbot2.State ms i l dl cp))
  = ((Ok tt,
      Chatbot2.State (ms ++ [Message "user" (VStr i); bot Chatbot2.no_dags])%list
                     "" false dl cp),
     [Call req]).
Proof.
  intros H req result C.
  assert (E : is_empty (trim i) = false).
  { destruct (trim i); [discriminate H|reflexivity]. }
  rewrite (Chatbot2_sendMessage_execute key ms i l dl cp E), H.
  cbn [Chatbot2.execute].
  unfold Chatbot2.list_dags, Chatbot2.callMCPServer.
  cbn [bind Chatbot2.addMessage Chatbot2.setInput Chatbot2.setLoading
       update pbind await run app fst snd].
  fold req. fold result.
  destruct (ok result) eqn:O; cbn [negb].
  - destruct C as [C|[X G]]; [discriminate C|].
    rewrite X. cbn [lift pbind bind]. rewrite G. cbn.
    now rewrite <- app_assoc.
  - cbn. now rewrite <- app_assoc.
Qed.

(** * Further properties *)

(** ** Relations that computations keep *)

Lemma fst_run_await {S A} (b : backend) (p : prog A) h (s : S) :
  fst (run b h (await p s)) = (Ok (fst (run b h p)), s).
Proof. unfold await. now rewrite run_pbind. Qed.

Lemma snd_run_await {S A} (b : backend) (p : prog A) h (s : S) :
  snd (run b h (await p s)) = snd (run b h p).
Proof. unfold await. now rewrite run_pbind. Qed.

Section Preserves.
Context {S : Type} (R : S -> S -> Prop).
Hypothesis R_refl : forall s, R s s.
Hypothesis R_trans : forall s1 s2 s3, R s1 s2 -> R s2 s3 -> R s1 s3.

Lemma preserves_ret {A} (a : A) : preserves R (ret a).
Proof. intros b h s. apply R_refl. Qed.

Lemma preserves_lift {A} (r : result A) : preserves R (lift r).
Proof. intros b h s. apply R_refl. Qed.

Lemma preserves_await {A} (p : prog A) : preserves R (await p).
Proof. intros b h s. rewrite fst_run_await. apply R_refl. Qed.

Lemma preserves_fetchM (r : request) : preserves R (fetchM r).
Proof.
  intros b h s. unfold fetchM. cbn [run].
  destruct (b h r); apply R_refl.
Qed.

Lemma preserves_update (f : S -> S) :
  (forall s, R s (f s)) -> preserves R (update f).
Proof. intros H b h s. apply H. Qed.

Lemma preserves_updater {A} (value : result A) (set : A -> M S unit) :
  (forall a, preserves R (set a)) -> preserves R (updater value set).
Proof.
  intros H. destruct value as [a|e]; [apply H|].
  intros b h s. apply R_refl.
Qed.

Lemma preserves_bind {A B} (m : M S A) (f : A -> M S B) :
  preserves R m -> (forall a, preserves R (f a)) -> preserves R (bind m f).
Proof.
  intros Hm Hf b h s. rewrite run_bind. specialize (Hm b h s).
  destruct (fst (run b h (m s))) as [[[a|e]|e] s'] eqn:E; cbn [fst snd] in *.
  - eapply R_trans; [exact Hm|apply Hf].
  - exact Hm.
  - exact Hm.
Qed.

Lemma preserves_catch {A} (m : M S A) (hd : exn -> M S A) :
  preserves R m -> (forall e, preserves R (hd e)) -> preserves R (catch m hd).
Proof.
  intros Hm Hh b h s. unfold catch. rewrite run_pbind. specialize (Hm b h s).
  destruct (fst (run b h (m s))) as [[[a|e]|e] s'] eqn:E; cbn [fst snd] in *.
  - exact Hm.
  - eapply R_trans; [exact Hm|apply Hh].
  - exact Hm.
Qed.

Lemma preserves_finally {A} (m : M S A) (f : M S unit) :
  preserves R m -> preserves R f -> preserves R (finally m f).
Proof.
  intros Hm Hf b h s. unfold finally. rewrite run_pbind.
  specialize (Hm b h s).
  destruct (fst (run b h (m s))) as [[r|e] s'] eqn:E; cbn [fst snd] in *;
    [|exact Hm].
  rewrite run_pbind.
  specialize (Hf b (snd (run b h (m s))) s').
  destruct (fst (run b (snd (run b h (m s))) (f s'))) as [[[u|e]|e] s''];
    cbn [fst snd] in *; eapply R_trans; eauto.
Qed.

Lemma preserves_if {A} (c : bool) (m1 m2 : M S A) :
  preserves R m1 -> preserves R m2 -> preserves R (if c then m1 else m2).
Proof. destruct c; auto. Qed.
End Preserves.

Lemma preserves_two_updates {S A} (R : S -> S -> Prop)
      (R_trans : forall s1 s2 s3, R s1 s2 -> R s2 s3 -> R s1 s3)
      (f g : S -> S) (k : M S A) :
  (forall s, R s (g (f s))) ->
  preserves R k ->
  preserves R (bind (update f) (fun _ => bind (update g) (fun _ => k))).
Proof.
  intros H Hk b h s. unfold bind, update. cbn [pbind].
  eapply R_trans; [apply H|apply Hk].
Qed.

Lemma preserves_two_updates_end {S} (R : S -> S -> Prop) (f g : S -> S) :
  (forall s, R s (g (f s))) ->
  preserves R (bind (update f) (fun _ => update g)).
Proof. intros H b h s. apply H. Qed.

Lemma extends_refl l : extends l l.
Proof. exists []. now rewrite app_nil_r. Qed.

Lemma extends_trans l1 l2 l3 : extends l1 l2 -> extends l2 l3 -> extends l1 l3.
Proof.
  intros [m1 ->] [m2 ->]. exists (m1 ++ m2)%list. now rewrite app_assoc.
Qed.

Lemma page_follows_refl dl cp : page_follows_list dl dl cp cp.
Proof. left. split; reflexivity. Qed.

Lemma page_follows_trans dl1 dl2 dl3 cp1 cp2 cp3 :
  page_follows_list dl1 dl2 cp1 cp2 ->
  page_follows_list dl2 dl3 cp2 cp3 ->
  page_follows_list dl1 dl3 cp1 cp3.
Proof.
  intros [[-> ->]|H1] [[-> ->]|H2]; unfold page_follows_list; auto.
Qed.

Lemma frame_refl s : frame s s.
Proof.
  split; [apply extends_refl|]. split; [reflexivity|apply page_follows_refl].
Qed.

Lemma frame_trans s1 s2 s3 : frame s1 s2 -> frame s2 s3 -> frame s1 s3.
Proof.
  intros (M1 & I1 & P1) (M2 & I2 & P2). split; [|split].
  - eapply extends_trans; eauto.
  - congruence.
  - eapply page_follows_trans; eauto.
Qed.

Lemma frame2_refl s : frame2 s s.
Proof.
  split; [apply extends_refl|]. split; [reflexivity|apply page_follows_refl].
Qed.

Lemma frame2_trans s1 s2 s3 : frame2 s1 s2 -> frame2 s2 s3 -> frame2 s1 s3.
Proof.
  intros (M1 & I1 & P1) (M2 & I2 & P2). split; [|split].
  - eapply extends_trans; eauto.
  - congruence.
  - eapply page_follows_trans; eauto.
Qed.

(** The setters other than [setInput] and a lone [setDagList]. *)
Ltac frame_step :=
  intros ?; split; [|split];
  [ first [ apply extends_refl | eexists; reflexivity ]
  | reflexivity
  | first [ apply page_follows_refl | right; reflexivity ] ].

Ltac keeps Hrefl Htrans Hstep :=
  repeat lazymatch goal with
  | |- preserves _ (bind (update _) (fun _ => bind (update _) (fun _ => _))) =>
      first [ apply (preserves_two_updates _ Htrans); [solve [Hstep]|]
            | apply (preserves_bind _ Htrans); [|intros ?] ]
  | |- preserves _ (bind (update _) (fun _ => update _)) =>
      first [ apply preserves_two_updates_end; solve [Hstep]
            | apply (preserves_bind _ Htrans); [|intros ?] ]
  | |- preserves _ (bind _ _) => apply (preserves_bind _ Htrans); [|intros ?]
  | |- preserves _ (if _ then _ else _) => apply preserves_if
  | |- preserves _ (ret _) => apply (preserves_ret _ Hrefl)
  | |- preserves _ (lift _) => apply (preserves_lift _ Hrefl)
  | |- preserves _ (await _) => apply (preserves_await _ Hrefl)
  | |- preserves _ (fetchM _) => apply (preserves_fetchM _ Hrefl)
  | |- preserves _ (catch _ _) => apply (preserves_catch _ Htrans); [|intros ?]
  | |- preserves _ (finally _ _) => apply (preserves_finally _ Htrans)
  | |- preserves _ (updater _ _) => apply (preserves_updater _ Hrefl); intros ?
  | |- preserves _ (update _) => apply preserves_update; solve [Hstep]
  | |- preserves _ (match ?x with _ => _ end) => destruct x
  end.

Ltac unfold_detail :=
  unfold Analytics.cascade, Analytics.list_dags, Analytics.search,
    Analytics.search_for, Analytics.dag_details, Analytics.pause,
    Analytics.unpause, Analytics.toggle, Analytics.trigger,
    Analytics.latest_run, Analytics.forward, Chatbot2AI.degraded,
    Chatbot2AI.dispatch, Chatbot2AI.showDags, Detail.addMessage,
    Detail.setLoading, Detail.setDagList, Detail.setDagDetails,
    Detail.setCurrentPage; cbv zeta.

Lemma cascade_frame q : preserves frame (Analytics.cascade q).
Proof.
  unfold_detail. keeps frame_refl frame_trans frame_step.
Qed.

(** ** Where a turn can unmount the component *)

Lemma mounted_ret {S A} (a : A) : mounted (@ret S A a).
Proof. intros b h s e. discriminate. Qed.

Lemma mounted_lift {S A} (r : result A) : mounted (@lift S A r).
Proof. intros b h s e. discriminate. Qed.

Lemma mounted_update {S} (f : S -> S) : mounted (update f).
Proof. intros b h s e. discriminate. Qed.

Lemma mounted_await {S A} (p : prog A) : mounted (@await S A p).
Proof. intros b h s e. rewrite fst_run_await. discriminate. Qed.

Lemma mounted_fetchM {S} (r : request) : mounted (@fetchM S r).
Proof.
  intros b h s e. unfold fetchM. cbn [run]. destruct (b h r); discriminate.
Qed.

Lemma mounted_bind {S A B} (m : M S A) (f : A -> M S B) :
  mounted m -> (forall a, mounted (f a)) -> mounted (bind m f).
Proof.
  intros Hm Hf b h s e. rewrite run_bind. specialize (Hm b h s).
  destruct (fst (run b h (m s))) as [[[a|e']|e'] s'].
  - apply Hf.
  - discriminate.
  - now destruct (Hm e').
Qed.

(** What follows a pure computation is run only on its value. *)
Lemma mounted_bind_lift {S A B} (r : result A) (f : A -> M S B) :
  (forall a, r = Ok a -> mounted (f a)) -> mounted (bind (lift r) f).
Proof.
  intros Hf b h s e. rewrite run_bind. unfold lift. cbn [run fst snd].
  destruct r as [a|e']; [now apply Hf|discriminate].
Qed.

Lemma mounted_if {S A} (c : bool) (m1 m2 : M S A) :
  mounted m1 -> mounted m2 -> mounted (if c then m1 else m2).
Proof. destruct c; auto. Qed.

Lemma mounted_catch {S A} (m : M S A) (hd : exn -> M S A) :
  mounted m -> (forall e, mounted (hd e)) -> mounted (catch m hd).
Proof.
  intros Hm Hh b h s e. unfold catch. rewrite run_pbind. specialize (Hm b h s).
  destruct (fst (run b h (m s))) as [[[a|e']|e'] s'].
  - discriminate.
  - apply Hh.
  - now destruct (Hm e').
Qed.

Lemma mounted_finally {S A} (m : M S A) (f : M S unit) :
  mounted m -> mounted f -> mounted (finally m f).
Proof.
  intros Hm Hf b h s e. unfold finally. rewrite run_pbind. specialize (Hm b h s).
  destruct (fst (run b h (m s))) as [[r|e'] s']; [|now destruct (Hm e')].
  rewrite run_pbind. specialize (Hf b (snd (run b h (m s))) s').
  destruct (fst (run b (snd (run b h (m s))) (f s'))) as [[[u|e']|e'] s''];
    [discriminate|discriminate|now destruct (Hf e')].
Qed.

Lemma mounted_updater_ok {S A} (a : A) (set : A -> M S unit) :
  mounted (set a) -> mounted (updater (Ok a) set).
Proof. exact (fun H => H). Qed.

Lemma steady_await {S A} (p : prog A) : steady (@await S A p).
Proof. intros b h s. rewrite fst_run_await. split; [reflexivity|discriminate]. Qed.

Lemma steady_lift {S A} (r : result A) : steady (@lift S A r).
Proof. intros b h s. split; [reflexivity|discriminate]. Qed.

Lemma steady_fetchM {S} (r : request) : steady (@fetchM S r).
Proof.
  intros b h s. unfold fetchM. cbn [run].
  destruct (b h r); (split; [reflexivity|discriminate]).
Qed.

Lemma unmounts_mounted {S A} (m : M S A) : mounted m -> unmounts_at_start m.
Proof. intros H b h s e E. now destruct (H b h s e). Qed.

Lemma unmounts_updater {S A} (value : result A) (set : A -> M S unit) :
  (forall a, mounted (set a)) -> unmounts_at_start (updater value set).
Proof.
  intros H. destruct value as [a|e]; [apply unmounts_mounted, H|].
  intros b h s e' _. reflexivity.
Qed.

Lemma unmounts_bind_steady {S A B} (m : M S A) (f : A -> M S B) :
  steady m -> (forall a, unmounts_at_start (f a)) ->
  unmounts_at_start (bind m f).
Proof.
  intros Hm Hf b h s e. rewrite run_bind. destruct (Hm b h s) as [Hs Hu].
  destruct (fst (run b h (m s))) as [[[a|e']|e'] s']; cbn [fst snd] in *.
  - subst s'. apply Hf.
  - discriminate.
  - now destruct (Hu e').
Qed.

Lemma unmounts_bind_mounted {S A B} (m : M S A) (f : A -> M S B) :
  unmounts_at_start m -> (forall a, mounted (f a)) ->
  unmounts_at_start (bind m f).
Proof.
  intros Hm Hf b h s e. rewrite run_bind. specialize (Hm b h s).
  destruct (fst (run b h (m s))) as [[[a|e']|e'] s']; cbn [fst snd] in *.
  - intros E. now destruct (Hf a _ _ _ _ E).
  - discriminate.
  - intros _. now apply (Hm e').
Qed.

Lemma unmounts_if {S A} (c : bool) (m1 m2 : M S A) :
  unmounts_at_start m1 -> unmounts_at_start m2 ->
  unmounts_at_start (if c then m1 else m2).
Proof. destruct c; auto. Qed.

Lemma unmounts_catch {S A} (m : M S A) (hd : exn -> M S A) :
  unmounts_at_start m -> (forall e, mounted (hd e)) ->
  unmounts_at_start (catch m hd).
Proof.
  intros Hm Hh b h s e. unfold catch. rewrite run_pbind. specialize (Hm b h s).
  destruct (fst (run b h (m s))) as [[[a|e']|e'] s']; cbn [fst snd] in *.
  - discriminate.
  - intros E. now destruct (Hh e' _ _ _ _ E).
  - intros _. now apply (Hm e').
Qed.

Lemma unmounts_finally {S A} (m : M S A) (f : M S unit) :
  unmounts_at_start m -> mounted f -> unmounts_at_start (finally m f).
Proof.
  intros Hm Hf b h s e. unfold finally. rewrite run_pbind. specialize (Hm b h s).
  destruct (fst (run b h (m s))) as [[r|e'] s']; cbn [fst snd] in *.
  - rewrite run_pbind. specialize (Hf b (snd (run b h (m s))) s').
    destruct (fst (run b (snd (run b h (m s))) (f s'))) as [[[u|e'']|e''] s''];
      cbn [fst snd]; [discriminate|discriminate|now destruct (Hf e'')].
  - intros _. now apply (Hm e').
Qed.

Ltac stays :=
  repeat lazymatch goal with
  | |- mounted (bind _ _) => apply mounted_bind; [|intros ?]
  | |- mounted (if _ then _ else _) => apply mounted_if
  | |- mounted (ret _) => apply mounted_ret
  | |- mounted (lift _) => apply mounted_lift
  | |- mounted (await _) => apply mounted_await
  | |- mounted (fetchM _) => apply mounted_fetchM
  | |- mounted (update _) => apply mounted_update
  | |- mounted (catch _ _) => apply mounted_catch; [|intros ?]
  | |- mounted (finally _ _) => apply mounted_finally
  | |- mounted (match ?x with _ => _ end) => destruct x
  end.

Ltac starts :=
  repeat lazymatch goal with
  | |- unmounts_at_start (bind (await _) _) =>
      apply unmounts_bind_steady; [apply steady_await|intros ?]
  | |- unmounts_at_start (bind (lift _) _) =>
      apply unmounts_bind_steady; [apply steady_lift|intros ?]
  | |- unmounts_at_start (bind (fetchM _) _) =>
      apply unmounts_bind_steady; [apply steady_fetchM|intros ?]
  | |- unmounts_at_start (bind _ (fun _ => update _)) =>
      apply unmounts_bind_mounted; [|intros ?; apply mounted_update]
  | |- unmounts_at_start (if _ then _ else _) => apply unmounts_if
  | |- unmounts_at_start (updater _ _) =>
      apply unmounts_updater; intros ?; apply mounted_update
  | |- unmounts_at_start (update _) => apply unmounts_mounted, mounted_update
  | |- unmounts_at_start (catch _ _) =>
      apply unmounts_catch; [|intros ?; apply mounted_update]
  | |- unmounts_at_start (finally _ _) =>
      apply unmounts_finally; [|apply mounted_update]
  end.

(** A value that [v > 0] could be asked of has a string form. *)
Lemma gt_zero_converts v b : gt_zero v = Ok b -> to_string v = Ok (string_form v).
Proof.
  unfold gt_zero, to_string.
  destruct v as [| |x|n|s|l|ps]; try reflexivity;
    destruct (converts _); [reflexivity|discriminate|reflexivity|discriminate].
Qed.

Lemma count_array paused dags n : Analytics.count paused dags = Ok n -> isArray dags = true.
Proof. destruct dags; try discriminate; reflexivity. Qed.

(** The branches of Analytics.jsx whose reply needs no conversion, or one
    that has been made before. *)
Lemma Analytics_execute_mounted c :
  ~ replies_by_updater c -> mounted (Analytics.execute c).
Proof.
  destruct c as [[]|]; cbn [replies_by_updater Analytics.execute];
    intros N; try (now destruct N); unfold_detail.
  - (* List *)
    apply mounted_bind; [apply mounted_await|intros result].
    apply mounted_bind; [|intros ?; apply mounted_update].
    apply mounted_if; [|apply mounted_update].
    apply mounted_bind; [apply mounted_lift|intros dags].
    apply mounted_bind; [apply mounted_lift|intros positive].
    apply mounted_if; [|apply mounted_update].
    apply mounted_bind; [apply mounted_update|intros _].
    apply mounted_bind; [apply mounted_update|intros _].
    apply mounted_bind_lift. intros active Ca.
    apply mounted_bind; [apply mounted_lift|intros paused].
    apply count_array in Ca. destruct dags; try discriminate Ca.
    apply mounted_update.
  - (* Search *)
    apply mounted_bind; [|intros ?; apply mounted_update].
    apply mounted_bind; [apply mounted_await|intros result].
    apply mounted_if; [|apply mounted_ret].
    apply mounted_bind; [apply mounted_lift|intros dags].
    apply mounted_bind_lift. intros positive G.
    apply mounted_if; [|apply mounted_update].
    apply mounted_bind; [apply mounted_update|intros _].
    apply mounted_bind; [apply mounted_update|intros _].
    rewrite (gt_zero_converts _ _ G). apply mounted_update.
  - stays.
  - stays.
  - stays.
Qed.

(** Every branch of Analytics.jsx that unmounts the component does so with
    its first setter. *)
Lemma Analytics_execute_unmounts c : unmounts_at_start (Analytics.execute c).
Proof.
  destruct c as [[]|];
    try (apply unmounts_mounted, Analytics_execute_mounted;
         cbn [replies_by_updater]; tauto);
    cbn [Analytics.execute]; unfold_detail; starts.
Qed.

(** How [try { m } catch (err) { a setter } finally { a setter }] ends, by
    how [m] ends. *)
Lemma try_finally_cases {S} (b : backend) (m : M S unit)
      (hd : exn -> S -> S) (fin : S -> S) h s :
  fst (run b h (finally (catch m (fun e => update (hd e))) (update fin) s))
  = match fst (run b h (m s)) with
    | (Done (Ok _), s') => (Done (Ok tt), fin s')
    | (Done (Raise e), s') => (Done (Ok tt), fin (hd e s'))
    | (Unmounted e, s') => (Unmounted e, s')
    end.
Proof.
  unfold finally, catch. rewrite !run_pbind.
  destruct (fst (run b h (m s))) as [[[[]|e]|e] s']; reflexivity.
Qed.

(** A [try] whose body keeps the component mounted lets no exception out
    and ends with the setter of [finally]. *)
Lemma try_finally_ok {S} (b : backend) (m : M S unit)
      (hd : exn -> S -> S) (fin : S -> S) h s :
  mounted m ->
  exists s',
    fst (run b h (finally (catch m (fun e => update (hd e))) (update fin) s))
    = (Ok tt, fin s').
Proof.
  intros Hm. rewrite try_finally_cases. specialize (Hm b h s).
  destruct (fst (run b h (m s))) as [[[[]|e]|e] s']; cbn [fst] in Hm;
    [eauto|eauto|now destruct (Hm e)].
Qed.

(** The same for a body that may unmount the component, with its first
    setter. *)
Lemma try_finally_or_unmounted {S} (b : backend) (m : M S unit)
      (hd : exn -> S -> S) (fin : S -> S) h s :
  unmounts_at_start m ->
  (exists s',
      fst (run b h (finally (catch m (fun e => update (hd e))) (update fin) s))
      = (Ok tt, fin s'))
  \/ (exists e,
         fst (run b h (m s)) = (Unmounted e, s)
         /\ fst (run b h (finally (catch m (fun e => update (hd e)))
                                  (update fin) s))
            = (Unmounted e, s)).
Proof.
  intros Hm. rewrite try_finally_cases. specialize (Hm b h s).
  destruct (fst (run b h (m s))) as [[[[]|e]|e] s']; cbn [fst snd] in Hm;
    [left; eauto|left; eauto|].
  right. exists e. rewrite (Hm e eq_refl). split; reflexivity.
Qed.

Lemma Analytics_turn_unfold i ms l dl dd cp :
  trim i <> "" ->
  Analytics.sendMessage (Detail.State ms i l dl dd cp)
  = finally (catch (Analytics.cascade (trim i))
                   (fun err => Detail.addMessage
                                 (bot ("❌ Error: " ++ message err))))
            (Detail.setLoading false)
            (Detail.State (ms ++ [Message "user" (VStr i)])%list "" true dl VNull cp).
Proof.
  intros N. unfold Analytics.sendMessage. cbn [Detail.input].
  now rewrite (is_empty_false _ N).
Qed.

Lemma Chatbot2AI_body_frame key q :
  preserves frame
    (if is_empty key then Chatbot2AI.degraded q else
     Detail.addMessage (bot "🤖 Interpreting your request...") ;;
     aiCommand <- await (Chatbot2AI.sendToAI key q) ;;
     if Chatbot2AI.no_command aiCommand then
       Detail.addMessage (bot Chatbot2AI.not_interpreted) ;;
       Detail.setLoading false
     else Chatbot2AI.dispatch (Chatbot2AI.command_text aiCommand)).
Proof.
  unfold_detail. keeps frame_refl frame_trans frame_step.
Qed.

(** No setter of the model-driven router computes its value in the
    updater. *)
Lemma Chatbot2AI_body_mounted key q :
  mounted
    (if is_empty key then Chatbot2AI.degraded q else
     Detail.addMessage (bot "🤖 Interpreting your request...") ;;
     aiCommand <- await (Chatbot2AI.sendToAI key q) ;;
     if Chatbot2AI.no_command aiCommand then
       Detail.addMessage (bot Chatbot2AI.not_interpreted) ;;
       Detail.setLoading false
     else Chatbot2AI.dispatch (Chatbot2AI.command_text aiCommand)).
Proof. unfold_detail. stays. Qed.

(** ** What every turn of the chat components keeps *)

(** The [try] of the two components with a detail record keeps what its
    body keeps. *)
Lemma chat_turn_frame (b : backend) (body : M Detail.state unit) h s :
  preserves frame body ->
  frame s (snd (fst (run b h
                       (finally (catch body
                                   (fun err => Detail.addMessage
                                                 (bot ("❌ Error: " ++ message err))))
                                (Detail.setLoading false) s)))).
Proof.
  intros P.
  assert (F : preserves frame
                (finally (catch body
                            (fun err => Detail.addMessage
                                          (bot ("❌ Error: " ++ message err))))
                         (Detail.setLoading false))).
  { unfold Detail.addMessage, Detail.setLoading.
    apply (preserves_finally _ frame_trans);
      [apply (preserves_catch _ frame_trans); [exact P|intros ?]|];
      apply preserves_update; frame_step. }
  apply F.
Qed.

(** It ends without an exception and with the in-progress flag off, or
    with the component unmounted where its body has unmounted it. *)
Lemma chat_turn_end (b : backend) (body : M Detail.state unit) h s :
  unmounts_at_start body ->
  let r := run b h
             (finally (catch body
                         (fun err => Detail.addMessage
                                       (bot ("❌ Error: " ++ message err))))
                      (Detail.setLoading false) s) in
  (fst (fst r) = Ok tt /\ Detail.loading (snd (fst r)) = false)
  \/ (exists e, fst (run b h (body s)) = (Unmounted e, s)
                /\ fst r = (Unmounted e, s)).
Proof.
  intros U r. subst r.
  destruct (try_finally_or_unmounted b body
              (fun e s => Detail.State
                            (Detail.messages s ++ [bot ("❌ Error: " ++ message e)])%list
                            (Detail.input s) (Detail.loading s) (Detail.dagList s)
                            (Detail.dagDetails s) (Detail.currentPage s))
              (fun s => Detail.State (Detail.messages s) (Detail.input s) false
                                     (Detail.dagList s) (Detail.dagDetails s)
                                     (Detail.currentPage s))
              h s U) as [[s' E]|(e & E1 & E2)].
  - left.
    change (finally (catch body
                       (fun err => Detail.addMessage
                                     (bot ("❌ Error: " ++ message err))))
                    (Detail.setLoading false) s)
      with (finally (catch body
                       (fun e => update (fun s => Detail.State
                            (Detail.messages s ++ [bot ("❌ Error: " ++ message e)])%list
                            (Detail.input s) (Detail.loading s) (Detail.dagList s)
                            (Detail.dagDetails s) (Detail.currentPage s))))
                    (update (fun s => Detail.State (Detail.messages s) (Detail.input s) false
                                     (Detail.dagList s) (Detail.dagDetails s)
                                     (Detail.currentPage s))) s).
    rewrite E. split; reflexivity.
  - right. exists e. split; [exact E1|exact E2].
Qed.

Lemma Analytics_turn_frame (b : backend) i ms l dl dd cp :
  trim i <> "" ->
  frame (Detail.State (ms ++ [Message "user" (VStr i)])%list "" true dl VNull cp)
        (snd (fst (run b [] (Analytics.sendMessage (Detail.State ms i l dl dd cp))))).
Proof.
  intros N. rewrite (Analytics_turn_unfold i ms l dl dd cp N).
  apply chat_turn_frame, cascade_frame.
Qed.

Lemma Chatbot2AI_turn_frame (b : backend) key i ms l dl dd cp :
  trim i <> "" ->
  frame (Detail.State (ms ++ [Message "user" (VStr i)])%list "" true dl VNull cp)
        (snd (fst (run b [] (Chatbot2AI.sendMessage key
                               (Detail.State ms i l dl dd cp))))).
Proof.
  intros N. rewrite (Chatbot2AI_turn_unfold key i ms l dl dd cp N).
  apply chat_turn_frame, Chatbot2AI_body_frame.
Qed.

Lemma Analytics_turn (b : backend) i ms l dl dd cp :
  trim i <> "" ->
  let s1 := Detail.State (ms ++ [Message "user" (VStr i)])%list "" true dl VNull cp in
  let r := run b [] (Analytics.sendMessage (Detail.State ms i l dl dd cp)) in
  (fst (fst r) = Ok tt
   /\ Detail.loading (snd (fst r)) = false
   /\ Detail.input (snd (fst r)) = "")
  \/ (exists e, fst r = (Unmounted e, s1)
                /\ replies_by_updater (Analytics.matcher (trim i))).
Proof.
  intros N s1 r.
  pose proof (Analytics_turn_frame b i ms l dl dd cp N) as (_ & I & _).
  subst r. rewrite (Analytics_turn_unfold i ms l dl dd cp N) in *.
  fold s1 in I |- *. rewrite cascade_execute in *.
  destruct (chat_turn_end b (Analytics.execute (Analytics.matcher (trim i))) [] s1
              (Analytics_execute_unmounts _))
    as [[E L]|(e & E1 & E2)].
  - left. split; [exact E|]. split; [exact L|exact I].
  - right. exists e. split; [exact E2|].
    destruct (Analytics.matcher (trim i)) as [[]|];
      cbn [replies_by_updater]; try exact Logic.I;
      exfalso;
      match type of E1 with
      | fst (run _ _ (Analytics.execute ?c _)) = _ =>
          apply (Analytics_execute_mounted c
                   ltac:(cbn [replies_by_updater]; tauto) b [] s1 e)
      end;
      now rewrite E1.
Qed.

Lemma Chatbot2AI_turn (b : backend) key i ms l dl dd cp :
  trim i <> "" ->
  let r := run b [] (Chatbot2AI.sendMessage key (Detail.State ms i l dl dd cp)) in
  fst (fst r) = Ok tt
  /\ Detail.loading (snd (fst r)) = false
  /\ Detail.input (snd (fst r)) = "".
Proof.
  intros N r.
  pose proof (Chatbot2AI_turn_frame b key i ms l dl dd cp N) as (_ & I & _).
  subst r. rewrite (Chatbot2AI_turn_unfold key i ms l dl dd cp N) in *.
  match goal with
  | |- context [finally (catch ?m _) _ ?s] =>
      destruct (chat_turn_end b m [] s
                  (unmounts_mounted _ (Chatbot2AI_body_mounted key (trim i))))
        as [[E L]|(e & E1 & _)]
  end.
  - split; [exact E|]. split; [exact L|exact I].
  - exfalso. refine (Chatbot2AI_body_mounted key (trim i) b [] _ e _).
    now rewrite E1.
Qed.

Ltac frame2_step :=
  intros ?; split; [|split];
  [ first [ apply extends_refl | eexists; reflexivity ]
  | reflexivity
  | first [ apply page_follows_refl | right; reflexivity ] ].

Lemma Chatbot2_execute_frame key c : preserves frame2 (Chatbot2.execute key c).
Proof.
  unfold Chatbot2.execute.
  destruct c as [[]|];
    unfold Chatbot2.rerun, Chatbot2.list_dags, Chatbot2.forward,
      Chatbot2.addMessage, Chatbot2.setLoading, Chatbot2.setDagList,
      Chatbot2.setCurrentPage; cbv zeta;
    keeps frame2_refl frame2_trans frame2_step.
Qed.

Lemma gt_zero_length es :
  es <> [] -> gt_zero (read (VArr es) "length") = Ok true.
Proof. intros N. destruct es as [|d es]; [contradiction|reflexivity]. Qed.

(** In the first component of Chatbot2.jsx the list branch is outside any
    [try], and nothing in it throws. *)
Lemma Chatbot2_list_dags_ok (b : backend) h s :
  exists s',
    fst (run b h (Chatbot2.list_dags s)) = (Ok tt, s')
    /\ Chatbot2.loading s' = false.
Proof.
  unfold Chatbot2.list_dags, Chatbot2.callMCPServer.
  cbn [bind await pbind run].
  destruct (ok (Chatbot2.settle (b h (PostRun "list all dags")))); cbn [negb].
  - rewrite extractDags_first_sequence.
    destruct (first_sequence_is_array
                (body_of (Chatbot2.settle (b h (PostRun "list all dags")))))
      as [l E].
    rewrite E. cbn [lift pbind bind]. destruct l as [|d l].
    + eexists. split; reflexivity.
    + rewrite gt_zero_length by discriminate. cbn [lift pbind bind].
      rewrite normalizeDagList_summaries. eexists. split; reflexivity.
  - eexists. split; reflexivity.
Qed.

Lemma Chatbot2_rerun_unmounts dagId : unmounts_at_start (Chatbot2.rerun dagId).
Proof.
  unfold Chatbot2.rerun, Chatbot2.addMessage, Chatbot2.setLoading. starts.
Qed.

Lemma Chatbot2_forward_ok (b : backend) key q h s :
  exists s',
    fst (run b h (Chatbot2.forward key q s)) = (Ok tt, s')
    /\ Chatbot2.loading s' = false.
Proof.
  unfold Chatbot2.forward.
  match goal with
  | |- context [finally (catch ?m _) _] =>
      destruct (try_finally_ok b m
        (fun e s => Chatbot2.State
           (Chatbot2.messages s ++
            [bot ("Error processing request: " ++ message_or_string e)])%list
           (Chatbot2.input s) (Chatbot2.loading s) (Chatbot2.dagList s)
           (Chatbot2.currentPage s))
        (fun s => Chatbot2.State (Chatbot2.messages s) (Chatbot2.input s) false
                                 (Chatbot2.dagList s) (Chatbot2.currentPage s))
        h s) as [s' E]
  end.
  { unfold Chatbot2.addMessage. stays. }
  eexists. split; [exact E|reflexivity].
Qed.

Lemma Chatbot2_rerun_end (b : backend) dagId h s :
  (exists s',
      fst (run b h (Chatbot2.rerun dagId s)) = (Ok tt, s')
      /\ Chatbot2.loading s' = false)
  \/ (exists e, fst (run b h (Chatbot2.rerun dagId s)) = (Unmounted e, s)).
Proof.
  unfold Chatbot2.rerun.
  match goal with
  | |- context [finally (catch ?m _) _] =>
      destruct (try_finally_or_unmounted b m
        (fun e s => Chatbot2.State
           (Chatbot2.messages s ++
            [bot ("Error: Could not reach MCP server. Is it running on port 8800? ("
                    ++ message_or_string e ++ ")")])%list
           (Chatbot2.input s) (Chatbot2.loading s) (Chatbot2.dagList s)
           (Chatbot2.currentPage s))
        (fun s => Chatbot2.State (Chatbot2.messages s) (Chatbot2.input s) false
                                 (Chatbot2.dagList s) (Chatbot2.currentPage s))
        h s) as [[s' E]|(e & _ & E)]
  end.
  { unfold Chatbot2.addMessage. starts. }
  - left. eexists. split; [exact E|reflexivity].
  - right. exists e. exact E.
Qed.

Lemma Chatbot2_matcher_branch q :
  match Chatbot2.matcher q with
  | Some (Trigger _) | Some List | Some (Freeform _) => True
  | _ => False
  end.
Proof.
  unfold Chatbot2.matcher.
  destruct (match1 Chatbot2.re_rerun (toLowerCase q)); [exact I|].
  destruct (test Chatbot2.re_list q || test Chatbot2.re_show q); exact I.
Qed.

Lemma Chatbot2_turn_frame (b : backend) key i ms l dl cp :
  trim i <> "" ->
  frame2 (Chatbot2.State (ms ++ [Message "user" (VStr i)])%list "" true dl cp)
         (snd (fst (run b [] (Chatbot2.sendMessage key
                                (Chatbot2.State ms i l dl cp))))).
Proof.
  intros N.
  rewrite (Chatbot2_sendMessage_execute key ms i l dl cp (is_empty_false _ N)).
  apply (Chatbot2_execute_frame key (Chatbot2.matcher (trim i)) b []).
Qed.

Lemma Chatbot2_turn (b : backend) key i ms l dl cp :
  trim i <> "" ->
  let s1 := Chatbot2.State (ms ++ [Message "user" (VStr i)])%list "" true dl cp in
  let r := run b [] (Chatbot2.sendMessage key (Chatbot2.State ms i l dl cp)) in
  (fst (fst r) = Ok tt
   /\ Chatbot2.loading (snd (fst r)) = false
   /\ Chatbot2.input (snd (fst r)) = "")
  \/ (exists e id, fst r = (Unmounted e, s1)
                   /\ Chatbot2.matcher (trim i) = Some (Trigger id)).
Proof.
  intros N s1 r.
  pose proof (Chatbot2_turn_frame b key i ms l dl cp N) as (_ & I & _).
  subst r.
  rewrite (Chatbot2_sendMessage_execute key ms i l dl cp (is_empty_false _ N)) in *.
  change (( Chatbot2.addMessage (Message "user" (VStr i)) ;;
            Chatbot2.setInput "" ;;
            Chatbot2.setLoading true ;;
            Chatbot2.execute key (Chatbot2.matcher (trim i)) )
            (Chatbot2.State ms i l dl cp))
    with (Chatbot2.execute key (Chatbot2.matcher (trim i)) s1) in *.
  pose proof (Chatbot2_matcher_branch (trim i)) as B.
  destruct (Chatbot2.matcher (trim i)) as [[| | | | | |id|q]|];
    try contradiction; cbn [Chatbot2.execute] in *.
  - destruct (Chatbot2_list_dags_ok b [] s1) as (s' & E & L).
    rewrite E in *. left. split; [reflexivity|]. split; [exact L|exact I].
  - destruct (Chatbot2_rerun_end b id [] s1) as [(s' & E & L)|(e & E)];
      rewrite E in *.
    + left. split; [reflexivity|]. split; [exact L|exact I].
    + right. now exists e, id.
  - destruct (Chatbot2_forward_ok b key q [] s1) as (s' & E & L).
    rewrite E in *. left. split; [reflexivity|]. split; [exact L|exact I].
Qed.

(** A latest run whose state is a number: the updater of lines 662-669
    throws, and the turn ends with the component unmounted, the message of
    the user the last one and the in-progress flag on. *)
Lemma latest_run_updater_unmounts :
  Analytics.matcher (trim "latest run, for etl") = Some (LatestRun "etl")
  /\ run (always (VObj [("state", VNum 5)])) []
         (Analytics.sendMessage
            (Detail.State [] "latest run, for etl" false (VArr []) VNull 1))
     = ((Unmounted (not_a_function "run.state?.toUpperCase"),
         Detail.State [Message "user" (VStr "latest run, for etl")]
                      "" true (VArr []) VNull 1),
        [Call (PostRun "get latest run etl")]).
Proof. split; reflexivity. Qed.

(** X1: a turn that is not blank lets no exception out: it ends with the
    in-progress flag off and the input empty, unless a state updater
    throws while it computes the text of a reply.  Then the component is
    unmounted, with the message of the user as the last one and the
    in-progress flag on; this happens only in the rerun of the first
    component of Chatbot2.jsx and in the pause, unpause, trigger and
    latest-run branches of Analytics.jsx, and never in the second
    component of Chatbot2.jsx. *)
Theorem turn_ends_cleanly :
  forall (b : backend) (key i : string) (ms : list chat_message) (l : bool)
         (dl dd : value) (cp : nat),
    trim i <> "" ->
    let user := Message "user" (VStr i) in
    let r2 := run b [] (Chatbot2.sendMessage key (Chatbot2.State ms i l dl cp)) in
    let ra := run b [] (Chatbot2AI.sendMessage key (Detail.State ms i l dl dd cp)) in
    let rc := run b [] (Analytics.sendMessage (Detail.State ms i l dl dd cp)) in
    ((fst (fst r2) = Ok tt
      /\ Chatbot2.loading (snd (fst r2)) = false
      /\ Chatbot2.input (snd (fst r2)) = "")
     \/ (exists e id,
            fst r2 = (Unmounted e,
                      Chatbot2.State (ms ++ [user])%list "" true dl cp)
            /\ Chatbot2.matcher (trim i) = Some (Trigger id)))
    /\ (fst (fst ra) = Ok tt
        /\ Detail.loading (snd (fst ra)) = false
        /\ Detail.input (snd (fst ra)) = "")
    /\ ((fst (fst rc) = Ok tt
         /\ Detail.loading (snd (fst rc)) = false
         /\ Detail.input (snd (fst rc)) = "")
        \/ (exists e,
               fst rc = (Unmounted e,
                         Detail.State (ms ++ [user])%list "" true dl VNull cp)
               /\ replies_by_updater (Analytics.matcher (trim i)))).
Proof.
  intros b key i ms l dl dd cp N. cbv zeta.
  split; [exact (Chatbot2_turn b key i ms l dl cp N)|].
  split; [exact (Chatbot2AI_turn b key i ms l dl dd cp N)|].
  exact (Analytics_turn b i ms l dl dd cp N).
Qed.

Lemma turn_ends_cleanly_witness :
  trim "pause etl" <> ""
  /\ fst (fst (run html_backend []
                   (Chatbot2AI.sendMessage ""
                      (Detail.State [] "pause etl" false (VArr []) VNull 1))))
     = Ok tt
  /\ Detail.loading
       (snd (fst (run html_backend []
                      (Chatbot2AI.sendMessage ""
                         (Detail.State [] "pause etl" false (VArr []) VNull 1)))))
     = false.
Proof.
  split; [discriminate|].
  destruct (turn_ends_cleanly html_backend "" "pause etl" [] false (VArr []) VNull 1)
    as (_ & (A1 & A2 & _) & _); [discriminate|].
  split; [exact A1|exact A2].
Defined.

(** X2: a turn that is not blank keeps every earlier message, puts the
    message of the user right after them, and only adds messages after it,
    in each of the three chat components. *)
Theorem turn_appends_messages :
  forall (b : backend) (key i : string) (ms : list chat_message) (l : bool)
         (dl dd : value) (cp : nat),
    trim i <> "" ->
    (exists more,
        Chatbot2.messages
          (snd (fst (run b [] (Chatbot2.sendMessage key
                                 (Chatbot2.State ms i l dl cp)))))
        = (ms ++ Message "user" (VStr i) :: more)%list)
    /\ (exists more,
           Detail.messages
             (snd (fst (run b [] (Chatbot2AI.sendMessage key
                                    (Detail.State ms i l dl dd cp)))))
           = (ms ++ Message "user" (VStr i) :: more)%list)
    /\ (exists more,
           Detail.messages
             (snd (fst (run b [] (Analytics.sendMessage
                                    (Detail.State ms i l dl dd cp)))))
           = (ms ++ Message "user" (VStr i) :: more)%list).
Proof.
  intros b key i ms l dl dd cp N.
  destruct (Chatbot2_turn_frame b key i ms l dl cp N) as ([more1 A] & _).
  destruct (Chatbot2AI_turn_frame b key i ms l dl dd cp N) as ([more2 B] & _).
  destruct (Analytics_turn_frame b i ms l dl dd cp N) as ([more3 C] & _).
  cbn [Chatbot2.messages Detail.messages] in A, B, C.
  split; [|split].
  - exists more1. rewrite A. now rewrite <- app_assoc.
  - exists more2. rewrite B. now rewrite <- app_assoc.
  - exists more3. rewrite C. now rewrite <- app_assoc.
Qed.

Lemma turn_appends_messages_witness :
  trim "pause etl" <> ""
  /\ exists more,
       Detail.messages
         (snd (fst (run unreachable []
                        (Analytics.sendMessage
                           (Detail.State [bot "hello"] "pause etl" false
                                         (VArr []) VNull 1)))))
       = ([bot "hello"] ++ Message "user" (VStr "pause etl") :: more)%list.
Proof.
  split; [discriminate|].
  destruct (turn_appends_messages unreachable "" "pause etl" [bot "hello"] false
              (VArr []) VNull 1) as (_ & _ & C); [discriminate|].
  exact C.
Defined.

(** X3: after a turn, either the list of workflows and the page are what
    they were, or the page is the first: no turn puts a new list under an
    old page, in any of the three chat components. *)
Theorem new_list_resets_page :
  forall (b : backend) (key i : string) (ms : list chat_message) (l : bool)
         (dl dd : value) (cp : nat),
    let s2 := snd (fst (run b [] (Chatbot2.sendMessage key
                                    (Chatbot2.State ms i l dl cp)))) in
    let sa := snd (fst (run b [] (Chatbot2AI.sendMessage key
                                    (Detail.State ms i l dl dd cp)))) in
    let sc := snd (fst (run b [] (Analytics.sendMessage
                                    (Detail.State ms i l dl dd cp)))) in
    page_follows_list dl (Chatbot2.dagList s2) cp (Chatbot2.currentPage s2)
    /\ page_follows_list dl (Detail.dagList sa) cp (Detail.currentPage sa)
    /\ page_follows_list dl (Detail.dagList sc) cp (Detail.currentPage sc).
Proof.
  intros b key i ms l dl dd cp. cbv zeta.
  destruct (is_empty (trim i)) eqn:E.
  - unfold Chatbot2.sendMessage, Chatbot2AI.sendMessage, Analytics.sendMessage.
    cbn [Chatbot2.input Detail.input]. rewrite E.
    repeat split; apply page_follows_refl.
  - assert (N : trim i <> "") by (intros H; rewrite H in E; discriminate E).
    destruct (Chatbot2_turn_frame b key i ms l dl cp N) as (_ & _ & A).
    destruct (Chatbot2AI_turn_frame b key i ms l dl dd cp N) as (_ & _ & B).
    destruct (Analytics_turn_frame b i ms l dl dd cp N) as (_ & _ & C).
    repeat split; assumption.
Qed.

(** ** The calls of a turn *)

Ltac quiet :=
  repeat lazymatch goal with
  | |- silent (bind _ _) => apply silent_bind; [|intros ?]
  | |- silent (if _ then _ else _) => apply silent_if
  | |- silent (ret _) => apply silent_ret
  | |- silent (lift _) => apply silent_lift
  | |- silent (update _) => apply silent_update
  | |- silent (updater _ _) => apply silent_updater; intros ?
  | |- silent (catch _ _) => apply silent_catch; [|intros ?]
  | |- silent (match ?x with _ => _ end) => destruct x
  end.

(** One call, and then none. *)
Lemma one_call {S A B} (b : backend) (r : request) (g : response -> A)
      (k : A -> M S B) h s :
  (forall a, silent (k a)) ->
  snd (run b h (bind (await (Fetch r (fun res => Ret (g res)))) k s))
  = (h ++ [Call r])%list.
Proof. intros Hk. unfold bind, await. cbn [pbind run]. apply Hk. Qed.

(** The two calls of [Promise.all], and then none. *)
Lemma two_calls {S A1 A2 B} (b : backend) (r1 r2 : request)
      (g1 : response -> A1) (g2 : response -> A2) (k : A1 * A2 -> M S B) h s :
  (forall a, silent (k a)) ->
  snd (run b h (bind (await (all2 (Fetch r1 (fun res => Ret (g1 res)))
                                  (Fetch r2 (fun res => Ret (g2 res))))) k s))
  = (h ++ [CallBoth r1 r2])%list.
Proof. intros Hk. unfold bind, await, all2. cbn [pbind run]. apply Hk. Qed.

Lemma execute_events (b : backend) c h s :
  snd (run b h (Analytics.execute c s)) = (h ++ events_of c)%list.
Proof.
  destruct c as [[]|]; cbn [Analytics.execute events_of];
    unfold_detail; unfold Detail.callMCPServer;
    try (apply one_call; intros ?; quiet).
  - rewrite run_bind.
    rewrite (one_call b (PostRun ("search dags " ++ term)) Detail.settle);
      [|intros ?; quiet].
    match goal with
    | |- context [match ?x with _ => _ end] => destruct x as [[[[]|e]|e] s']
    end; reflexivity.
  - apply two_calls. intros ?. quiet.
  - now rewrite app_nil_r.
Qed.

(** X4: in Analytics.jsx the calls of a turn depend on the utterance alone,
    not on what the backend answers: one request whose text is built from
    the command, the two requests of [Details] together, or none when the
    search branch finds no term. *)
Theorem calls_follow_the_utterance :
  forall (b : backend) (i : string) (ms : list chat_message) (l : bool)
         (dl dd : value) (cp : nat),
    trim i <> "" ->
    snd (run b [] (Analytics.sendMessage (Detail.State ms i l dl dd cp)))
    = events_of (Analytics.matcher (trim i)).
Proof.
  intros b i ms l dl dd cp N.
  rewrite (Analytics_turn_unfold i ms l dl dd cp N).
  rewrite trace_try; [| intros e; apply silent_update | apply silent_update].
  rewrite cascade_execute. apply execute_events.
Qed.

Lemma calls_follow_the_utterance_witness :
  trim ("pause" ++ nbsp ++ "billing_pipeline") <> ""
  /\ snd (run html_backend []
              (Analytics.sendMessage
                 (Detail.State [] ("pause" ++ nbsp ++ "billing_pipeline") false
                               (VArr []) VNull 1)))
     = [Call (PostRun "pause dag billing_pipeline")].
Proof.
  split; [discriminate|].
  apply (calls_follow_the_utterance html_backend
           ("pause" ++ nbsp ++ "billing_pipeline") [] false (VArr []) VNull 1).
  discriminate.
Defined.

(** ** The text shown for a reply of the backend *)

Lemma get_not_nullish v k : is_nullish v = false -> get v k = Ok (read v k).
Proof. intros N. unfold get. now rewrite N. Qed.

Lemma to_string_cases v :
  (converts v = true /\ to_string v = Ok (string_form v))
  \/ (converts v = false /\ to_string v = Raise not_primitive).
Proof. unfold to_string. destruct (converts v); [left|right]; now split. Qed.

(** On a body that is neither [null] nor [undefined] the common part of
    [parseMCPResponse] returns nothing that is falsy, and throws only the
    [TypeError] of a conversion, that of the error or of the state of the
    output. *)
Lemma parseCommon_cases body :
  is_nullish body = false ->
  match Detail.parseCommon body with
  | Ok o => forall v, o = Some v -> truthy v = true
  | Raise e => e = not_primitive /\ has_no_text body
  end.
Proof.
  intros N. unfold Detail.parseCommon, has_no_text, shown_state.
  rewrite !(get_not_nullish body) by exact N. cbn [rbind].
  assert (C1 : match (if truthy (read body "success")
                      then Ok (read body "message")
                      else Ok (read body "success")) with
               | Ok c1 => truthy c1 = truthy (read body "success")
                                      && truthy (read body "message")
               | Raise _ => False
               end).
  { destruct (truthy (read body "success")) eqn:S; [reflexivity|now rewrite S]. }
  destruct (if truthy (read body "success") then _ else _) as [c1|e];
    [|contradiction].
  cbn [rbind]. destruct (truthy c1) eqn:T1.
  { symmetry in C1. apply andb_true_iff in C1 as [_ Mg].
    intros v [= <-]. exact Mg. }
  clear C1 T1 c1.
  destruct (truthy (read body "error")) eqn:Er.
  { destruct (to_string_cases (read body "error")) as [[_ ->]|[C ->]];
      cbn [rbind]; [intros v [= <-]; reflexivity|].
    split; [reflexivity|now left]. }
  destruct (truthy (read body "output")) eqn:O; [|discriminate].
  destruct (is_string (read body "output")); [intros v [= <-]; exact O|].
  rewrite !(get_truthy _ _ O). cbn [rbind].
  destruct (truthy (read (read body "output") "message")) eqn:Om;
    [intros v [= <-]; exact Om|].
  unfold or_else.
  destruct (truthy (read (read body "output") "state")) eqn:St; cbn [rbind].
  - rewrite St.
    destruct (to_string_cases (read (read body "output") "state"))
      as [[_ ->]|[C ->]]; cbn [rbind]; [intros v [= <-]; reflexivity|].
    split; [reflexivity|now right].
  - destruct (truthy (read (read body "output") "status")) eqn:Su;
      [|discriminate].
    destruct (to_string_cases (read (read body "output") "status"))
      as [[_ ->]|[C ->]]; cbn [rbind]; [intros v [= <-]; reflexivity|].
    split; [reflexivity|now right].
Qed.

Lemma JSON_stringify2_truthy v : v <> VUndef -> truthy (JSON_stringify2 v) = true.
Proof.
  intros N. unfold JSON_stringify2.
  destruct (serialize_nonempty "  " "" v N) as (t & -> & E).
  simpl. now rewrite E.
Qed.

Lemma truthy_not_undef v : truthy v = true -> v <> VUndef.
Proof. intros T ->. discriminate T. Qed.

Lemma Chatbot2AI_parse_cases body :
  match Chatbot2AI.parseMCPResponse body with
  | Ok v => truthy v = true
  | Raise e => e = not_primitive /\ has_no_text body
  end.
Proof.
  unfold Chatbot2AI.parseMCPResponse.
  destruct (truthy body) eqn:T; cbn [negb]; [|reflexivity].
  pose proof (parseCommon_cases body (truthy_not_nullish _ T)) as P.
  destruct (Detail.parseCommon body) as [o|e]; cbn [rbind]; [|exact P].
  destruct o as [v|]; [now apply P|].
  rewrite !(get_truthy body) by exact T. cbn [rbind].
  destruct (truthy (read body "message")) eqn:Mg; [exact Mg|].
  destruct (truthy (read body "data")) eqn:D.
  - apply JSON_stringify2_truthy, truthy_not_undef, D.
  - apply JSON_stringify2_truthy, truthy_not_undef, T.
Qed.

(** A body whose error is an object with a [toString] of its own: the
    template of line 561 throws, and the turn shows the [TypeError]. *)
Lemma parseMCPResponse_throws_on_error_object :
  Chatbot2AI.parseMCPResponse (VObj [("error", VObj [("toString", VNum 1)])])
    = Raise not_primitive
  /\ Analytics.parseMCPResponse (VObj [("error", VObj [("toString", VNum 1)])])
     = Raise not_primitive.
Proof. split; reflexivity. Qed.

(** X5: [parseMCPResponse] of the model-driven router returns a value that
    is not falsy, so that the chat never shows an empty reply and the text
    kept in reserve for one is never used, unless it throws; and it throws
    nothing but the [TypeError] of a conversion to a string, that of the
    error of the body or of the state or status of its output, when this
    is an object with a [toString] of its own or a sequence that holds
    one. *)
Theorem parseMCPResponse_never_blank :
  forall body : value,
    match Chatbot2AI.parseMCPResponse body with
    | Ok v =>
        truthy v = true
        /\ or_else v (VStr "Request completed but no response data.") = v
    | Raise e => e = not_primitive /\ has_no_text body
    end.
Proof.
  intros body. pose proof (Chatbot2AI_parse_cases body) as P.
  destruct (Chatbot2AI.parseMCPResponse body) as [v|e]; [|exact P].
  split; [exact P|]. unfold or_else. now rewrite P.
Qed.

(** X6: [parseMCPResponse] of Analytics.jsx throws a [TypeError] on a body
    that is [null]; on every other body of a response it returns a value
    that is not falsy, or throws the [TypeError] of a conversion to a
    string, that of the error of the body or of the state or status of its
    output. *)
Theorem Analytics_parseMCPResponse_null_or_text :
  forall body : value,
    (is_nullish body = true ->
     Analytics.parseMCPResponse body = Raise (read_error body "success"))
    /\ (is_nullish body = false ->
        match Analytics.parseMCPResponse body with
        | Ok v => truthy v = true
        | Raise e => e = not_primitive /\ has_no_text body
        end).
Proof.
  intros body. split; intros N.
  - unfold Analytics.parseMCPResponse, Detail.parseCommon, get. now rewrite N.
  - unfold Analytics.parseMCPResponse.
    pose proof (parseCommon_cases body N) as P.
    destruct (Detail.parseCommon body) as [o|e]; cbn [rbind]; [|exact P].
    destruct o as [v|]; [now apply P|].
    apply JSON_stringify2_truthy. intros ->. discriminate N.
Qed.

Lemma Analytics_parseMCPResponse_null_or_text_witness :
  is_nullish VNull = true
  /\ Analytics.parseMCPResponse VNull
     = Raise (Error "TypeError" "Cannot read properties of null (reading 'success')")
  /\ is_nullish (VStr "") = false
  /\ match Analytics.parseMCPResponse (VStr "") with
     | Ok v => truthy v = true
     | Raise e => e = not_primitive /\ has_no_text (VStr "")
     end.
Proof.
  split; [reflexivity|].
  split; [exact (proj1 (Analytics_parseMCPResponse_null_or_text VNull) eq_refl)|].
  split; [reflexivity|].
  exact (proj2 (Analytics_parseMCPResponse_null_or_text (VStr "")) eq_refl).
Defined.

(** ** The model of the first component *)

Lemma callGroqModel_run (b : backend) key q data h :
  truthy (fst (run b h (Chatbot2.callGroqModel key q data))) = true
  /\ snd (run b h (Chatbot2.callGroqModel key q data))
     = (h ++ (if is_empty key then [] else [Call (groq_request key q data)]))%list
  /\ (is_empty key = true ->
      fst (run b h (Chatbot2.callGroqModel key q data)) = VStr missing_key).
Proof.
  unfold Chatbot2.callGroqModel, groq_request.
  destruct (is_empty key).
  - cbn [run fst snd]. rewrite app_nil_r. repeat split.
  - cbn [run].
    match goal with |- context [b h ?r] => destruct (b h r) as [e|st [v|e]] end.
    1, 3: now cbn [run fst snd].
    unfold Chatbot2.completion, get.
    destruct (is_nullish v); cbn [rbind run fst snd].
    1: now repeat split.
    split; [now apply or_else_truthy|]. now split.
Qed.

(** X7: [callGroqModel] never throws and never returns a falsy value:
    without a key it makes no request and returns the notice of the missing
    key; with a key it makes one request, and a failed request, a body that
    is not JSON or a completion without content each become a text. *)
Theorem callGroqModel_always_answers :
  forall (b : backend) (key q : string) (data : value) (h : list event),
    let r := run b h (Chatbot2.callGroqModel key q data) in
    truthy (fst r) = true
    /\ (key = "" -> fst r = VStr missing_key /\ snd r = h)
    /\ (key <> "" -> snd r = (h ++ [Call (groq_request key q data)])%list).
Proof.
  intros b key q data h r. subst r.
  destruct (callGroqModel_run b key q data h) as (T & C & K).
  split; [exact T|]. split.
  - intros ->. split; [now apply K|]. rewrite C. apply app_nil_r.
  - intros N. now rewrite C, (is_empty_false _ N).
Qed.

Lemma callGroqModel_always_answers_witness :
  fst (run unreachable [] (Chatbot2.callGroqModel "" "hello" VNull))
    = VStr missing_key
  /\ snd (run unreachable [] (Chatbot2.callGroqModel "" "hello" VNull)) = []
  /\ "key" <> ""
  /\ snd (run unreachable [] (Chatbot2.callGroqModel "key" "hello" VNull))
     = [Call (groq_request "key" "hello" VNull)].
Proof.
  destruct (callGroqModel_always_answers unreachable "" "hello" VNull [])
    as (_ & A & _).
  destruct (callGroqModel_always_answers unreachable "key" "hello" VNull [])
    as (_ & _ & B).
  destruct (A eq_refl) as [A1 A2].
  split; [exact A1|]. split; [exact A2|]. split; [discriminate|].
  apply B. discriminate.
Defined.

(** X8: a free-form turn of the first component of Chatbot2.jsx forwards
    the trimmed utterance to the backend and then calls [callGroqModel]
    with it and with whatever body came back, [null] when the backend
    could not be reached; it ends with exactly one reply, which is what
    [callGroqModel] returned, never falsy and so never the text kept for
    an empty answer. *)
Theorem free_form_turn_asks_backend_then_model :
  forall (b : backend) (key i : string) (ms : list chat_message) (l : bool)
         (dl : value) (cp : nat),
    Chatbot2.matcher (trim i) = Some (Freeform (trim i)) ->
    trim i <> "" ->
    let data := body_of (Chatbot2.settle (b [] (PostRun (trim i)))) in
    let reply := fst (run b [Call (PostRun (trim i))]
                          (Chatbot2.callGroqModel key (trim i) data)) in
    truthy reply = true
    /\ run b [] (Chatbot2.sendMessage key (Chatbot2.State ms i l dl cp))
       = ((Ok tt,
           Chatbot2.State (ms ++ [Message "user" (VStr i); Message "bot" reply])%list
                          "" false dl cp),
          (Call (PostRun (trim i))
           :: (if is_empty key then []
               else [Call (groq_request key (trim i) data)]))%list).
Proof.
  intros b key i ms l dl cp H N data reply.
  rewrite (Chatbot2_sendMessage_execute key ms i l dl cp (is_empty_false _ N)), H.
  cbn [Chatbot2.execute].
  unfold Chatbot2.forward, Chatbot2.callMCPServer, finally, catch.
  cbn [bind await pbind run app Chatbot2.addMessage Chatbot2.setInput
       Chatbot2.setLoading update fst snd].
  fold data.
  destruct (callGroqModel_run b key (trim i) data [Call (PostRun (trim i))])
    as (T & C & _).
  fold reply in T.
  split; [exact T|].
  cbn [Chatbot2.messages Chatbot2.input Chatbot2.loading Chatbot2.dagList
       Chatbot2.currentPage].
  rewrite !run_pbind, !run_bind, !fst_run_await, !snd_run_await, C.
  fold reply.
  unfold or_else. rewrite T.
  cbn [Chatbot2.addMessage update run fst snd Chatbot2.messages Chatbot2.input
       Chatbot2.loading Chatbot2.dagList Chatbot2.currentPage app].
  now rewrite <- app_assoc.
Qed.

Lemma free_form_turn_asks_backend_then_model_witness :
  Chatbot2.matcher (trim "hello") = Some (Freeform (trim "hello"))
  /\ trim "hello" <> ""
  /\ run unreachable []
         (Chatbot2.sendMessage "key" (Chatbot2.State [] "hello" false (VArr []) 1))
     = ((Ok tt,
         Chatbot2.State [Message "user" (VStr "hello");
                         bot "Groq Error: Failed to fetch"]
                        "" false (VArr []) 1),
        [Call (PostRun "hello"); Call (groq_request "key" "hello" VNull)]).
Proof.
  split; [reflexivity|]. split; [discriminate|].
  destruct (free_form_turn_asks_backend_then_model unreachable "key" "hello" []
              false (VArr []) 1 eq_refl) as (_ & R); [discriminate|].
  exact R.
Defined.

(** ** The model-driven router without a key *)

(** Without a key and with a body whose [output.dags] has a [length]
    without a string form, the reply is shown, the comparison of line 688
    throws, and the [catch] adds a fourth message. *)
Lemma turn_without_key_may_add_an_error :
  run (always payload_odd_length) []
      (Chatbot2AI.sendMessage ""
         (Detail.State [] "list dags" false (VArr []) VNull 1))
  = ((Ok tt,
      Detail.State
        [Message "user" (VStr "list dags");
         bot no_key_notice;
         Message "bot" (JSON_stringify2 payload_odd_length);
         bot (error_message not_primitive)]
        "" false (VArr []) VNull 1),
     [Call (PostRun "list dags")]).
Proof. reflexivity. Qed.

(** X9: without a key, a turn of the second component of Chatbot2.jsx
    never asks the model: it makes exactly one request, the trimmed
    utterance sent as it is to the backend, and ends without an exception.
    It adds the message of the user, the notice of the missing key and one
    reply that is not falsy, and then nothing, or the [TypeError] of the
    comparison [dags.length > 0], with the list and the page as they
    were; the details stay cleared, and the list and the page change only
    together, to page 1. *)
Theorem turn_without_key_forwards_utterance :
  forall (b : backend) (i : string) (ms : list chat_message) (l : bool)
         (dl dd : value) (cp : nat),
    trim i <> "" ->
    exists t more dl' cp',
      run b [] (Chatbot2AI.sendMessage "" (Detail.State ms i l dl dd cp))
      = ((Ok tt,
          Detail.State
            (ms ++ [Message "user" (VStr i);
                    bot no_key_notice;
                    Message "bot" t] ++ more)%list
            "" false dl' VNull cp'),
         [Call (PostRun (trim i))])
      /\ truthy t = true
      /\ page_follows_list dl dl' cp cp'
      /\ (more = []
          \/ (more = [bot (error_message not_primitive)]
              /\ dl' = dl /\ cp' = cp)).
Proof.
  intros b i ms l dl dd cp N.
  rewrite (Chatbot2AI_turn_unfold "" i ms l dl dd cp N).
  change (is_empty "") with true. cbv iota.
  unfold Chatbot2AI.degraded, Detail.callMCPServer, finally, catch.
  unfold Detail.addMessage, Detail.setLoading.
  cbn [bind await pbind run update fst snd app Detail.messages Detail.input
       Detail.loading Detail.dagList Detail.dagDetails Detail.currentPage].
  rewrite <- !app_assoc. cbn [app].
  destruct (b [] (PostRun (trim i))) as [e|st [v|e]]; cbn [Detail.settle].
  2: destruct (status_ok st).
  2: { cbn [ok body_of].
       pose proof (Chatbot2AI_parse_cases v) as P.
       destruct (Chatbot2AI.parseMCPResponse v) as [t|e].
       2: { destruct P as [-> _].
            cbn [lift bind pbind run update fst snd app Detail.messages
                 Detail.input Detail.loading Detail.dagList Detail.dagDetails
                 Detail.currentPage].
            rewrite <- ?app_assoc. cbn [app].
            eexists _, [], dl, cp. split; [reflexivity|].
            split; [reflexivity|]. split; [now left|now left]. }
       destruct (Detail_extractDags_total v) as (d & D).
       rewrite D.
       unfold Chatbot2AI.showDags, Detail.setDagList, Detail.setCurrentPage.
       cbn [lift bind pbind run update fst snd app Detail.messages
            Detail.input Detail.loading Detail.dagList Detail.dagDetails
            Detail.currentPage].
       unfold gt_zero.
       destruct (read d "length") as [| |x|n|s|ls|ps] eqn:R;
         try destruct (to_string_cases (read d "length")) as [[_ G]|[_ G]];
         rewrite ?R in G; rewrite ?G;
         cbn [rbind lift bind ret pbind run update fst snd app Detail.messages
              Detail.input Detail.loading Detail.dagList Detail.dagDetails
              Detail.currentPage];
         rewrite <- ?app_assoc; cbn [app];
         try match goal with
             | |- context [if ?c then _ else _] => destruct c
             end;
         cbn [rbind lift bind ret pbind run update fst snd app Detail.messages
              Detail.input Detail.loading Detail.dagList Detail.dagDetails
              Detail.currentPage];
         rewrite <- ?app_assoc; cbn [app];
         first
           [ exists t, [], d, 1;
             split; [reflexivity|]; split; [exact P|]; split; [now right|now left]
           | exists t, [], dl, cp;
             split; [reflexivity|]; split; [exact P|]; split; [now left|now left]
           | exists t, [bot (error_message not_primitive)], dl, cp;
             split; [reflexivity|]; split; [exact P|];
             split; [now left|right; repeat split] ]. }
  all: cbn [ok status body_of bind ret pbind run update fst snd app
            Detail.messages Detail.input Detail.loading Detail.dagList
            Detail.dagDetails Detail.currentPage];
    rewrite <- ?app_assoc; cbn [app];
    eexists _, [], dl, cp; (split; [reflexivity|]); (split; [reflexivity|]);
    (split; [now left|now left]).
Qed.

Lemma turn_without_key_forwards_utterance_witness :
  trim " list dags " <> ""
  /\ exists t more dl' cp',
       run unreachable []
           (Chatbot2AI.sendMessage ""
              (Detail.State [] " list dags " false (VArr []) VNull 3))
       = ((Ok tt,
           Detail.State
             ([] ++ [Message "user" (VStr " list dags ");
                     bot no_key_notice;
                     Message "bot" t] ++ more)%list
             "" false dl' VNull cp'),
          [Call (PostRun "list dags")])
       /\ truthy t = true
       /\ page_follows_list (VArr []) dl' 3 cp'
       /\ (more = []
           \/ (more = [bot (error_message not_primitive)]
               /\ dl' = VArr [] /\ cp' = 3)).
Proof.
  split; [discriminate|].
  apply (turn_without_key_forwards_utterance unreachable " list dags " []
           false (VArr []) VNull 3).
  discriminate.
Defined.

(** ** The identifiers that the patterns capture *)

Lemma append_assoc' (a b c : string) : (a ++ b) ++ c = a ++ b ++ c.
Proof. induction a as [|x a IH]; cbn; [reflexivity|now rewrite IH]. Qed.

Lemma length_append' (a b : string) :
  String.length (a ++ b) = String.length a + String.length b.
Proof. induction a as [|x a IH]; cbn; [reflexivity|now rewrite IH]. Qed.

Lemma substring_prefix (t s : string) :
  substring 0 (String.length t) (t ++ s) = t.
Proof. induction t as [|x t IH]; cbn; [now destruct s|now rewrite IH]. Qed.

Lemma consumed_append (t s : string) : consumed (t ++ s) s = t.
Proof.
  unfold consumed. rewrite length_append'.
  replace (String.length t + String.length s - String.length s)
    with (String.length t) by lia.
  apply substring_prefix.
Qed.

Lemma advance_split n : forall b s,
  exists t, s = t ++ snd (advance n b s).
Proof.
  induction n as [|n IH]; intros b s; cbn [advance].
  - now exists "".
  - destruct s as [|c s]; [now exists ""|].
    destruct (IH (Some c) s) as [t E]. exists (String c t). cbn. now rewrite <- E.
Qed.

Section Engine.
Context {A : Type} (w : string -> nat).

Lemma one_inv st (k : mstate -> option A) x :
  one w st k = Some x ->
  exists t s' b', rest st = t ++ s' /\ k (MState b' s' (caps st)) = Some x.
Proof.
  unfold one. destruct (w (rest st)) as [|n]; [discriminate|].
  intros H. destruct (advance_split (S n) (before st) (rest st)) as [t E].
  eauto.
Qed.

Lemma greedy_inv s : forall skip b cs (k : mstate -> option A) x,
  greedy w skip b s cs k = Some x ->
  exists t s' b', s = t ++ s' /\ k (MState b' s' cs) = Some x.
Proof.
  induction s as [|c s IH]; intros skip b cs k x; cbn [greedy].
  - destruct skip; [|discriminate]. intros H. now exists "", "", b.
  - destruct skip as [|n].
    + destruct (w (String c s)) as [|n].
      * intros H. now exists "", (String c s), b.
      * unfold or_try. destruct (greedy w n (Some c) s cs k) as [y|] eqn:G.
        -- intros [= <-]. destruct (IH _ _ _ _ _ G) as (t & s' & b' & -> & K).
           now exists (String c t), s', b'.
        -- intros H. now exists "", (String c s), b.
    + intros H. destruct (IH _ _ _ _ _ H) as (t & s' & b' & -> & K).
      now exists (String c t), s', b'.
Qed.

Lemma lazy_inv s : forall skip b cs (k : mstate -> option A) x,
  lazy w skip b s cs k = Some x ->
  exists t s' b', s = t ++ s' /\ k (MState b' s' cs) = Some x.
Proof.
  induction s as [|c s IH]; intros skip b cs k x; cbn [lazy].
  - destruct skip; [|discriminate]. intros H. now exists "", "", b.
  - destruct skip as [|n].
    + unfold or_try. destruct (k (MState b (String c s) cs)) as [y|] eqn:K.
      * intros [= <-]. now exists "", (String c s), b.
      * destruct (w (String c s)) as [|n]; [discriminate|]. intros H.
        destruct (IH _ _ _ _ _ H) as (t & s' & b' & -> & K').
        now exists (String c t), s', b'.
    + intros H. destruct (IH _ _ _ _ _ H) as (t & s' & b' & -> & K).
      now exists (String c t), s', b'.
Qed.

(** A set of single bytes. *)
Variable p : ascii -> bool.
Hypothesis w_single : forall s, w s = single p s.

Lemma one_char st (k : mstate -> option A) x :
  one w st k = Some x ->
  exists c s', rest st = String c s' /\ p c = true
               /\ k (MState (Some c) s' (caps st)) = Some x.
Proof.
  unfold one. rewrite w_single. unfold single.
  destruct (rest st) as [|c s']; [discriminate|].
  destruct (p c) eqn:E; [|discriminate]. intros H. now exists c, s'.
Qed.

Lemma greedy_chars s : forall b cs (k : mstate -> option A) x,
  greedy w 0 b s cs k = Some x ->
  exists t s' b', s = t ++ s' /\ all_chars p t = true
                  /\ k (MState b' s' cs) = Some x.
Proof.
  induction s as [|c s IH]; intros b cs k x; cbn [greedy].
  - intros H. now exists "", "", b.
  - rewrite w_single. cbn [single]. destruct (p c) eqn:E.
    + unfold or_try. destruct (greedy w 0 (Some c) s cs k) as [y|] eqn:G.
      * intros [= <-]. destruct (IH _ _ _ _ G) as (t & s' & b' & -> & T & K).
        exists (String c t), s', b'. cbn. now rewrite E, T.
      * intros H. now exists "", (String c s), b.
    + intros H. now exists "", (String c s), b.
Qed.

End Engine.

Lemma plus_inv {A} i s st (k : mstate -> option A) x :
  rmatch i (Plus s) st k = Some x ->
  exists t s' b', rest st = t ++ s' /\ k (MState b' s' (caps st)) = Some x.
Proof.
  cbn [rmatch]. intros H.
  destruct (one_inv _ _ _ _ H) as (t1 & s1 & b1 & R & G).
  cbn [before rest caps] in G.
  destruct (greedy_inv _ _ _ _ _ _ _ G) as (t & s' & b' & -> & K).
  exists (t1 ++ t), s', b'. rewrite R. split; [|exact K].
  now rewrite append_assoc'.
Qed.

(** With or without the [i] flag, the class of the identifiers takes one
    byte, one of its own. *)
Lemma width_ident i s : width i ident s = single is_ident s.
Proof.
  destruct s as [|c s]; [reflexivity|].
  destruct i; destruct c as [[] [] [] [] [] [] [] []]; reflexivity.
Qed.

Lemma plus_ident {A} i st (k : mstate -> option A) x :
  rmatch i (Plus ident) st k = Some x ->
  exists t s' b', rest st = t ++ s' /\ t <> ""
                  /\ all_chars is_ident t = true
                  /\ k (MState b' s' (caps st)) = Some x.
Proof.
  cbn [rmatch]. intros H.
  destruct (one_char _ is_ident (width_ident i) _ _ _ H) as (c & s1 & R & E & G).
  cbn [before rest caps] in G.
  destruct (greedy_chars _ is_ident (width_ident i) _ _ _ _ _ G)
    as (t & s' & b' & -> & T & K).
  exists (String c t), s', b'. rewrite R. cbn [append all_chars]. rewrite E, T.
  repeat split; [discriminate|exact K].
Qed.

Lemma inside_step q t s' b b' cs :
  inside q (MState b (t ++ s') cs) -> inside q (MState b' s' cs).
Proof.
  intros [[w ->] F]. split; [|exact F].
  exists (w ++ t). cbn [rest]. now rewrite append_assoc'.
Qed.

Lemma has1_cons n t cs : has1 cs \/ n = 1 -> has1 ((n, t) :: cs).
Proof.
  unfold has1. cbn [capture]. intros [H| ->]; [|discriminate].
  destruct n as [|[|n]]; cbn; [exact H|discriminate|exact H].
Qed.

(** The matcher stays inside the text, every capture it adds is an
    identifier of the text, and a pattern that goes through a group 1 has
    set it. *)
Lemma rmatch_inside {A} q i r :
  captures_ident r ->
  forall st (k : mstate -> option A) x,
    inside q st ->
    rmatch i r st k = Some x ->
    exists st', inside q st'
                /\ (has1 (caps st) \/ sets1 r -> has1 (caps st'))
                /\ k st' = Some x.
Proof.
  induction r as [|s|s|s|s|s| |a IHa b IHb|a IHa b IHb|n r IH];
    intros C st k x I H.
  - exists st. split; [exact I|]. split; [cbn [sets1]; tauto|exact H].
  - cbn [rmatch] in H. destruct (one_inv _ _ _ _ H) as (t & s' & b' & R & K).
    eexists. split; [|split; [|exact K]].
    + destruct st as [b0 r0 c0]. cbn [rest caps] in *. subst r0.
      now apply (inside_step q t s' b0 b' c0).
    + cbn [caps sets1]. tauto.
  - cbn [rmatch] in H.
    destruct (greedy_inv _ _ _ _ _ _ _ H) as (t & s' & b' & R & K).
    eexists. split; [|split; [|exact K]].
    + destruct st as [b0 r0 c0]. cbn [rest caps before] in *. subst r0.
      now apply (inside_step q t s' b0 b' c0).
    + cbn [caps sets1]. tauto.
  - cbn [rmatch] in H.
    destruct (lazy_inv _ _ _ _ _ _ _ H) as (t & s' & b' & R & K).
    eexists. split; [|split; [|exact K]].
    + destruct st as [b0 r0 c0]. cbn [rest caps before] in *. subst r0.
      now apply (inside_step q t s' b0 b' c0).
    + cbn [caps sets1]. tauto.
  - destruct (plus_inv _ _ _ _ _ H) as (t & s' & b' & R & K).
    eexists. split; [|split; [|exact K]].
    + destruct st as [b0 r0 c0]. cbn [rest caps before] in *. subst r0.
      now apply (inside_step q t s' b0 b' c0).
    + cbn [caps sets1]. tauto.
  - cbn [rmatch] in H. unfold or_try in H.
    destruct (one (width i s) st k) as [y|] eqn:O.
    + injection H as <-. destruct (one_inv _ _ _ _ O) as (t & s' & b' & R & K).
      eexists. split; [|split; [|exact K]].
      * destruct st as [b0 r0 c0]. cbn [rest caps] in *. subst r0.
        now apply (inside_step q t s' b0 b' c0).
      * cbn. tauto.
    + exists st. split; [exact I|]. split; [cbn [sets1]; tauto|exact H].
  - cbn [rmatch] in H.
    destruct (xorb _ _); [|discriminate].
    exists st. split; [exact I|]. split; [cbn [sets1]; tauto|exact H].
  - cbn [rmatch captures_ident] in *. destruct C as [Ca Cb].
    destruct (IHa Ca _ _ _ I H) as (st1 & I1 & S1 & H1).
    destruct (IHb Cb _ _ _ I1 H1) as (st2 & I2 & S2 & H2).
    exists st2. split; [exact I2|]. split; [|exact H2].
    cbn [sets1]. tauto.
  - cbn [rmatch captures_ident] in *. destruct C as [Ca Cb].
    unfold or_try in H. destruct (rmatch i a st k) as [y|] eqn:Ea.
    + injection H as <-. destruct (IHa Ca _ _ _ I Ea) as (st1 & I1 & S1 & H1).
      exists st1. cbn [sets1]. split; [exact I1|]. split; [tauto|exact H1].
    + destruct (IHb Cb _ _ _ I H) as (st1 & I1 & S1 & H1).
      exists st1. cbn [sets1]. split; [exact I1|]. split; [tauto|exact H1].
  - cbn [captures_ident] in C. subst r. cbn [rmatch] in H.
    change (rmatch i (Plus ident) st
              (fun st' => k (MState (before st') (rest st')
                               ((n, consumed (rest st) (rest st')) :: caps st')))
            = Some x) in H.
    destruct (plus_ident _ _ _ _ H) as (t & s' & b' & R & Nt & T & K).
    cbn [before rest caps] in K.
    eexists. split; [|split; [|exact K]].
    + destruct st as [b0 r0 c0]. cbn [rest caps before] in *. subst r0.
      rewrite consumed_append.
      destruct I as [[w ->] F]. split.
      * exists (w ++ t). cbn [rest]. now rewrite append_assoc'.
      * cbn [caps] in *. constructor; [|exact F]. cbn [snd].
        split; [exact Nt|]. split; [exact T|now exists w, s'].
    + cbn [caps sets1]. intros S. apply has1_cons. tauto.
Qed.

Lemma scan_inside q re s : forall skip b cs,
  captures_ident (pattern re) ->
  (exists u, q = u ++ s) ->
  scan re skip b s = Some cs ->
  Forall (fun c => identifier_of q (snd c)) cs
  /\ (sets1 (pattern re) -> has1 cs).
Proof.
  induction s as [|c s IH]; intros skip b cs C U.
  - destruct skip; cbn [scan]; [|discriminate]. unfold or_try.
    destruct (rmatch _ _ _ _) as [y|] eqn:E; [|discriminate].
    intros [= <-].
    assert (I : inside q (MState b "" [])) by (split; [exact U|constructor]).
    destruct (rmatch_inside q _ _ C _ _ _ I E) as (st' & [_ F] & S & [= <-]).
    split; [exact F|tauto].
  - assert (U' : exists u, q = u ++ s).
    { destruct U as [u ->]. exists (u ++ String c ""). now rewrite append_assoc'. }
    destruct skip as [|n]; cbn [scan]; [|now apply IH].
    unfold or_try. destruct (rmatch _ _ _ _) as [y|] eqn:E.
    + intros [= <-].
      assert (I : inside q (MState b (String c s) []))
        by (split; [exact U|constructor]).
      destruct (rmatch_inside q _ _ C _ _ _ I E) as (st' & [_ F] & S & [= <-]).
      split; [exact F|tauto].
    + now apply IH.
Qed.

Lemma capture_Forall (P : string -> Prop) n cs t :
  Forall (fun c => P (snd c)) cs -> capture n cs = Some t -> P t.
Proof.
  induction 1 as [|[m u] cs F1 F2 IH]; cbn [capture]; [discriminate|].
  destruct (n =? m)%nat; [now intros [= <-]|exact IH].
Qed.

(** What [match(re)[1]] is, for a pattern whose groups are
    [([a-zA-Z0-9_\-:.]+)] and whose matches all go through group 1. *)
Lemma match1_identifier re q id :
  captures_ident (pattern re) -> sets1 (pattern re) ->
  match1 re q = Some id -> identifier_of q id.
Proof.
  intros C S. unfold match1, exec.
  destruct (scan re 0 None q) as [cs|] eqn:E; [|discriminate].
  intros [= <-].
  destruct (scan_inside q re q 0 None cs C (ex_intro _ "" eq_refl) E) as [F H].
  specialize (H S). unfold group1, has1 in *.
  destruct (capture 1 cs) as [t|] eqn:Ct; [|contradiction].
  exact (capture_Forall _ _ _ _ F Ct).
Qed.

Lemma quoted_ident_captures : captures_ident quoted_ident /\ sets1 quoted_ident.
Proof. cbn. intuition reflexivity. Qed.

Lemma captures_lit w : captures_ident (lit w).
Proof.
  unfold lit. induction (list_ascii_of_string w) as [|c l IH]; cbn; tauto.
Qed.

Ltac ident_pattern :=
  cbn [pattern seq fold_right captures_ident sets1 alt];
  repeat match goal with
         | |- _ /\ _ => split
         | |- captures_ident (lit _) => apply captures_lit
         | |- captures_ident quoted_ident => apply quoted_ident_captures
         | |- True => exact I
         end.

Lemma Analytics_patterns_capture re :
  In re [Analytics.re_details; Analytics.re_pause; Analytics.re_unpause;
         Analytics.re_trigger; Analytics.re_run] ->
  captures_ident (pattern re) /\ sets1 (pattern re).
Proof.
  intros H. cbn [In] in H.
  assert (Q := proj2 quoted_ident_captures).
  destruct H as [<-|[<-|[<-|[<-|[<-|[]]]]]]; split;
    try (cbn [pattern Analytics.re_details Analytics.re_pause
              Analytics.re_unpause Analytics.re_trigger Analytics.re_run
              seq fold_right sets1]; tauto);
    unfold Analytics.re_details, Analytics.re_pause, Analytics.re_unpause,
      Analytics.re_trigger, Analytics.re_run; ident_pattern.
Qed.

Lemma Analytics_match1_identifier re q id :
  In re [Analytics.re_details; Analytics.re_pause; Analytics.re_unpause;
         Analytics.re_trigger; Analytics.re_run] ->
  match1 re q = Some id -> identifier_of q id.
Proof.
  intros H. destruct (Analytics_patterns_capture re H) as [C S].
  now apply match1_identifier.
Qed.

(** X10: every identifier that the cascade of Analytics.jsx takes from an
    utterance, for the details, the latest run, a pause, an unpause or a
    trigger, is a non-empty run of characters of [[a-zA-Z0-9_\-:.]] that
    occurs in the utterance: quotes, white space and other characters
    never reach the backend as part of an identifier. *)
Theorem cascade_identifiers_come_from_the_utterance :
  forall (q : string) (c : command) (id : string),
    Analytics.matcher q = Some c ->
    dag_id_of c = Some id ->
    identifier_of q id.
Proof.
  intros q c id. unfold Analytics.matcher.
  destruct (test Analytics.re_list q); [now intros [= <-]|].
  destruct (matched (match1 Analytics.re_search q)
            || test Analytics.re_search_word q).
  { destruct (Analytics.has_term _); [now intros [= <-]|discriminate]. }
  destruct (match1 Analytics.re_details q) as [d|] eqn:E1.
  { intros [= <-] [= <-]. apply (Analytics_match1_identifier _ _ _ (or_introl eq_refl) E1). }
  destruct (match1 Analytics.re_pause q) as [d|] eqn:E2.
  { intros [= <-] [= <-].
    apply (Analytics_match1_identifier Analytics.re_pause); [cbn; tauto|exact E2]. }
  destruct (match1 Analytics.re_unpause q) as [d|] eqn:E3.
  { intros [= <-] [= <-].
    apply (Analytics_match1_identifier Analytics.re_unpause); [cbn; tauto|exact E3]. }
  destruct (match1 Analytics.re_trigger q) as [d|] eqn:E4.
  { intros [= <-] [= <-].
    apply (Analytics_match1_identifier Analytics.re_trigger); [cbn; tauto|exact E4]. }
  destruct (match1 Analytics.re_run q) as [d|] eqn:E5.
  { intros [= <-] [= <-].
    apply (Analytics_match1_identifier Analytics.re_run); [cbn; tauto|exact E5]. }
  now intros [= <-].
Qed.

Lemma cascade_identifiers_come_from_the_utterance_witness :
  Analytics.matcher "pause 'etl-daily'!" = Some (Pause "etl-daily")
  /\ identifier_of "pause 'etl-daily'!" "etl-daily".
Proof.
  split; [reflexivity|].
  apply (cascade_identifiers_come_from_the_utterance
           "pause 'etl-daily'!" (Pause "etl-daily") "etl-daily");
    reflexivity.
Defined.

(** ** The identifier of a rerun *)

Lemma lower_not_capital c : not_capital (lower c) = true.
Proof. destruct c as [[] [] [] [] [] [] [] []]; reflexivity. Qed.

Lemma toLowerCase_step a t :
  toLowerCase (String a t)
  = match t with
    | String b u =>
        if is_char 196 a && is_char 176 b
        then String "i" (String (ascii_of_nat 204)
                           (String (ascii_of_nat 135) (toLowerCase u)))
        else
          match u with
          | String c v =>
              if is_char 226 a && is_char 132 b && is_char 170 c
              then String "k" (toLowerCase v)
              else String (lower a) (toLowerCase t)
          | EmptyString => String (lower a) (toLowerCase t)
          end
    | EmptyString => String (lower a) EmptyString
    end.
Proof. destruct t as [|b [|c v]]; reflexivity. Qed.

(** A lower-cased text has no capital of ASCII. *)
Lemma toLowerCase_not_capital n : forall s,
  String.length s <= n -> all_chars not_capital (toLowerCase s) = true.
Proof.
  induction n as [|n IH]; intros s L.
  - destruct s; [reflexivity|cbn in L; lia].
  - destruct s as [|a t]; [reflexivity|]. rewrite toLowerCase_step.
    destruct t as [|b u].
    + cbn [all_chars]. now rewrite lower_not_capital.
    + cbn [String.length] in L.
      destruct (is_char 196 a && is_char 176 b).
      * cbn [all_chars]. rewrite IH by lia. reflexivity.
      * destruct u as [|c v].
        -- cbn [all_chars]. rewrite lower_not_capital, IH by (cbn; lia).
           reflexivity.
        -- cbn [String.length] in L.
           destruct (is_char 226 a && is_char 132 b && is_char 170 c).
           ++ cbn [all_chars]. rewrite IH by lia. reflexivity.
           ++ cbn [all_chars]. rewrite lower_not_capital, IH by (cbn; lia).
              reflexivity.
Qed.

Lemma all_chars_append p (a b : string) :
  all_chars p (a ++ b) = all_chars p a && all_chars p b.
Proof.
  induction a as [|x a IH]; cbn [append all_chars]; [reflexivity|].
  now rewrite IH, andb_assoc.
Qed.

Lemma lower_ident c :
  is_ident c = true -> not_capital c = true ->
  lower c = c /\ is_char 196 c = false /\ is_char 226 c = false.
Proof.
  destruct c as [[] [] [] [] [] [] [] []]; intros I N;
    try discriminate I; try discriminate N; repeat split.
Qed.

(** An identifier without a capital is its own lower case. *)
Lemma toLowerCase_ident t :
  all_chars is_ident t = true -> all_chars not_capital t = true ->
  toLowerCase t = t.
Proof.
  induction t as [|a t IH]; [reflexivity|]. cbn [all_chars].
  intros I N. apply andb_true_iff in I as [Ia It].
  apply andb_true_iff in N as [Na Nt].
  destruct (lower_ident a Ia Na) as (L & A1 & A2).
  rewrite toLowerCase_step, A1, A2, L, (IH It Nt). cbn [andb].
  destruct t as [|b [|c v]]; reflexivity.
Qed.

(** An identifier of a lower-cased text is lower-case. *)
Lemma identifier_lower t q :
  identifier_of (toLowerCase q) t -> toLowerCase t = t.
Proof.
  intros (_ & I & u & v & E). apply toLowerCase_ident; [exact I|].
  pose proof (toLowerCase_not_capital _ q (le_n _)) as H.
  rewrite E, !all_chars_append in H.
  apply andb_true_iff in H as [_ H]. now apply andb_true_iff in H as [H _].
Qed.

Lemma re_rerun_captures :
  captures_ident (pattern Chatbot2.re_rerun) /\ sets1 (pattern Chatbot2.re_rerun).
Proof.
  split; [unfold Chatbot2.re_rerun; ident_pattern; reflexivity|].
  cbn. tauto.
Qed.

(** X11: the rerun of Chatbot2.jsx matches on the lower-cased utterance
    and sends what it captured there: the one request of the turn goes to
    the rerun endpoint with an identifier that is a non-empty run of
    characters of [[a-z0-9_\-:.]] of the lower-cased utterance, so a
    workflow whose name has a capital letter is never rerun under its own
    name. *)
Theorem rerun_sends_lower_case_identifier :
  forall (b : backend) (key : string) (ms : list chat_message) (i : string)
         (l : bool) (dl : value) (cp : nat) (id : string),
    Chatbot2.matcher (trim i) = Some (Trigger id) ->
    snd (run b [] (Chatbot2.sendMessage key (Chatbot2.State ms i l dl cp)))
      = [Call (PostRerun id)]
    /\ identifier_of (toLowerCase (trim i)) id
    /\ toLowerCase id = id.
Proof.
  intros b key ms i l dl cp id H.
  assert (E : match1 Chatbot2.re_rerun (toLowerCase (trim i)) = Some id).
  { unfold Chatbot2.matcher in H.
    destruct (match1 Chatbot2.re_rerun (toLowerCase (trim i))) as [d|].
    - now injection H as ->.
    - destruct (test Chatbot2.re_list (trim i) || test Chatbot2.re_show (trim i));
        discriminate H. }
  destruct re_rerun_captures as [C S].
  assert (I := match1_identifier _ _ _ C S E).
  split; [exact (proj2 (rerun_goes_to_rerun_endpoint b key ms i l dl cp id E))|].
  split; [exact I|].
  apply (identifier_lower id (trim i)), I.
Qed.

Lemma rerun_sends_lower_case_identifier_witness :
  Chatbot2.matcher (trim "please rerun ETL_Daily now")
    = Some (Trigger "etl_daily")
  /\ snd (run unreachable []
            (Chatbot2.sendMessage "key"
               (Chatbot2.State [] "please rerun ETL_Daily now" false (VArr []) 1)))
     = [Call (PostRerun "etl_daily")]
  /\ toLowerCase "etl_daily" = "etl_daily".
Proof.
  split; [reflexivity|].
  destruct (rerun_sends_lower_case_identifier unreachable "key" []
              "please rerun ETL_Daily now" false (VArr []) 1 "etl_daily"
              eq_refl) as (T & _ & L).
  split; [exact T|exact L].
Defined.

(** ** The list of Analytics.jsx *)

Lemma mapM_is_paused es :
  Forall (fun d => is_nullish d = false) es ->
  mapM (fun d => let? p := get d "is_paused" in Ok (truthy p)) es
  = Ok (map is_paused es).
Proof.
  induction 1 as [|d es N _ IH]; cbn [mapM map]; [reflexivity|].
  rewrite (get_not_nullish _ _ N). cbn [rbind]. now rewrite IH.
Qed.

Lemma length_filter_map {A B} (g : B -> bool) (h : A -> B) l :
  List.length (filter g (map h l)) = List.length (filter (fun x => g (h x)) l).
Proof.
  induction l as [|x l IH]; cbn; [reflexivity|].
  destruct (g (h x)); cbn; now rewrite IH.
Qed.

Lemma length_filter_split {A} (g : A -> bool) l :
  List.length (filter (fun x => negb (g x)) l) + List.length (filter g l)
  = List.length l.
Proof.
  induction l as [|x l IH]; cbn; [reflexivity|].
  destruct (g x); cbn; lia.
Qed.

Lemma count_entries paused es :
  Forall (fun d => is_nullish d = false) es ->
  Analytics.count paused (VArr es)
  = Ok (List.length (filter (fun d => Bool.eqb paused (is_paused d)) es)).
Proof.
  intros H. unfold Analytics.count. rewrite (mapM_is_paused es H).
  cbn [rbind]. now rewrite length_filter_map.
Qed.

(** X12: the two counts of the list of Analytics.jsx split the entries:
    when no entry is [null] or [undefined], [dags.filter(d =>
    !d.is_paused).length] and [dags.filter(d => d.is_paused).length] are
    both defined and add up to the number of the entries, an entry without
    the field counting as active. *)
Theorem active_and_paused_add_up :
  forall es : list value,
    Forall (fun d => is_nullish d = false) es ->
    exists active paused,
      Analytics.count false (VArr es) = Ok active
      /\ Analytics.count true (VArr es) = Ok paused
      /\ active + paused = List.length es
      /\ paused = List.length (filter is_paused es).
Proof.
  intros es H. do 2 eexists.
  split; [apply (count_entries false es H)|].
  split; [apply (count_entries true es H)|].
  assert (A : filter (fun d => Bool.eqb false (is_paused d)) es
              = filter (fun d => negb (is_paused d)) es)
    by (apply filter_ext; intros d; now destruct (is_paused d)).
  assert (P : filter (fun d => Bool.eqb true (is_paused d)) es
              = filter is_paused es)
    by (apply filter_ext; intros d; now destruct (is_paused d)).
  rewrite A, P. split; [apply length_filter_split|reflexivity].
Qed.

Lemma active_and_paused_add_up_witness :
  exists active paused,
    Analytics.count false
      (VArr [VObj [("dag_id", VStr "a")];
             VObj [("dag_id", VStr "b"); ("is_paused", VBool true)];
             VStr "c"]) = Ok active
    /\ Analytics.count true
         (VArr [VObj [("dag_id", VStr "a")];
                VObj [("dag_id", VStr "b"); ("is_paused", VBool true)];
                VStr "c"]) = Ok paused
    /\ active + paused = 3
    /\ paused = 1.
Proof.
  apply (active_and_paused_add_up
           [VObj [("dag_id", VStr "a")];
            VObj [("dag_id", VStr "b"); ("is_paused", VBool true)];
            VStr "c"]).
  repeat constructor.
Defined.

Lemma mapM_find_nullish es :
  mapM (fun d => let? p := get d "is_paused" in Ok (truthy p)) es
  = match find is_nullish es with
    | Some d => Raise (read_error d "is_paused")
    | None => Ok (map is_paused es)
    end.
Proof.
  induction es as [|d es IH]; cbn [mapM find map]; [reflexivity|].
  unfold get at 1. destruct (is_nullish d); [reflexivity|].
  cbn [rbind]. rewrite IH. now destruct (find is_nullish es).
Qed.

Lemma count_find paused es :
  Analytics.count paused (VArr es)
  = match find is_nullish es with
    | Some d => Raise (read_error d "is_paused")
    | None => Ok (List.length
                    (filter (fun d => Bool.eqb paused (is_paused d)) es))
    end.
Proof.
  unfold Analytics.count. rewrite mapM_find_nullish.
  destruct (find is_nullish es); [reflexivity|].
  cbn [rbind]. now rewrite length_filter_map.
Qed.

Lemma filter_active es :
  filter (fun d => Bool.eqb false (is_paused d)) es
  = filter (fun d => negb (is_paused d)) es.
Proof. apply filter_ext. intros d. now destruct (is_paused d). Qed.

Lemma filter_paused es :
  filter (fun d => Bool.eqb true (is_paused d)) es = filter is_paused es.
Proof. apply filter_ext. intros d. now destruct (is_paused d). Qed.

Lemma length_text es :
  to_string (read (VArr es) "length") = Ok (string_of_nat (List.length es)).
Proof. reflexivity. Qed.

Lemma Analytics_matcher_list q :
  Analytics.matcher q = Some List -> test Analytics.re_list q = true.
Proof.
  unfold Analytics.matcher.
  destruct (test Analytics.re_list q); [reflexivity|].
  destruct (matched _ || test _ _).
  { destruct (Analytics.has_term _); discriminate. }
  repeat match goal with
         | |- context [match match1 ?re q with _ => _ end] =>
             destruct (match1 re q)
         end; discriminate.
Qed.

(** X13: a list turn of Analytics.jsx whose reply carries entries replaces
    the table and returns to page 1 before it counts them.  The turn makes
    one request and adds one reply: the counts when every entry has
    properties, and otherwise the [TypeError] of the first entry that is
    [null], shown as an error although the table has been replaced. *)
Theorem list_turn_replaces_table_before_counting :
  forall (b : backend) (i : string) (ms : list chat_message) (l : bool)
         (dl dd : value) (cp st : nat) (body : value) (es : list value),
    trim i <> "" ->
    Analytics.matcher (trim i) = Some List ->
    b [] (PostRun "list all dags") = Response st (Json body) ->
    status_ok st = true ->
    truthy body = true ->
    Detail.extractDags body = Ok (VArr es) ->
    es <> [] ->
    run b [] (Analytics.sendMessage (Detail.State ms i l dl dd cp))
    = ((Ok tt,
        Detail.State (ms ++ [Message "user" (VStr i); bot (list_reply es)])%list
                     "" false (VArr es) VNull 1),
       [Call (PostRun "list all dags")]).
Proof.
  intros b i ms l dl dd cp st body es N Hm Hb Hs Ht He Hn.
  rewrite (Analytics_turn_unfold i ms l dl dd cp N).
  unfold Analytics.cascade. rewrite (Analytics_matcher_list _ Hm).
  unfold Analytics.list_dags, Detail.callMCPServer, finally, catch.
  unfold Detail.addMessage, Detail.setLoading, Detail.setDagList,
    Detail.setCurrentPage.
  cbn [bind await pbind run app]. rewrite Hb. cbn [Detail.settle ok body_of].
  rewrite Hs, Ht, He. cbn [andb lift bind pbind].
  rewrite (gt_zero_length es Hn), !count_find, length_text.
  unfold list_reply, found_message, error_message.
  rewrite ?filter_active, ?filter_paused.
  destruct (find is_nullish es) as [d|];
    cbn [lift bind pbind update updater rbind run fst snd Detail.messages
         Detail.input Detail.loading Detail.dagList Detail.dagDetails
         Detail.currentPage];
    rewrite <- app_assoc; reflexivity.
Qed.

Lemma list_turn_replaces_table_before_counting_witness :
  run (always (VObj [("dags", VArr [VNull; VStr "etl"])])) []
      (Analytics.sendMessage
         (Detail.State [] "list dags" false (VArr []) VNull 4))
  = ((Ok tt,
      Detail.State
        [Message "user" (VStr "list dags");
         bot (error_message
                (Error "TypeError"
                   "Cannot read properties of null (reading 'is_paused')"))]
        "" false (VArr [VNull; VStr "etl"]) VNull 1),
     [Call (PostRun "list all dags")]).
Proof.
  apply (list_turn_replaces_table_before_counting
           (always (VObj [("dags", VArr [VNull; VStr "etl"])]))
           "list dags" [] false (VArr []) VNull 4 200
           (VObj [("dags", VArr [VNull; VStr "etl"])]) [VNull; VStr "etl"]);
    try reflexivity; discriminate.
Defined.

(** ** The list of the first component of Chatbot2.jsx *)

Lemma summaries_truthy es :
  Forall (fun v => truthy v = true) (map summary (filter truthy es)).
Proof.
  induction es as [|d es IH]; cbn [filter map]; [constructor|].
  destruct (truthy d) eqn:T; [|exact IH].
  cbn [map]. constructor; [now apply summary_truthy|exact IH].
Qed.

(** X14: a list turn of the first component of Chatbot2.jsx whose reply
    carries entries puts in the table the names of the entries that are
    not falsy, never a falsy name, goes to page 1 and announces the number
    of the names, not of the entries: a reply whose entries are all
    [null] empties the table and is announced as 0 found, not as an empty
    list. *)
Theorem list_turn_shows_names :
  forall (b : backend) (key i : string) (ms : list chat_message) (l : bool)
         (dl : value) (cp : nat) (es : list value),
    Chatbot2.matcher (trim i) = Some List ->
    let result := Chatbot2.settle (b [] (PostRun "list all dags")) in
    ok result = true ->
    Chatbot2.extractDags (body_of result) = Ok (VArr es) ->
    es <> [] ->
    let names := map summary (filter truthy es) in
    run b [] (Chatbot2.sendMessage key (Chatbot2.State ms i l dl cp))
    = ((Ok tt,
        Chatbot2.State
          (ms ++ [Message "user" (VStr i);
                  bot (found_names (List.length names))])%list
          "" false (VArr names) 1),
       [Call (PostRun "list all dags")])
    /\ Forall (fun v => truthy v = true) names.
Proof.
  intros b key i ms l dl cp es H result O X N names.
  split; [|apply summaries_truthy].
  assert (E : is_empty (trim i) = false).
  { destruct (trim i); [discriminate H|reflexivity]. }
  rewrite (Chatbot2_sendMessage_execute key ms i l dl cp E), H.
  cbn [Chatbot2.execute].
  unfold Chatbot2.list_dags, Chatbot2.callMCPServer.
  cbn [bind Chatbot2.addMessage Chatbot2.setInput Chatbot2.setLoading
       update pbind await run app fst snd].
  fold result. rewrite O. cbn [negb]. rewrite X. cbn [lift pbind bind].
  rewrite (gt_zero_length es N), normalizeDagList_summaries.
  fold names.
  cbn [lift pbind bind run update fst snd Chatbot2.setDagList
       Chatbot2.setCurrentPage Chatbot2.addMessage Chatbot2.setLoading
       Chatbot2.messages Chatbot2.input Chatbot2.loading Chatbot2.dagList
       Chatbot2.currentPage].
  now rewrite <- app_assoc.
Qed.

Lemma list_turn_shows_names_witness :
  run (always (VArr [VNull])) []
      (Chatbot2.sendMessage "key"
         (Chatbot2.State [] "list dags" false (VArr [VStr "old"]) 2))
  = ((Ok tt,
      Chatbot2.State
        [Message "user" (VStr "list dags");
         bot "Found 0 DAGs. Showing in table below."]
        "" false (VArr []) 1),
     [Call (PostRun "list all dags")]).
Proof.
  apply (list_turn_shows_names (always (VArr [VNull])) "key" "list dags" []
           false (VArr [VStr "old"]) 2 [VNull]);
    try reflexivity; discriminate.
Defined.

(** * The tables and their pages *)

Lemma firstn_add {A} (a b : nat) (l : list A) :
  firstn (a + b) l = (firstn a l ++ firstn b (skipn a l))%list.
Proof.
  revert l. induction a as [|a IH]; intros l; [reflexivity|].
  destruct l as [|x l]; cbn [Nat.add firstn skipn app].
  - now rewrite firstn_nil.
  - now rewrite IH.
Qed.

Lemma skipn_beyond {A} (n : nat) (l : list A) :
  List.length l <= n -> skipn n l = [].
Proof. intros H. now apply skipn_all2. Qed.

(** A page is a run of [k] consecutive entries, or what is left of them. *)
Lemma slice_page {A} (l : list A) (k p : Z) :
  (0 < k)%Z -> (1 <= p)%Z ->
  slice l ((p - 1) * k) (p * k)
  = firstn (Z.to_nat k) (skipn (Z.to_nat ((p - 1) * k)) l).
Proof.
  intros K P. unfold slice, clamp_index.
  set (len := Z.of_nat (List.length l)).
  assert (S0 : ((p - 1) * k <? 0)%Z = false) by (apply Z.ltb_ge; nia).
  assert (F0 : (p * k <? 0)%Z = false) by (apply Z.ltb_ge; nia).
  rewrite S0, F0.
  destruct (Z_lt_le_dec ((p - 1) * k) len) as [L|L].
  - rewrite (Z.min_l _ _ (Z.lt_le_incl _ _ L)).
    destruct (Z_le_gt_dec (p * k) len) as [L'|L'].
    + rewrite (Z.min_l _ _ L'). f_equal. lia.
    + rewrite Z.min_r by lia.
      rewrite !firstn_all2; [reflexivity| |]; rewrite length_skipn; subst len; lia.
  - rewrite (Z.min_r _ _ L).
    rewrite !skipn_beyond by (subst len; lia).
    now rewrite !firstn_nil.
Qed.

Lemma chunks_firstn {A} (l : list A) (k n : nat) :
  concat (map (fun j => firstn k (skipn (j * k) l)) (List.seq 0 n))
  = firstn (n * k) l.
Proof.
  induction n as [|n IH]; [reflexivity|].
  rewrite seq_S, map_app, concat_app, IH. cbn [map concat Nat.add].
  rewrite app_nil_r, <- firstn_add. f_equal. lia.
Qed.

Lemma ceil_div_bounds (n k : Z) :
  (0 < k)%Z -> (0 <= n)%Z ->
  (n <= Math_ceil_div n k * k < n + k)%Z.
Proof.
  intros K N. unfold Math_ceil_div.
  assert (H := Z.div_mod (- n) k ltac:(lia)).
  assert (B := Z.mod_pos_bound (- n) k K).
  nia.
Qed.

Lemma ceil_div_pos (n k : Z) :
  (0 < k)%Z -> (0 < n)%Z -> (1 <= Math_ceil_div n k)%Z.
Proof. intros K N. assert (H := ceil_div_bounds n k K ltac:(lia)). nia. Qed.

Lemma ceil_div_nonneg (n k : Z) :
  (0 < k)%Z -> (0 <= n)%Z -> (0 <= Math_ceil_div n k)%Z.
Proof. intros K N. assert (H := ceil_div_bounds n k K N). nia. Qed.

Lemma pages_concat {A} (k : Z) (l : list A) :
  (0 < k)%Z ->
  concat (map (fun p => slice l ((p - 1) * k) (p * k))
              (page_numbers (Math_ceil_div (Z.of_nat (List.length l)) k)))
  = l.
Proof.
  intros K. unfold page_numbers.
  set (n := Z.of_nat (List.length l)).
  assert (B := ceil_div_bounds n k K ltac:(subst n; lia)).
  assert (P := ceil_div_nonneg n k K ltac:(subst n; lia)).
  rewrite map_map.
  rewrite (map_ext _ (fun j => firstn (Z.to_nat k) (skipn (j * Z.to_nat k) l))).
  - rewrite chunks_firstn. apply firstn_all2. subst n. nia.
  - intros j. rewrite slice_page by lia. do 2 f_equal. nia.
Qed.

(** X15: the pages of the table under the chat, from 1 to
    [Math.ceil(dagList.length / PAGE_SIZE)], show every entry of the list
    once and in order: put end to end they are the list. *)
Theorem pages_show_every_entry_once :
  forall (PAGE_SIZE : Z) (dagList : list value),
    (0 < PAGE_SIZE)%Z ->
    concat (map (Pager.paginatedDags PAGE_SIZE dagList)
                (page_numbers (Pager.pages PAGE_SIZE dagList)))
    = dagList.
Proof. intros k l K. now apply pages_concat. Qed.

Lemma pages_show_every_entry_once_witness :
  concat (map (Pager.paginatedDags 15 (repeat (VStr "etl") 31))
              (page_numbers (Pager.pages 15 (repeat (VStr "etl") 31))))
  = repeat (VStr "etl") 31.
Proof.
  apply (pages_show_every_entry_once 15 (repeat (VStr "etl") 31)). lia.
Defined.

Lemma page_length (l : list value) (k p : Z) :
  (0 < k)%Z -> (1 <= p)%Z ->
  Z.of_nat (List.length (Pager.paginatedDags k l p))
  = Z.max 0 (Pager.last_shown k l p - Pager.first_shown k p + 1).
Proof.
  intros K P. unfold Pager.paginatedDags, Pager.last_shown, Pager.first_shown.
  rewrite slice_page by assumption.
  rewrite length_firstn, length_skipn. nia.
Qed.

(** X16: the number shown in front of a row of the table under the chat
    is the position of its entry in the whole list, counted from 1, and it
    lies between the two ends of the label [a-b of n]; the label counts
    the rows of the page. *)
Theorem row_numbers_are_positions :
  forall (PAGE_SIZE : Z) (dagList : list value) (currentPage : Z)
         (idx : nat) (dag : value),
    (0 < PAGE_SIZE)%Z ->
    (1 <= currentPage)%Z ->
    nth_error (Pager.paginatedDags PAGE_SIZE dagList currentPage) idx = Some dag ->
    let n := Pager.row_number PAGE_SIZE currentPage idx in
    nth_error dagList (Z.to_nat (n - 1)) = Some dag
    /\ (Pager.first_shown PAGE_SIZE currentPage <= n
        <= Pager.last_shown PAGE_SIZE dagList currentPage)%Z
    /\ Z.of_nat (List.length (Pager.paginatedDags PAGE_SIZE dagList currentPage))
       = (Pager.last_shown PAGE_SIZE dagList currentPage
          - Pager.first_shown PAGE_SIZE currentPage + 1)%Z.
Proof.
  intros k l p idx d K P H n.
  assert (L := page_length l k p K P).
  assert (I : idx < List.length (Pager.paginatedDags k l p)).
  { apply nth_error_Some. congruence. }
  unfold Pager.paginatedDags in H. rewrite slice_page in H by assumption.
  rewrite nth_error_firstn in H.
  destruct (idx <? Z.to_nat k)%nat eqn:E; [|discriminate].
  apply Nat.ltb_lt in E. rewrite nth_error_skipn in H.
  assert (B : Z.to_nat ((p - 1) * k) + idx < List.length l).
  { apply nth_error_Some. congruence. }
  subst n. unfold Pager.row_number, Pager.first_shown, Pager.last_shown in *.
  split; [|split].
  - rewrite <- H. f_equal. nia.
  - nia.
  - nia.
Qed.

Lemma row_numbers_are_positions_witness :
  nth_error (Pager.paginatedDags 15 (repeat (VStr "etl") 31) 3) 0
    = Some (VStr "etl")
  /\ Pager.row_number 15 3 0 = 31%Z
  /\ nth_error (repeat (VStr "etl") 31) 30 = Some (VStr "etl")
  /\ Z.of_nat (List.length (Pager.paginatedDags 15 (repeat (VStr "etl") 31) 3))
     = 1%Z.
Proof.
  split; [reflexivity|]. split; [reflexivity|].
  destruct (row_numbers_are_positions 15 (repeat (VStr "etl") 31) 3 0
              (VStr "etl")) as (A & _ & B); [lia|lia|reflexivity|].
  split; [exact A|exact B].
Defined.

Lemma shown_nonempty (l : list value) :
  Pager.shown l = true -> (0 < Z.of_nat (List.length l))%Z.
Proof. unfold Pager.shown. apply Z.ltb_lt. Qed.

Lemma page_one_in_range (k : Z) (l : list value) :
  (0 < k)%Z -> Pager.shown l = true -> (1 <= Pager.pages k l)%Z.
Proof.
  intros K S. apply ceil_div_pos; [exact K|now apply shown_nonempty].
Qed.

Lemma previous_in_range (n p : Z) :
  (1 <= p <= n)%Z -> (1 <= Pager.previous p <= n)%Z.
Proof. intros R. unfold Pager.previous. destruct (Z.eqb_spec p 1); lia. Qed.

Lemma next_in_range (k : Z) (l : list value) (p : Z) :
  (1 <= p <= Pager.pages k l)%Z ->
  (1 <= Pager.next k l p <= Pager.pages k l)%Z.
Proof.
  intros R. unfold Pager.next.
  destruct (Z.geb_spec p (Pager.pages k l)); lia.
Qed.

(** X17: while the table under the chat is rendered on one of its pages,
    the buttons Previous and Next lead to one of its pages again, and the
    page shown has at least one row and at most [PAGE_SIZE]: Previous does
    nothing on page 1 and Next nothing on the last page. *)
Theorem buttons_stay_on_the_pages :
  forall (PAGE_SIZE : Z) (dagList : list value) (currentPage : Z),
    (0 < PAGE_SIZE)%Z ->
    Pager.shown dagList = true ->
    (1 <= currentPage <= Pager.pages PAGE_SIZE dagList)%Z ->
    (1 <= Pager.previous currentPage <= Pager.pages PAGE_SIZE dagList)%Z
    /\ (1 <= Pager.next PAGE_SIZE dagList currentPage
        <= Pager.pages PAGE_SIZE dagList)%Z
    /\ (1 <= Z.of_nat (List.length
                         (Pager.paginatedDags PAGE_SIZE dagList currentPage))
        <= PAGE_SIZE)%Z
    /\ Pager.previous 1 = 1%Z
    /\ Pager.next PAGE_SIZE dagList (Pager.pages PAGE_SIZE dagList)
       = Pager.pages PAGE_SIZE dagList.
Proof.
  intros k l p K S R.
  assert (N := shown_nonempty l S).
  assert (B := ceil_div_bounds (Z.of_nat (List.length l)) k K ltac:(lia)).
  fold (Pager.pages k l) in B.
  assert (L := page_length l k p K ltac:(lia)).
  split; [now apply previous_in_range|].
  split; [now apply next_in_range|].
  split; [unfold Pager.last_shown, Pager.first_shown in L; nia|].
  split; [reflexivity|].
  unfold Pager.next.
  destruct (Z.geb_spec (Pager.pages k l) (Pager.pages k l)); [reflexivity|lia].
Qed.

Lemma buttons_stay_on_the_pages_witness :
  Pager.next 20 (repeat (VStr "etl") 41) 3 = 3%Z
  /\ Pager.previous 3 = 2%Z
  /\ (1 <= Z.of_nat (List.length
                       (Pager.paginatedDags 20 (repeat (VStr "etl") 41) 3))
      <= 20)%Z.
Proof.
  split; [reflexivity|]. split; [reflexivity|].
  destruct (buttons_stay_on_the_pages 20 (repeat (VStr "etl") 41) 3)
    as (_ & _ & A & _); [lia|reflexivity|vm_compute; split; discriminate|].
  exact A.
Defined.

(** ** The page of a chat component *)

Lemma page_follows_in_range (k : Z) dl dl' cp cp' :
  (0 < k)%Z ->
  page_follows_list dl dl' cp cp' ->
  page_in_range k dl cp -> page_in_range k dl' cp'.
Proof.
  intros K [[-> ->]| ->] I; [exact I|].
  intros l _ S. split; [reflexivity|]. now apply page_one_in_range.
Qed.

Lemma pager_button_in_range (k : Z) (press : list value -> Z -> Z) dl cp :
  (forall l p, (1 <= p <= Pager.pages k l)%Z ->
               (1 <= press l p <= Pager.pages k l)%Z) ->
  page_in_range k dl cp -> page_in_range k dl (pager_button press dl cp).
Proof.
  intros P I l -> S. unfold pager_button. rewrite S.
  specialize (P l _ (I l eq_refl S)). lia.
Qed.

Lemma Detail_act_in_range (sendMessage : M Detail.state unit) :
  (forall b ms i l dl dd cp,
      let s' := snd (fst (run b [] (sendMessage (Detail.State ms i l dl dd cp)))) in
      page_follows_list dl (Detail.dagList s') cp (Detail.currentPage s')) ->
  forall a s,
    page_in_range 15 (Detail.dagList s) (Detail.currentPage s) ->
    page_in_range 15 (Detail.dagList (Detail_act sendMessage a s))
                  (Detail.currentPage (Detail_act sendMessage a s)).
Proof.
  intros T a [ms i l dl dd cp] I. cbn [Detail.dagList Detail.currentPage] in I.
  destruct a as [t|b| |]; cbn [Detail_act Detail.dagList Detail.currentPage].
  - exact I.
  - exact (page_follows_in_range 15 _ _ _ _ eq_refl (T b ms i l dl dd cp) I).
  - apply pager_button_in_range; [|exact I].
    intros ? ?. apply previous_in_range.
  - apply pager_button_in_range; [|exact I]. apply next_in_range.
Qed.

Lemma Analytics_page_follows b ms i l dl dd cp :
  let s' := snd (fst (run b [] (Analytics.sendMessage
                                  (Detail.State ms i l dl dd cp)))) in
  page_follows_list dl (Detail.dagList s') cp (Detail.currentPage s').
Proof.
  cbv zeta. destruct (is_empty (trim i)) eqn:E.
  - unfold Analytics.sendMessage. cbn [Detail.input]. rewrite E.
    apply page_follows_refl.
  - assert (N : trim i <> "") by (intros H; rewrite H in E; discriminate E).
    now destruct (Analytics_turn_frame b i ms l dl dd cp N) as (_ & _ & C).
Qed.

Lemma Chatbot2AI_page_follows key b ms i l dl dd cp :
  let s' := snd (fst (run b [] (Chatbot2AI.sendMessage key
                                  (Detail.State ms i l dl dd cp)))) in
  page_follows_list dl (Detail.dagList s') cp (Detail.currentPage s').
Proof.
  cbv zeta. destruct (is_empty (trim i)) eqn:E.
  - unfold Chatbot2AI.sendMessage. cbn [Detail.input]. rewrite E.
    apply page_follows_refl.
  - assert (N : trim i <> "") by (intros H; rewrite H in E; discriminate E).
    now destruct (Chatbot2AI_turn_frame b key i ms l dl dd cp N) as (_ & _ & C).
Qed.

Lemma Chatbot2_page_follows key b ms i l dl cp :
  let s' := snd (fst (run b [] (Chatbot2.sendMessage key
                                  (Chatbot2.State ms i l dl cp)))) in
  page_follows_list dl (Chatbot2.dagList s') cp (Chatbot2.currentPage s').
Proof.
  cbv zeta. destruct (is_empty (trim i)) eqn:E.
  - unfold Chatbot2.sendMessage. cbn [Chatbot2.input]. rewrite E.
    apply page_follows_refl.
  - assert (N : trim i <> "") by (intros H; rewrite H in E; discriminate E).
    now destruct (Chatbot2_turn_frame b key i ms l dl cp N) as (_ & _ & C).
Qed.

Lemma Chatbot2_act_in_range key a s :
  page_in_range 20 (Chatbot2.dagList s) (Chatbot2.currentPage s) ->
  page_in_range 20 (Chatbot2.dagList (Chatbot2_act key a s))
                (Chatbot2.currentPage (Chatbot2_act key a s)).
Proof.
  destruct s as [ms i l dl cp]. intros I.
  cbn [Chatbot2.dagList Chatbot2.currentPage] in I.
  destruct a as [t|b| |]; cbn [Chatbot2_act Chatbot2.dagList Chatbot2.currentPage].
  - exact I.
  - exact (page_follows_in_range 20 _ _ _ _ eq_refl
             (Chatbot2_page_follows key b ms i l dl cp) I).
  - apply pager_button_in_range; [|exact I].
    intros ? ?. apply previous_in_range.
  - apply pager_button_in_range; [|exact I]. apply next_in_range.
Qed.

Lemma fold_invariant {S A} (P : S -> Prop) (f : A -> S -> S) :
  (forall a s, P s -> P (f a s)) ->
  forall acts s, P s -> P (fold_left (fun s a => f a s) acts s).
Proof.
  intros H acts. induction acts as [|a acts IH]; intros s I; [exact I|].
  cbn [fold_left]. apply IH, H, I.
Qed.

Lemma empty_table_in_range k cp : page_in_range k (VArr []) cp.
Proof. intros l [= <-] S. discriminate S. Qed.

(** X18: whatever the user types, sends and presses, and whatever the
    backend and the model answer, a chat component that starts with an
    empty table on page 1 renders its table on one of the pages of the
    table: the page is never below 1 and never beyond the last page, in
    each of the three components. *)
Theorem page_is_always_a_page_of_the_table :
  forall (key : string) (acts : list action) (ms : list chat_message),
    let s2 := fold_left (fun s a => Chatbot2_act key a s) acts
                (Chatbot2.State ms "" false (VArr []) 1) in
    let sa := fold_left (fun s a => Detail_act (Chatbot2AI.sendMessage key) a s)
                acts (Detail.State ms "" false (VArr []) VNull 1) in
    let sc := fold_left (fun s a => Detail_act Analytics.sendMessage a s)
                acts (Detail.State ms "" false (VArr []) VNull 1) in
    page_in_range 20 (Chatbot2.dagList s2) (Chatbot2.currentPage s2)
    /\ page_in_range 15 (Detail.dagList sa) (Detail.currentPage sa)
    /\ page_in_range 15 (Detail.dagList sc) (Detail.currentPage sc).
Proof.
  intros key acts ms. cbv zeta. split; [|split].
  - apply (fold_invariant
             (fun s => page_in_range 20 (Chatbot2.dagList s) (Chatbot2.currentPage s))
             (Chatbot2_act key)).
    + apply Chatbot2_act_in_range.
    + apply empty_table_in_range.
  - apply (fold_invariant
             (fun s => page_in_range 15 (Detail.dagList s) (Detail.currentPage s))
             (Detail_act (Chatbot2AI.sendMessage key))).
    + apply Detail_act_in_range, Chatbot2AI_page_follows.
    + apply empty_table_in_range.
  - apply (fold_invariant
             (fun s => page_in_range 15 (Detail.dagList s) (Detail.currentPage s))
             (Detail_act Analytics.sendMessage)).
    + apply Detail_act_in_range, Analytics_page_follows.
    + apply empty_table_in_range.
Qed.

(** * The dashboard of Analytics.jsx *)

Lemma rbind_ok {A B} (r : result A) (f : A -> result B) b :
  rbind r f = Ok b -> exists x, r = Ok x /\ f x = Ok b.
Proof. destruct r as [x|e]; cbn [rbind]; [eauto|discriminate]. Qed.

Lemma get_ok v k x : get v k = Ok x -> x = read v k.
Proof. unfold get. destruct (is_nullish v); [discriminate|now intros [= <-]]. Qed.

Lemma field_ok dag k x : Dashboard.field dag k = Ok x -> x = truthy (read dag k).
Proof.
  unfold Dashboard.field. intros H.
  apply rbind_ok in H as (v & G & [= <-]). now rewrite (get_ok _ _ _ G).
Qed.

Lemma rnot_ok (t : result bool) (p x : bool) :
  (forall y, t = Ok y -> y = p) -> rnot t = Ok x -> x = negb p.
Proof.
  intros P H. apply rbind_ok in H as (y & E & [= <-]). now rewrite (P y E).
Qed.

Lemma line_ok (g : bool) (t : result bool) (p x : bool) :
  (g = true -> forall y, t = Ok y -> y = p) ->
  and_then g t = Ok x -> x = g && p.
Proof.
  intros P. unfold and_then. destruct g; [now apply P|now intros [= <-]].
Qed.

Lemma id_includes_ok dag term x :
  Dashboard.id_includes dag term = Ok x ->
  x = match read dag "dag_id" with
      | VStr s => includes (toLowerCase s) (toLowerCase term)
      | _ => false
      end.
Proof.
  unfold Dashboard.id_includes. intros H.
  apply rbind_ok in H as (v & G & H). rewrite <- (get_ok _ _ _ G).
  destruct v; try discriminate H. now injection H as <-.
Qed.

Lemma tag_missing_ok dag tag x :
  negb (is_empty tag) = true ->
  Dashboard.tag_missing dag tag = Ok x ->
  x = negb match read dag "tags" with
           | VArr l => Dashboard.has_member l tag
           | VStr s => includes s tag
           | _ => false
           end.
Proof.
  unfold Dashboard.tag_missing. intros N H.
  apply rbind_ok in H as (v & G & H). rewrite <- (get_ok _ _ _ G).
  destruct (truthy v) eqn:T; cbn [negb] in H.
  - destruct v; try discriminate H; now injection H as <-.
  - injection H as <-. destruct v as [| |[]|n|s|l|ps]; try reflexivity;
      try discriminate T.
    cbn in T. destruct s; [|discriminate T].
    destruct tag; [discriminate N|reflexivity].
Qed.

(** When the callback of [filteredData] does not throw, it decides what
    [shows] says. *)
Lemma keeps_shows st dag b : Dashboard.keeps st dag = Ok b -> b = shows st dag.
Proof.
  unfold Dashboard.keeps, shows. cbn [passes]. intros H.
  apply rbind_ok in H as (x1 & E1 & H).
  apply (line_ok _ _ _ _ (fun _ y => rnot_ok _ _ y (id_includes_ok dag _))) in E1.
  destruct (is_empty (Dashboard.searchTerm st));
    cbn [negb andb orb] in *; subst x1.
  2: destruct (match read dag "dag_id" with VStr _ => _ | _ => _ end);
       cbn [negb andb orb] in *; [|now injection H as <-].
  all: apply rbind_ok in H as (x2 & E2 & H);
    apply (line_ok _ _ _ _ (fun _ => field_ok dag _)) in E2; fold (is_paused dag) in E2;
    destruct (String.eqb (Dashboard.statusFilter st) "running");
    cbn [negb andb orb] in *; subst x2.
  all: try (destruct (is_paused dag) eqn:P; cbn [negb andb orb] in *;
            [now injection H as <-|]).
  all: apply rbind_ok in H as (x3 & E3 & H);
    apply (line_ok _ _ _ _ (fun _ y => rnot_ok _ _ y (field_ok dag _))) in E3;
    fold (is_paused dag) in E3; rewrite ?P in E3;
    destruct (String.eqb (Dashboard.statusFilter st) "paused");
    cbn [negb andb orb] in *; subst x3.
  all: try (destruct (is_paused dag) eqn:P'; cbn [negb andb orb] in *;
            [|now injection H as <-]).
  all: try (now injection H as <-).
  all: apply rbind_ok in H as (x4 & E4 & H);
    apply (line_ok _ _ _ _ (fun _ y => rnot_ok _ _ y (field_ok dag _))) in E4;
    destruct (String.eqb (Dashboard.activeFilter st) "active");
    cbn [negb andb orb] in *; subst x4.
  all: try (destruct (truthy (read dag "is_active")) eqn:A;
            cbn [negb andb orb] in *; [|now injection H as <-]).
  all: apply rbind_ok in H as (x5 & E5 & H);
    apply (line_ok _ _ _ _ (fun _ => field_ok dag _)) in E5; rewrite ?A in E5;
    destruct (String.eqb (Dashboard.activeFilter st) "inactive");
    cbn [negb andb orb] in *; subst x5.
  all: try (destruct (truthy (read dag "is_active")) eqn:A';
            cbn [negb andb orb] in *; [now injection H as <-|]).
  all: try (now injection H as <-).
  all: apply rbind_ok in H as (x6 & E6 & H);
    apply (line_ok _ _ _ _ (fun g y => tag_missing_ok dag _ y g)) in E6;
    destruct (is_empty (Dashboard.tagFilter st));
    cbn [negb andb orb] in *; subst x6.
  all: try (now injection H as <-).
  all: destruct (match read dag "tags" with VArr _ => _ | VStr _ => _ | _ => _ end);
    cbn [negb] in H; now injection H as <-.
Qed.

Lemma filterM_filter {A} (f : A -> result bool) (p : A -> bool) l rows :
  (forall x b, f x = Ok b -> b = p x) ->
  filterM f l = Ok rows -> rows = filter p l.
Proof.
  intros P. revert rows. induction l as [|x l IH]; intros rows; cbn [filterM filter].
  - now intros [= <-].
  - intros H. apply rbind_ok in H as (b & E & H).
    apply rbind_ok in H as (rest & R & [= <-]).
    rewrite <- (P x b E), <- (IH rest R). reflexivity.
Qed.

Lemma filterM_total {A} (f : A -> result bool) (p : A -> bool) l :
  Forall (fun x => f x = Ok (p x)) l -> filterM f l = Ok (filter p l).
Proof.
  induction 1 as [|x l E _ IH]; cbn [filterM filter]; [reflexivity|].
  rewrite E, IH. reflexivity.
Qed.

Lemma filter_data_ok f d rows :
  Dashboard.filter_data f d = Ok rows ->
  exists l, d = VArr l /\ filterM f l = Ok rows.
Proof. destruct d; try discriminate. intros H. eauto. Qed.






(** X20: with no filter chosen, as when the dashboard starts, the
    callback of [filteredData] reads no property of an entry: every entry
    of the table is kept, in order, and the filter throws nothing even on
    an entry that is [null]. *)
Theorem no_filter_keeps_every_entry :
  forall (st : Dashboard.state) (l : list value),
    Dashboard.dagData st = VArr l ->
    Dashboard.searchTerm st = "" ->
    Dashboard.statusFilter st = "all" ->
    Dashboard.activeFilter st = "all" ->
    Dashboard.tagFilter st = "" ->
    Dashboard.filteredData st = Ok l.
Proof.
  intros st l D T S A G.
  unfold Dashboard.filteredData. rewrite D. cbn [Dashboard.filter_data].
  rewrite (filterM_total _ (fun _ => true)).
  - f_equal. clear D. induction l as [|x l IH]; [reflexivity|].
    cbn. now rewrite IH.
  - apply Forall_forall. intros dag _.
    unfold Dashboard.keeps. now rewrite T, S, A, G.
Qed.

Lemma no_filter_keeps_every_entry_witness :
  Dashboard.filteredData
    (Dashboard.State (VArr [VNull; VStr "etl"]) false 1 "" "all" "all" "")
  = Ok [VNull; VStr "etl"].
Proof.
  apply (no_filter_keeps_every_entry
           (Dashboard.State (VArr [VNull; VStr "etl"]) false 1 "" "all" "all" ""));
    reflexivity.
Defined.



Lemma filteredData_rows st rows :
  Dashboard.filteredData st = Ok rows ->
  exists l, Dashboard.dagData st = VArr l /\ rows = filter (shows st) l.
Proof.
  unfold Dashboard.filteredData. intros H.
  apply filter_data_ok in H as (l & D & H). exists l. split; [exact D|].
  exact (filterM_filter _ _ _ _ (keeps_shows st) H).
Qed.

Lemma shows_running st dag :
  shows (Dashboard.setStatusFilter "running" st) dag
  = shows (Dashboard.setStatusFilter "all" st) dag && negb (is_paused dag).
Proof.
  unfold shows. cbn.
  repeat match goal with |- context [?a || ?b] =>
    first [is_var a | is_var b | generalize (a || b); intros ?] end.
  repeat match goal with |- context [negb ?a] =>
    first [is_var a | generalize a; intros ?] end.
  repeat match goal with b : bool |- _ => destruct b end; reflexivity.
Qed.

Lemma shows_paused st dag :
  shows (Dashboard.setStatusFilter "paused" st) dag
  = shows (Dashboard.setStatusFilter "all" st) dag && is_paused dag.
Proof.
  unfold shows. cbn.
  repeat match goal with |- context [?a || ?b] =>
    first [is_var a | is_var b | generalize (a || b); intros ?] end.
  repeat match goal with |- context [negb ?a] =>
    first [is_var a | generalize a; intros ?] end.
  generalize (is_paused dag). intros ?.
  repeat match goal with b : bool |- _ => destruct b end; reflexivity.
Qed.

Lemma length_filter_and {A} (s p : A -> bool) l :
  List.length (filter (fun x => s x && negb (p x)) l)
  + List.length (filter (fun x => s x && p x) l)
  = List.length (filter s l).
Proof.
  induction l as [|x l IH]; cbn; [reflexivity|].
  destruct (s x), (p x); cbn; lia.
Qed.

Lemma filter_twice {A} (s p : A -> bool) l :
  filter p (filter s l) = filter (fun x => s x && p x) l.
Proof.
  induction l as [|x l IH]; cbn; [reflexivity|].
  destruct (s x); cbn; [destruct (p x)|]; now rewrite IH.
Qed.

(** X22: the filters Running and Paused of the dashboard split the rows
    of All Status, the other filters being equal: when the three are
    computed without error, every row of All Status is a row of exactly
    one of the two, the rows of Running are the entries whose [is_paused]
    is falsy, an entry without the field among them, and the rows of
    Paused those whose [is_paused] is truthy. *)
Theorem status_filters_split_the_rows :
  forall (st : Dashboard.state) (every running paused : list value),
    Dashboard.filteredData (Dashboard.setStatusFilter "all" st) = Ok every ->
    Dashboard.filteredData (Dashboard.setStatusFilter "running" st) = Ok running ->
    Dashboard.filteredData (Dashboard.setStatusFilter "paused" st) = Ok paused ->
    List.length running + List.length paused = List.length every
    /\ running = filter (fun dag => negb (is_paused dag)) every
    /\ paused = filter is_paused every.
Proof.
  intros st a r p Ha Hr Hp.
  apply filteredData_rows in Ha as (l & D & ->).
  apply filteredData_rows in Hr as (l1 & D1 & ->).
  apply filteredData_rows in Hp as (l2 & D2 & ->).
  cbn [Dashboard.setStatusFilter Dashboard.dagData] in D, D1, D2.
  assert (l1 = l) by congruence. assert (l2 = l) by congruence. subst l1 l2.
  rewrite (filter_ext _ _ (shows_running st)), (filter_ext _ _ (shows_paused st)).
  split; [apply length_filter_and|].
  rewrite !filter_twice. split; reflexivity.
Qed.

Lemma status_filters_split_the_rows_witness :
  exists every running paused,
    Dashboard.filteredData
      (Dashboard.setStatusFilter "all"
         (Dashboard.State
            (VArr [VObj [("dag_id", VStr "a"); ("is_paused", VBool true)];
                   VObj [("dag_id", VStr "b")]])
            false 1 "" "all" "all" "")) = Ok every
    /\ Dashboard.filteredData
         (Dashboard.setStatusFilter "running"
            (Dashboard.State
               (VArr [VObj [("dag_id", VStr "a"); ("is_paused", VBool true)];
                      VObj [("dag_id", VStr "b")]])
               false 1 "" "all" "all" "")) = Ok running
    /\ Dashboard.filteredData
         (Dashboard.setStatusFilter "paused"
            (Dashboard.State
               (VArr [VObj [("dag_id", VStr "a"); ("is_paused", VBool true)];
                      VObj [("dag_id", VStr "b")]])
               false 1 "" "all" "all" "")) = Ok paused
    /\ List.length running + List.length paused = List.length every.
Proof.
  do 3 eexists. split; [reflexivity|]. split; [reflexivity|].
  split; [reflexivity|].
  exact (proj1 (status_filters_split_the_rows
                  (Dashboard.State
                     (VArr [VObj [("dag_id", VStr "a"); ("is_paused", VBool true)];
                            VObj [("dag_id", VStr "b")]])
                     false 1 "" "all" "all" "")
                  _ _ _ eq_refl eq_refl eq_refl)).
Defined.

Lemma card_rows (f : value -> result bool) (p : value -> bool) d n :
  (forall x b, f x = Ok b -> b = p x) ->
  (let? l := Dashboard.filter_data f d in Ok (List.length l)) = Ok n ->
  exists l, d = VArr l /\ n = List.length (filter p l).
Proof.
  intros P H. apply rbind_ok in H as (rows & H & [= <-]).
  apply filter_data_ok in H as (l & -> & H).
  exists l. split; [reflexivity|]. now rewrite (filterM_filter _ _ _ _ P H).
Qed.

(** X23: the counters Paused and Active of the dashboard count the rows
    that the filters show: whenever they are computed without error,
    Paused is the number of rows under the filter Paused alone, and Active
    the number of rows under Running with Active Only. *)
Theorem counters_count_the_filtered_rows :
  forall (d : value) (lo : bool) (cp : Z) (paused active : nat)
         (paused_rows active_rows : list value),
    Dashboard.paused_card d = Ok paused ->
    Dashboard.active_card d = Ok active ->
    Dashboard.filteredData (Dashboard.State d lo cp "" "paused" "all" "")
      = Ok paused_rows ->
    Dashboard.filteredData (Dashboard.State d lo cp "" "running" "active" "")
      = Ok active_rows ->
    List.length paused_rows = paused /\ List.length active_rows = active.
Proof.
  intros d lo cp n m rp ra Hn Hm Hp Ha.
  apply filteredData_rows in Hp as (l & D & ->).
  apply filteredData_rows in Ha as (l' & D' & ->).
  cbn [Dashboard.dagData] in D, D'. subst d. injection D' as ->.
  apply (card_rows _ is_paused) in Hn as (l1 & [= <-] & ->);
    [|intros x b; apply field_ok].
  apply (card_rows _ (fun x => truthy (read x "is_active") && negb (is_paused x)))
    in Hm as (l2 & [= <-] & ->).
  - split; f_equal; apply filter_ext; intros dag; unfold shows; cbn;
      unfold is_paused; destruct (truthy (read dag "is_paused")),
        (truthy (read dag "is_active")); reflexivity.
  - intros x b H. apply rbind_ok in H as (a & A & H).
    rewrite <- (field_ok _ _ _ A). destruct a; [|now injection H as <-].
    cbn [andb]. exact (rnot_ok _ _ _ (field_ok x "is_paused") H).
Qed.

Lemma counters_count_the_filtered_rows_witness :
  exists paused_rows active_rows,
    Dashboard.filteredData
      (Dashboard.State
         (VArr [VObj [("dag_id", VStr "a"); ("is_paused", VBool true)];
                VObj [("dag_id", VStr "b"); ("is_active", VBool true)];
                VObj [("dag_id", VStr "c")]])
         false 1 "" "paused" "all" "") = Ok paused_rows
    /\ Dashboard.filteredData
         (Dashboard.State
            (VArr [VObj [("dag_id", VStr "a"); ("is_paused", VBool true)];
                   VObj [("dag_id", VStr "b"); ("is_active", VBool true)];
                   VObj [("dag_id", VStr "c")]])
            false 1 "" "running" "active" "") = Ok active_rows
    /\ List.length paused_rows = 1 /\ List.length active_rows = 1.
Proof.
  do 2 eexists. split; [reflexivity|]. split; [reflexivity|].
  exact (counters_count_the_filtered_rows
           (VArr [VObj [("dag_id", VStr "a"); ("is_paused", VBool true)];
                  VObj [("dag_id", VStr "b"); ("is_active", VBool true)];
                  VObj [("dag_id", VStr "c")]])
           false 1 1 1 _ _ eq_refl eq_refl eq_refl eq_refl).
Defined.

(** ** The pages of the dashboard *)

Lemma totalPages_bounds rows :
  (Z.of_nat (List.length rows)
   <= Dashboard.totalPages rows * Dashboard.itemsPerPage
   < Z.of_nat (List.length rows) + Dashboard.itemsPerPage)%Z.
Proof. apply ceil_div_bounds; [reflexivity|lia]. Qed.

Lemma page_numbers_range n :
  Forall (fun p => (1 <= p <= n)%Z) (page_numbers n).
Proof.
  unfold page_numbers. apply Forall_forall. intros p H.
  apply in_map_iff in H as (j & <- & H). apply in_seq in H. lia.
Qed.

(** X24: on one of its pages, the dashboard stays on its pages: Prev,
    Next and the numbered buttons, of which there are at most ten, lead to
    a page between 1 and [totalPages], the page shown has between 1 and
    100 rows, and the pages from 1 to [totalPages] put end to end are the
    filtered rows. *)
Theorem dashboard_buttons_stay_on_the_pages :
  forall (rows : list value) (currentPage : Z),
    (1 <= currentPage <= Dashboard.totalPages rows)%Z ->
    (1 <= Dashboard.prev currentPage <= Dashboard.totalPages rows)%Z
    /\ (1 <= Dashboard.next rows currentPage <= Dashboard.totalPages rows)%Z
    /\ Forall (fun n => (1 <= n <= Dashboard.totalPages rows)%Z /\ (n <= 10)%Z)
              (Dashboard.page_buttons rows)
    /\ (1 <= Z.of_nat (List.length (Dashboard.paginatedData rows currentPage))
         <= 100)%Z
    /\ concat (map (Dashboard.paginatedData rows)
                   (page_numbers (Dashboard.totalPages rows)))
       = rows.
Proof.
  intros rows p R.
  assert (B := totalPages_bounds rows). unfold Dashboard.itemsPerPage in B.
  split; [unfold Dashboard.prev; destruct (Z.eqb_spec p 1); lia|].
  split; [unfold Dashboard.next;
          destruct (Z.eqb_spec p (Dashboard.totalPages rows)); lia|].
  split.
  { unfold Dashboard.page_buttons.
    apply Forall_impl with (2 := page_numbers_range _). intros n. lia. }
  split.
  { unfold Dashboard.paginatedData, Dashboard.itemsPerPage.
    rewrite slice_page by lia. rewrite length_firstn, length_skipn. nia. }
  apply (pages_concat Dashboard.itemsPerPage rows). reflexivity.
Qed.

Lemma dashboard_buttons_stay_on_the_pages_witness :
  (1 <= Dashboard.next (repeat (VStr "etl") 201) 3
   <= Dashboard.totalPages (repeat (VStr "etl") 201))%Z
  /\ Z.of_nat (List.length (Dashboard.paginatedData (repeat (VStr "etl") 201) 3))
     = 1%Z.
Proof.
  destruct (dashboard_buttons_stay_on_the_pages (repeat (VStr "etl") 201) 3)
    as (_ & A & _); [vm_compute; split; discriminate|].
  split; [exact A|reflexivity].
Defined.

(** X25: no filter of the dashboard resets the page, and an empty table
    has no page: after a change of any of the four filters the page is
    what it was; on a page beyond [totalPages] no row is shown, whatever
    the filtered rows are, and Next, which is enabled there, leads to
    [totalPages], which is page 0 when there is no row; page 0 shows no row
    either, and Prev leads from it to page 1. *)
Theorem page_beyond_the_last_is_empty :
  forall (st : Dashboard.state) (chosen : string)
         (change : Dashboard.state -> Dashboard.state) (rows : list value),
    In change [Dashboard.setSearchTerm chosen; Dashboard.setStatusFilter chosen;
               Dashboard.setActiveFilter chosen; Dashboard.setTagFilter chosen] ->
    Dashboard.filteredData (change st) = Ok rows ->
    let page := Dashboard.currentPage (change st) in
    (Dashboard.totalPages rows < page)%Z ->
    page = Dashboard.currentPage st
    /\ Dashboard.paginatedData rows page = []
    /\ Dashboard.next rows page = Dashboard.totalPages rows
    /\ (rows = [] -> Dashboard.next rows page = 0%Z)
    /\ Dashboard.paginatedData rows 0 = []
    /\ Dashboard.prev 0 = 1%Z.
Proof.
  intros st chosen change rows C _ page H.
  assert (B := totalPages_bounds rows). unfold Dashboard.itemsPerPage in B.
  assert (N : Dashboard.next rows page = Dashboard.totalPages rows).
  { unfold Dashboard.next.
    destruct (Z.eqb_spec page (Dashboard.totalPages rows)); lia. }
  split; [|split; [|split; [exact N|split; [|split]]]].
  - subst page. cbn [In] in C.
    destruct C as [<-|[<-|[<-|[<-|[]]]]]; reflexivity.
  - unfold Dashboard.paginatedData, Dashboard.itemsPerPage.
    rewrite slice_page by lia.
    rewrite skipn_beyond by lia. apply firstn_nil.
  - intros ->. rewrite N. reflexivity.
  - unfold Dashboard.paginatedData, slice, clamp_index, Dashboard.itemsPerPage.
    cbn [Z.sub Z.mul Z.opp Z.add Z.ltb Z.compare Z.pos_sub].
    replace (Z.to_nat _) with 0%nat; [reflexivity|].
    change (0 * 100)%Z with 0%Z. cbn [Z.ltb Z.compare]. lia.
  - reflexivity.
Qed.

Lemma page_beyond_the_last_is_empty_witness :
  Dashboard.filteredData
    (Dashboard.setSearchTerm "report"
       (Dashboard.State
          (VArr (repeat (VObj [("dag_id", VStr "etl")]) 250
                 ++ [VObj [("dag_id", VStr "report")]])%list)
          false 3 "" "all" "all" ""))
  = Ok [VObj [("dag_id", VStr "report")]]
  /\ Dashboard.paginatedData [VObj [("dag_id", VStr "report")]] 3 = []
  /\ Dashboard.next [VObj [("dag_id", VStr "report")]] 3 = 1%Z.
Proof.
  split; [reflexivity|].
  destruct (page_beyond_the_last_is_empty
              (Dashboard.State
                 (VArr (repeat (VObj [("dag_id", VStr "etl")]) 250
                        ++ [VObj [("dag_id", VStr "report")]])%list)
                 false 3 "" "all" "all" "")
              "report" (Dashboard.setSearchTerm "report")
              [VObj [("dag_id", VStr "report")]] (or_introl eq_refl) eq_refl)
    as (_ & A & B & _); [reflexivity|].
  split; [exact A|exact B].
Defined.

(** ** The fetch of the dashboard *)

(** X19: [fetchDagData] lets no exception out, makes one request, the
    query "list dags", and ends with the in-progress flag off, the page
    and the filters as they were.  It keeps the table it had when the
    request fails, the body is not JSON or the body is [null]; on any other
    body, whatever the status of the response, it replaces the table by
    [output.dags] if that is not falsy and by the empty table otherwise. *)
Theorem fetchDagData_replaces_or_keeps_the_table :
  forall (b : backend) (h : list event) (st : Dashboard.state),
    run b h (Dashboard.fetchDagData st)
    = ((Ok tt,
        Dashboard.State
          (fetched_table (Dashboard.dagData st) (b h (PostRun "list dags")))
          false (Dashboard.currentPage st) (Dashboard.searchTerm st)
          (Dashboard.statusFilter st) (Dashboard.activeFilter st)
          (Dashboard.tagFilter st)),
       (h ++ [Call (PostRun "list dags")])%list).
Proof.
  intros b h [d lo cp term sf af tf].
  unfold Dashboard.fetchDagData, Dashboard.setLoading, Dashboard.setDagData,
    finally, catch, fetchM.
  cbn [bind update pbind run fst snd Dashboard.dagData Dashboard.loading
       Dashboard.currentPage Dashboard.searchTerm Dashboard.statusFilter
       Dashboard.activeFilter Dashboard.tagFilter].
  unfold get.
  destruct (b h (PostRun "list dags")) as [e|s [data|e]];
    cbn [bind lift ret update pbind run fst snd fetched_table
         Dashboard.dagData Dashboard.loading
         Dashboard.currentPage Dashboard.searchTerm Dashboard.statusFilter
         Dashboard.activeFilter Dashboard.tagFilter];
    try reflexivity.
  destruct (is_nullish data);
    cbn [bind lift ret update pbind run fst snd
         Dashboard.dagData Dashboard.loading
         Dashboard.currentPage Dashboard.searchTerm Dashboard.statusFilter
         Dashboard.activeFilter Dashboard.tagFilter];
    reflexivity.
Qed.

(** ** The placeholder of the input *)

Lemma substring_length k t :
  k <= String.length t -> String.length (substring 0 k t) = k.
Proof.
  revert t. induction k as [|k IH]; intros [|c t]; cbn; try lia.
  intros H. rewrite IH; lia.
Qed.

Lemma substring_none t : substring 0 0 t = "".
Proof. now destruct t. Qed.

Lemma substring_all t : substring 0 (String.length t) t = t.
Proof. induction t as [|c t IH]; cbn; [reflexivity|now rewrite IH]. Qed.

Lemma eqb_shorter k t :
  k < String.length t -> String.eqb (substring 0 k t) t = false.
Proof.
  intros H. apply String.eqb_neq. intros E.
  apply (f_equal String.length) in E. rewrite substring_length in E; lia.
Qed.

Lemma is_empty_substring k t :
  k < String.length t -> is_empty (substring 0 (S k) t) = false.
Proof. destruct t; cbn; [lia|reflexivity]. Qed.

Section Ticks.
Variable texts : list string.
Variable pause : nat.
Variable idx : nat.
Variable t : string.
Hypothesis current : nth_error texts idx = Some t.

Lemma typing_ticks j : forall k,
  k + j = String.length t ->
  Typewriter.ticks texts pause j (Typewriter.State (substring 0 k t) idx false)
  = Ok (Typewriter.State t idx false, 80 * j).
Proof.
  induction j as [|j IH]; intros k H; cbn [Typewriter.ticks].
  - replace k with (String.length t) by lia. now rewrite substring_all.
  - unfold Typewriter.tick at 1.
    cbn [Typewriter.isDeleting Typewriter.placeholder Typewriter.placeholderIndex
         negb andb].
    rewrite current, (eqb_shorter k t) by lia. cbn [rbind fst snd].
    rewrite substring_length by lia.
    replace (k + 1) with (S k) by lia. rewrite (IH (S k)) by lia.
    cbn [rbind fst snd]. do 2 f_equal. lia.
Qed.

Lemma deleting_ticks k :
  k <= String.length t ->
  Typewriter.ticks texts pause k (Typewriter.State (substring 0 k t) idx true)
  = Ok (Typewriter.State "" idx true, 30 * k).
Proof.
  induction k as [|k IH]; intros H; cbn [Typewriter.ticks].
  - now destruct t.
  - unfold Typewriter.tick at 1.
    cbn [Typewriter.isDeleting Typewriter.placeholder Typewriter.placeholderIndex
         negb andb].
    rewrite current, (is_empty_substring k t) by lia. cbn [rbind fst snd].
    rewrite substring_length by lia.
    replace (S k - 1) with k by lia. rewrite IH by lia.
    cbn [rbind fst snd]. do 2 f_equal. lia.
Qed.

Lemma ticks_add n m st st' d :
  Typewriter.ticks texts pause n st = Ok (st', d) ->
  Typewriter.ticks texts pause (n + m) st
  = let? r := Typewriter.ticks texts pause m st' in Ok (fst r, d + snd r).
Proof.
  revert st d. induction n as [|n IH]; intros st d; cbn [Typewriter.ticks Nat.add].
  - intros [= -> <-]. destruct (Typewriter.ticks texts pause m st') as [[]|];
      reflexivity.
  - destruct (Typewriter.tick texts pause st) as [[s1 d1]|e]; [|discriminate].
    cbn [rbind fst snd].
    destruct (Typewriter.ticks texts pause n s1) as [[s2 d2]|e] eqn:E;
      [|discriminate].
    cbn [rbind fst snd]. intros [= <- <-]. rewrite (IH _ _ E).
    destruct (Typewriter.ticks texts pause m s2) as [[s3 d3]|e];
      cbn [rbind fst snd]; [|reflexivity].
    do 2 f_equal. lia.
Qed.

Lemma one_cycle :
  Typewriter.ticks texts pause (cycle_ticks t) (Typewriter.State "" idx false)
  = Ok (Typewriter.State "" ((idx + 1) mod List.length texts) false,
        cycle_time pause t).
Proof.
  unfold cycle_ticks, cycle_time.
  replace (2 * String.length t + 2)
    with (String.length t + (1 + (String.length t + 1))) by lia.
  assert (T := typing_ticks (String.length t) 0 eq_refl).
  rewrite substring_none in T.
  rewrite (ticks_add _ _ _ _ _ T).
  assert (P : Typewriter.ticks texts pause 1 (Typewriter.State t idx false)
              = Ok (Typewriter.State t idx true, pause)).
  { cbn [Typewriter.ticks]. unfold Typewriter.tick.
    cbn [Typewriter.isDeleting Typewriter.placeholder Typewriter.placeholderIndex
         negb andb].
    rewrite current, String.eqb_refl. cbn [rbind fst snd]. do 2 f_equal. lia. }
  rewrite (ticks_add _ _ _ _ _ P).
  assert (D := deleting_ticks (String.length t) (le_n _)).
  rewrite substring_all in D.
  rewrite (ticks_add _ _ _ _ _ D).
  cbn [Typewriter.ticks]. unfold Typewriter.tick.
  cbn [Typewriter.isDeleting Typewriter.placeholder Typewriter.placeholderIndex
       negb andb is_empty rbind fst snd].
  do 2 f_equal. lia.
Qed.

End Ticks.

(** X26: the placeholder of the input types the current text letter by
    letter, one letter each 80 ms, shows it whole for the pause, deletes it
    letter by letter, one each 30 ms, and passes to the next text, the
    first one after the last: from an empty placeholder, a text of [n]
    letters is whole after [n] ticks, and after [2 n + 2] ticks the
    placeholder is empty again, on the next text, [110 n] ms and the pause
    later. *)
Theorem placeholder_types_and_deletes :
  forall (placeholderTexts : list string) (pause idx : nat) (t : string),
    nth_error placeholderTexts idx = Some t ->
    Typewriter.ticks placeholderTexts pause (String.length t)
                     (Typewriter.State "" idx false)
    = Ok (Typewriter.State t idx false, 80 * String.length t)
    /\ Typewriter.ticks placeholderTexts pause (cycle_ticks t)
                        (Typewriter.State "" idx false)
       = Ok (Typewriter.State ""
               ((idx + 1) mod List.length placeholderTexts) false,
             cycle_time pause t).
Proof.
  intros texts pause idx t H. split.
  - rewrite <- (substring_none t) at 1.
    exact (typing_ticks texts pause idx t H (String.length t) 0 eq_refl).
  - exact (one_cycle texts pause idx t H).
Qed.

Lemma placeholder_types_and_deletes_witness :
  Typewriter.ticks Detail_placeholderTexts 2000 52
                   (Typewriter.State "" 5 false)
  = Ok (Typewriter.initial, 4750).
Proof.
  exact (proj2 (placeholder_types_and_deletes Detail_placeholderTexts 2000 5
                  "Show latest run status..." eq_refl)).
Defined.

Lemma partial_rounds texts pause mid : forall pre post,
  texts = (pre ++ mid ++ post)%list -> post <> [] ->
  Typewriter.ticks texts pause (period_ticks mid)
                   (Typewriter.State "" (List.length pre) false)
  = Ok (Typewriter.State "" (List.length pre + List.length mid) false,
        period_time pause mid).
Proof.
  induction mid as [|t mid IH]; intros pre post E N.
  - cbn [period_ticks period_time map list_sum Typewriter.ticks List.length].
    now rewrite Nat.add_0_r.
  - assert (C : nth_error texts (List.length pre) = Some t).
    { rewrite E, nth_error_app2, Nat.sub_diag by lia. reflexivity. }
    assert (L : List.length pre + 1 < List.length texts).
    { rewrite E, !length_app. cbn [List.length].
      destruct post; [contradiction|cbn [List.length]; lia]. }
    change (period_ticks (t :: mid)) with (cycle_ticks t + period_ticks mid).
    change (period_time pause (t :: mid))
      with (cycle_time pause t + period_time pause mid).
    rewrite (ticks_add _ _ _ _ _ _ _ (one_cycle texts pause _ t C)).
    rewrite Nat.mod_small by exact L.
    replace (List.length pre + 1) with (List.length (pre ++ [t])%list)
      by (rewrite length_app; reflexivity).
    rewrite (IH (pre ++ [t])%list post); [|now rewrite E, <- app_assoc|exact N].
    cbn [rbind fst snd]. rewrite length_app. cbn [List.length].
    do 3 f_equal. lia.
Qed.

Lemma rounds_to texts pause idx t :
  nth_error texts idx = Some t ->
  Typewriter.ticks texts pause (period_ticks (firstn idx texts))
                   Typewriter.initial
  = Ok (Typewriter.State "" idx false, period_time pause (firstn idx texts)).
Proof.
  intros C.
  assert (I : idx < List.length texts) by (apply nth_error_Some; congruence).
  assert (E := partial_rounds texts pause (firstn idx texts) []
                 (t :: skipn (S idx) texts)).
  cbn [app List.length Nat.add] in E.
  rewrite length_firstn, Nat.min_l in E by lia.
  apply E; [|discriminate].
  symmetry. now apply firstn_skipn_middle.
Qed.

(** X27: on a list of texts that is not empty, the placeholder of the
    input goes round the texts without throwing: from its first state it
    comes to show each text of [placeholderTexts] whole, after the rounds
    of the texts before it, and after the last text it is back in its
    first state, [2 n + 2] ticks, [110 n] ms and one pause for each text of
    [n] letters. *)
Theorem placeholder_goes_round_the_texts :
  forall (placeholderTexts : list string) (pause : nat),
    placeholderTexts <> [] ->
    (forall idx t,
        nth_error placeholderTexts idx = Some t ->
        Typewriter.ticks placeholderTexts pause
          (period_ticks (firstn idx placeholderTexts) + String.length t)
          Typewriter.initial
        = Ok (Typewriter.State t idx false,
              period_time pause (firstn idx placeholderTexts)
              + 80 * String.length t))
    /\ Typewriter.ticks placeholderTexts pause (period_ticks placeholderTexts)
                        Typewriter.initial
       = Ok (Typewriter.initial, period_time pause placeholderTexts).
Proof.
  intros texts pause N. split.
  - intros idx t C.
    rewrite (ticks_add _ _ _ _ _ _ _ (rounds_to texts pause idx t C)).
    rewrite <- (substring_none t) at 1.
    now rewrite (typing_ticks texts pause idx t C (String.length t) 0 eq_refl).
  - destruct (exists_last N) as (pre & t & E).
    assert (C : nth_error texts (List.length pre) = Some t).
    { rewrite E, nth_error_app2, Nat.sub_diag by lia. reflexivity. }
    assert (F : firstn (List.length pre) texts = pre).
    { rewrite E, firstn_app, Nat.sub_diag, firstn_all. cbn [firstn].
      apply app_nil_r. }
    assert (R := rounds_to texts pause _ t C). rewrite F in R.
    assert (P : period_ticks texts = period_ticks pre + cycle_ticks t).
    { rewrite E. unfold period_ticks. rewrite map_app, list_sum_app. cbn. lia. }
    assert (T : period_time pause texts
                = period_time pause pre + cycle_time pause t).
    { rewrite E. unfold period_time. rewrite map_app, list_sum_app. cbn. lia. }
    rewrite P, T, (ticks_add _ _ _ _ _ _ _ R).
    rewrite (one_cycle texts pause _ t C). cbn [rbind fst snd].
    replace (List.length pre + 1) with (List.length texts)
      by (rewrite E, length_app; reflexivity).
    now rewrite Nat.Div0.mod_same.
Qed.

Lemma placeholder_goes_round_the_texts_witness :
  Typewriter.ticks Detail_placeholderTexts 2000 276 Typewriter.initial
  = Ok (Typewriter.initial, 110 * 132 + 6 * 2000)
  /\ Typewriter.ticks Chatbot2_placeholderTexts 2500 66 Typewriter.initial
     = Ok (Typewriter.initial, 110 * 32 + 2500).
Proof.
  split.
  - apply (placeholder_goes_round_the_texts Detail_placeholderTexts 2000).
    discriminate.
  - apply (placeholder_goes_round_the_texts Chatbot2_placeholderTexts 2500).
    discriminate.
Defined.

(** ** The tags of the dashboard *)

Lemma same_value_zero_eq a b : same_value_zero a b = true -> a = b.
Proof.
  destruct a, b; cbn; try discriminate; try reflexivity; intros H.
  - now apply Bool.eqb_prop in H as ->.
  - now apply Z.eqb_eq in H as ->.
  - now apply String.eqb_eq in H as ->.
Qed.

Lemma same_value_zero_sym a b : same_value_zero a b = same_value_zero b a.
Proof.
  destruct a, b; cbn; try reflexivity.
  - now destruct b0, b.
  - apply Z.eqb_sym.
  - apply String.eqb_sym.
Qed.

Lemma In_set_add set t x :
  In x (Dashboard.set_add set t) <-> In x set \/ x = t.
Proof.
  unfold Dashboard.set_add.
  destruct (existsb (same_value_zero t) set) eqn:E.
  - split; [tauto|]. intros [H| ->]; [exact H|].
    apply existsb_exists in E as (a & I & S).
    now rewrite (same_value_zero_eq _ _ S).
  - rewrite in_app_iff. cbn. intuition congruence.
Qed.

Lemma FOP_snoc {A} (R : A -> A -> Prop) l x :
  ForallOrdPairs R l -> Forall (fun a => R a x) l ->
  ForallOrdPairs R (l ++ [x]).
Proof.
  induction 1 as [|a l F P IH]; intros H; cbn [app].
  - repeat constructor.
  - inversion H as [|? ? Ha Hl]; subst. constructor; [|now apply IH].
    apply Forall_app. split; [exact F|now constructor].
Qed.

Lemma distinct_set_add set t : distinct set -> distinct (Dashboard.set_add set t).
Proof.
  intros D. unfold Dashboard.set_add.
  destruct (existsb (same_value_zero t) set) eqn:E; [exact D|].
  apply FOP_snoc; [exact D|].
  apply Forall_forall. intros a I. rewrite same_value_zero_sym.
  destruct (same_value_zero t a) eqn:S; [|reflexivity].
  assert (X : existsb (same_value_zero t) set = true)
    by (apply existsb_exists; eauto).
  congruence.
Qed.

Lemma fold_set_add l : forall set,
  (distinct set -> distinct (fold_left Dashboard.set_add l set))
  /\ (forall x, In x (fold_left Dashboard.set_add l set) <-> In x set \/ In x l).
Proof.
  induction l as [|t l IH]; intros set; cbn [fold_left In].
  - split; [tauto|]. intros x. tauto.
  - destruct (IH (Dashboard.set_add set t)) as [D I]. split.
    + intros H. apply D, distinct_set_add, H.
    + intros x. rewrite I, In_set_add. intuition congruence.
Qed.

Lemma add_tags_ok set d set' :
  Dashboard.add_tags set d = Ok set' ->
  is_nullish d = false
  /\ (truthy (read d "tags") = false \/ isArray (read d "tags") = true)
  /\ (distinct set -> distinct set')
  /\ (forall x, In x set' <-> In x set \/ tag_of [d] x).
Proof.
  unfold Dashboard.add_tags. intros H.
  apply rbind_ok in H as (tags & G & H).
  assert (N : is_nullish d = false).
  { unfold get in G. destruct (is_nullish d); [discriminate|reflexivity]. }
  apply get_ok in G. subst tags. split; [exact N|].
  assert (T : forall x, tag_of [d] x
                        <-> exists tags, read d "tags" = VArr tags /\ In x tags).
  { intros x. split.
    - intros (d' & tags & [<-|[]] & R & I). eauto.
    - intros (tags & R & I). exists d, tags. cbn. tauto. }
  destruct (read d "tags") as [| |b|n|s|l|ps] eqn:R; cbn [is_nullish] in H;
    try discriminate H; injection H as <-.
  1, 2: split; [now left|]; split; [tauto|]; intros x; rewrite T;
    split; [tauto|]; intros [I|(tags & [=] & _)]; exact I.
  split; [now right|].
  destruct (fold_set_add l set) as [D I]. split; [exact D|].
  intros x. rewrite I, T. split.
  - intros [H|H]; [now left|right; eauto].
  - intros [H|(tags & [= <-] & H)]; tauto.
Qed.

Lemma tag_of_cons d l x : tag_of (d :: l) x <-> tag_of [d] x \/ tag_of l x.
Proof.
  split.
  - intros (d' & tags & [<-|I] & R & T).
    + left. exists d, tags. cbn. tauto.
    + right. exists d', tags. tauto.
  - intros [(d' & tags & [<-|[]] & R & T)|(d' & tags & I & R & T)].
    + exists d, tags. cbn. tauto.
    + exists d', tags. cbn. tauto.
Qed.

Lemma foldM_add_tags l : forall set set',
  foldM Dashboard.add_tags l set = Ok set' ->
  Forall (fun d => is_nullish d = false
                   /\ (truthy (read d "tags") = false
                       \/ isArray (read d "tags") = true)) l
  /\ (distinct set -> distinct set')
  /\ (forall x, In x set' <-> In x set \/ tag_of l x).
Proof.
  induction l as [|d l IH]; intros set set'; cbn [foldM].
  - intros [= <-]. split; [constructor|]. split; [tauto|].
    intros x. split; [tauto|]. intros [H|(d & tags & [] & _)]. exact H.
  - intros H. apply rbind_ok in H as (s1 & A & H).
    apply add_tags_ok in A as (N & T & D1 & I1).
    apply IH in H as (F & D2 & I2).
    split; [constructor; [split; assumption|exact F]|].
    split; [tauto|].
    intros x. rewrite I2, I1, (tag_of_cons d l x). tauto.
Qed.

Lemma In_insert x y l : In x (insert y l) <-> x = y \/ In x l.
Proof.
  induction l as [|z l IH]; cbn [insert In]; [intuition congruence|].
  destruct (sort_leb y z); cbn [In]; rewrite ?IH; intuition congruence.
Qed.

Lemma In_sort x l : In x (sort l) <-> In x l.
Proof.
  unfold sort. induction l as [|y l IH]; cbn [fold_right In]; [tauto|].
  rewrite In_insert, IH. intuition congruence.
Qed.






Lemma Array_sort_ok l ts : Array_sort l = Ok ts -> ts = sort l.
Proof.
  unfold Array_sort. destruct (_ && _); [discriminate|]. now intros [= <-].
Qed.



Lemma keeps_tag_alone lo cp data t d :
  t <> "" ->
  is_nullish d = false ->
  truthy (read d "tags") = false \/ isArray (read d "tags") = true ->
  Dashboard.keeps (Dashboard.State data lo cp "" "all" "all" t) d
  = Ok (tagged t d).
Proof.
  intros T N A. unfold Dashboard.keeps.
  cbn [Dashboard.searchTerm Dashboard.statusFilter Dashboard.activeFilter
       Dashboard.tagFilter].
  rewrite (is_empty_false t T).
  change (passes _)
    with (let? b := Dashboard.tag_missing d t in
          if b then Ok false else Ok true).
  unfold Dashboard.tag_missing, tagged.
  rewrite (get_not_nullish _ _ N). cbn [rbind].
  destruct A as [A|A].
  - rewrite A. cbn [negb rbind].
    destruct (read d "tags") as [| |b|n|s|l|ps]; try reflexivity;
      discriminate A.
  - destruct (read d "tags") as [| |b|n|s|l|ps]; try discriminate A.
    cbn [truthy negb rbind]. now destruct (Dashboard.has_member l t).
Qed.

Lemma has_member_In l t : In (VStr t) l -> Dashboard.has_member l t = true.
Proof.
  intros H. unfold Dashboard.has_member. apply existsb_exists.
  exists (VStr t). split; [exact H|apply String.eqb_refl].
Qed.

(** X29: every tag of [allTags] shows a row when it is the tag filter:
    when [allTags] is computed without error and one of its tags, a string
    that is not empty, is the tag filter, with no other filter,
    [filteredData] is computed without error, holds the entries that have
    the tag among their tags, and is not empty. *)
Theorem offered_tag_shows_a_row :
  forall (lo : bool) (cp : Z) (l ts : list value) (t : string),
    Dashboard.allTags (VArr l) = Ok ts ->
    In (VStr t) ts ->
    t <> "" ->
    Dashboard.filteredData (Dashboard.State (VArr l) lo cp "" "all" "all" t)
    = Ok (filter (tagged t) l)
    /\ filter (tagged t) l <> [].
Proof.
  intros lo cp l ts t H I T. cbn [Dashboard.allTags] in H.
  apply rbind_ok in H as (set & F & H). apply Array_sort_ok in H as ->.
  apply foldM_add_tags in F as (W & _ & M).
  apply In_sort, M in I. destruct I as [[]|(d & tags & Id & R & It)].
  split.
  - unfold Dashboard.filteredData. cbn [Dashboard.dagData Dashboard.filter_data].
    apply filterM_total.
    apply Forall_impl with (2 := W). intros x [N A].
    now apply keeps_tag_alone.
  - intros E.
    assert (X : In d (filter (tagged t) l)).
    { apply filter_In. split; [exact Id|].
      unfold tagged. rewrite R. now apply has_member_In. }
    rewrite E in X. exact X.
Qed.

Lemma offered_tag_shows_a_row_witness :
  Dashboard.filteredData
    (Dashboard.State
       (VArr [VObj [("dag_id", VStr "a"); ("tags", VArr [VStr "prod"; VStr "etl"])];
              VObj [("dag_id", VStr "b")];
              VObj [("dag_id", VStr "c"); ("tags", VArr [VStr "etl"; VStr "Ops"])]])
       false 1 "" "all" "all" "Ops")
  = Ok [VObj [("dag_id", VStr "c"); ("tags", VArr [VStr "etl"; VStr "Ops"])]].
Proof.
  apply (offered_tag_shows_a_row false 1
           [VObj [("dag_id", VStr "a"); ("tags", VArr [VStr "prod"; VStr "etl"])];
            VObj [("dag_id", VStr "b")];
            VObj [("dag_id", VStr "c"); ("tags", VArr [VStr "etl"; VStr "Ops"])]]
           [VStr "Ops"; VStr "etl"; VStr "prod"] "Ops");
    [reflexivity|now left|discriminate].
Defined.
